(** * React-Vite-Boilerplate scaffolding tool: template builder, project
      generator and CLI test harness

    A shallow embedding of [scripts/build-template.js], [bin/cli.js] and the
    CLI test script over an explicit file tree.

    - The file system is a tree of [node]s addressed by absolute paths
      (lists of components).  A directory keeps its entries in listing
      order, which is the order [readdirSync] reports them in.
    - A file's content is kept as what [JSON.parse] makes of its text:
      [Json j] when the text parses to [j], [Raw s] for any text that is not
      JSON.  [JSON.stringify] followed by [JSON.parse] is the identity on
      the values these programs write, so writing [JSON.stringify j] is
      writing [Json j].
    - A computation is a function from the process state (file tree and
      working directory) to an outcome, the new state and the lines it
      printed.  Exceptions keep the state reached so far, as in Node.
    - The collaborators the programs call but do not define (the prompt
      library, the spawned [git]/[npm] commands, [RegExp]) are parameters. *)

From Stdlib Require Import String Ascii List Bool Arith Lia ZArith DecimalString.
Import ListNotations.

Set Warnings "-register-all,-notation-for-abbreviation".

Local Open Scope string_scope.
Local Open Scope list_scope.

Infix "+++" := String.append (right associativity, at level 60).

(** ** Strings *)

Definition nl : string := String (ascii_of_nat 10) EmptyString.
Definition dquote : string := String (ascii_of_nat 34) EmptyString.

(** [s.includes(c)] for a one-character needle. *)
Fixpoint includes (c : ascii) (s : string) : bool :=
  match s with
  | EmptyString => false
  | String a s' => Ascii.eqb a c || includes c s'
  end.

(** [s.startsWith(p)]. *)
Definition startsWith (p s : string) : bool := String.prefix p s.

(** White space of [String.prototype.trim], on the ASCII range. *)
Definition is_space (a : ascii) : bool :=
  let n := nat_of_ascii a in
  ((n =? 32) || ((9 <=? n) && (n <=? 13)))%nat.

Fixpoint trimStart (s : string) : string :=
  match s with
  | EmptyString => EmptyString
  | String a s' => if is_space a then trimStart s' else s
  end.

Fixpoint all_space (s : string) : bool :=
  match s with
  | EmptyString => true
  | String a s' => is_space a && all_space s'
  end.

Fixpoint trimEnd (s : string) : string :=
  match s with
  | EmptyString => EmptyString
  | String a s' => if all_space s then EmptyString else String a (trimEnd s')
  end.

Definition trim (s : string) : string := trimEnd (trimStart s).

(** The character class [[a-zA-Z0-9-_]]. *)
Definition ident_char (a : ascii) : bool :=
  let n := nat_of_ascii a in
  (((97 <=? n) && (n <=? 122)) || ((65 <=? n) && (n <=? 90)) ||
   ((48 <=? n) && (n <=? 57)) || (n =? 45) || (n =? 95))%nat.

Fixpoint all_chars (f : ascii -> bool) (s : string) : bool :=
  match s with
  | EmptyString => true
  | String a s' => f a && all_chars f s'
  end.

(** [/^[a-zA-Z0-9-_]+$/.test(s)]: without the [m] flag [$] is the end of the
    input, so the whole string is one or more characters of the class. *)
Definition ident_regex (s : string) : bool :=
  match s with
  | EmptyString => false
  | _ => all_chars ident_char s
  end.

(** JavaScript truthiness of a string. *)
Definition truthy_str (s : string) : bool :=
  match s with EmptyString => false | _ => true end.

(** ** Paths (POSIX) *)

Definition path := list string.

Definition slash : ascii := ascii_of_nat 47.

(** Split at every [/]; [segments "a/b"] is [["a"; "b"]]. *)
Fixpoint segments_aux (cur : string) (s : string) : list string :=
  match s with
  | EmptyString => [cur]
  | String a s' =>
      if Ascii.eqb a slash then cur :: segments_aux EmptyString s'
      else segments_aux (cur +++ String a EmptyString) s'
  end.

Definition segments (s : string) : list string := segments_aux EmptyString s.

(** Normalisation of [path.resolve]: empty and [.] segments are dropped,
    [..] steps to the parent (the root is its own parent). *)
Fixpoint normalize (acc : path) (segs : list string) : path :=
  match segs with
  | [] => acc
  | s :: rest =>
      if String.eqb s EmptyString || String.eqb s "." then normalize acc rest
      else if String.eqb s ".." then normalize (removelast acc) rest
      else normalize (acc ++ [s]) rest
  end.

Definition is_absolute (s : string) : bool :=
  match s with
  | String a _ => Ascii.eqb a slash
  | EmptyString => false
  end.

(** [path.resolve(cwd, s)] for an absolute [cwd]. *)
Definition resolve (cwd : path) (s : string) : path :=
  if is_absolute s then normalize [] (segments s)
  else normalize cwd (segments s).

(** [path.join(dir, name)] for a single component [name]. *)
Definition join (dir : path) (name : string) : path := dir ++ [name].

(** [path.basename(p)]. *)
Definition basename (p : path) : string := last p EmptyString.

(** [path.dirname(p)]. *)
Definition dirname (p : path) : path := removelast p.

Fixpoint strip_common (a b : path) : path * path :=
  match a, b with
  | x :: a', y :: b' => if String.eqb x y then strip_common a' b' else (a, b)
  | _, _ => (a, b)
  end.

(** [path.relative(from, to)]: one [..] for every component of [from] that
    [to] does not share, then the rest of [to]. *)
Definition relative (from to : path) : string :=
  let '(up, down) := strip_common from to in
  String.concat "/" (map (fun _ => "..") up ++ down).

(** ** JSON values and property operations *)

Inductive json : Type :=
| JNull
| JBool (b : bool)
| JNum (n : Z)
| JStr (s : string)
| JArr (l : list json)
| JObj (m : list (string * json)).

(** Objects keep their keys in insertion order. *)
Section Assoc.
Context {V : Type}.

Fixpoint alookup (k : string) (m : list (string * V)) : option V :=
  match m with
  | [] => None
  | (k', v) :: m' => if String.eqb k k' then Some v else alookup k m'
  end.

(** Assignment keeps the position of an existing key and appends a new
    one. *)
Fixpoint aset (k : string) (v : V) (m : list (string * V))
  : list (string * V) :=
  match m with
  | [] => [(k, v)]
  | (k', v') :: m' =>
      if String.eqb k k' then (k, v) :: m' else (k', v') :: aset k v m'
  end.

Fixpoint adel (k : string) (m : list (string * V)) : list (string * V) :=
  match m with
  | [] => []
  | (k', v') :: m' =>
      if String.eqb k k' then adel k m' else (k', v') :: adel k m'
  end.

Definition akeys (m : list (string * V)) : list string := map fst m.
End Assoc.

Inductive error : Type :=
| ENOENT (p : path)
| ENOTDIR (p : path)
| EISDIR (p : path)
| EEXIST (p : path)
| CopyError (src dest : path)
| SyntaxError
| TypeError
| CommandFailed (cmd : string)
| JsError (msg : string).

(** [obj.k]: [undefined] is [None]; reading a property of [null] throws. *)
Definition get_prop (k : string) (j : json) : error + option json :=
  match j with
  | JNull => inl TypeError
  | JObj m => inr (alookup k m)
  | _ => inr None
  end.

(** [obj.k = v] in strict mode (both scripts are ES modules): a primitive
    or [null] receiver throws; on an array the property is created but is
    not an element, so [JSON.stringify] does not show it. *)
Definition set_prop (k : string) (v : json) (j : json) : error + json :=
  match j with
  | JObj m => inr (JObj (aset k v m))
  | JArr l => inr (JArr l)
  | _ => inl TypeError
  end.

(** [delete obj.k]: only [null] throws. *)
Definition delete_prop (k : string) (j : json) : error + json :=
  match j with
  | JNull => inl TypeError
  | JObj m => inr (JObj (adel k m))
  | _ => inr j
  end.

Definition truthy (j : json) : bool :=
  match j with
  | JNull => false
  | JBool b => b
  | JNum n => negb (Z.eqb n 0)
  | JStr s => truthy_str s
  | JArr _ | JObj _ => true
  end.

Definition truthy_opt (o : option json) : bool :=
  match o with Some j => truthy j | None => false end.

(** [k in obj] for a parsed JSON value. *)
Definition has_key (k : string) (j : json) : bool :=
  match j with
  | JObj m => match alookup k m with Some _ => true | None => false end
  | _ => false
  end.

(** ** The file tree *)

Inductive content : Type :=
| Json (j : json)
| Raw (s : string).

Inductive node : Type :=
| File (c : content)
| Dir (es : list (string * node)).

Fixpoint lookup (p : path) (t : node) : option node :=
  match p with
  | [] => Some t
  | x :: p' =>
      match t with
      | File _ => None
      | Dir es =>
          match alookup x es with
          | Some c => lookup p' c
          | None => None
          end
      end
  end.

(** Bind [p] to [v]; the parent of [p] has to be a directory. *)
Fixpoint put (p : path) (v : node) (t : node) : option node :=
  match p with
  | [] => Some v
  | x :: p' =>
      match t with
      | File _ => None
      | Dir es =>
          match p', alookup x es with
          | [], _ => Some (Dir (aset x v es))
          | _, Some c =>
              match put p' v c with
              | Some c' => Some (Dir (aset x c' es))
              | None => None
              end
          | _, None => None
          end
      end
  end.

(** Remove the entry at [p] with everything below it. *)
Fixpoint remove (p : path) (t : node) : node :=
  match p with
  | [] => Dir []
  | x :: p' =>
      match t with
      | File _ => t
      | Dir es =>
          match p' with
          | [] => Dir (adel x es)
          | _ =>
              match alookup x es with
              | Some c => Dir (aset x (remove p' c) es)
              | None => t
              end
          end
      end
  end.

(** [mkdir -p]: create the missing directories along [p]; fails on a file
    in the way. *)
Fixpoint mkdirp (p : path) (t : node) : option node :=
  match p with
  | [] => match t with Dir _ => Some t | File _ => None end
  | x :: p' =>
      match t with
      | File _ => None
      | Dir es =>
          let c := match alookup x es with Some c => c | None => Dir [] end in
          match mkdirp p' c with
          | Some c' => Some (Dir (aset x c' es))
          | None => None
          end
      end
  end.

Fixpoint height (t : node) : nat :=
  match t with
  | File _ => 0
  | Dir es =>
      S ((fix hs (l : list (string * node)) : nat :=
            match l with
            | [] => 0
            | (_, c) :: l' => Nat.max (height c) (hs l')
            end) es)
  end.

(** ** Processes: state, output and outcomes *)

Record state : Type := { files : node; cwd : path }.

Inductive style : Type := Plain | Red | Green | Yellow | Blue | Cyan | Bold.

(** What a run prints: [console.log] lines with their [chalk] style,
    [console.error] lines together with the error value they report, the
    transitions of an [ora] spinner, and the report Node prints of an
    exception that nothing caught. *)
Inductive event : Type :=
| ConsoleLog (st : style) (s : string)
| ConsoleError (st : style) (s : string) (e : error)
| SpinnerStart (s : string)
| SpinnerSucceed (s : string)
| SpinnerFail (s : string)
| SpinnerWarn (s : string)
| Uncaught (e : error).

(** How a computation stops short of a value: with an exception, by
    [process.exit], waiting for ever on a prompt, or with the recursion
    budget of the model used up. *)
Inductive abort : Type :=
| Thrown (e : error)
| Exited (code : nat)
| Blocking
| NoFuel.

Inductive outcome (A : Type) : Type :=
| Ret (a : A)
| Abort (x : abort).

Arguments Ret {A} a.
Arguments Abort {A} x.

Definition M (A : Type) : Type := state -> outcome A * state * list event.

Definition ret {A} (a : A) : M A := fun s => (Ret a, s, []).

Definition bind {A B} (m : M A) (k : A -> M B) : M B :=
  fun s =>
    match m s with
    | (Ret a, s1, o1) =>
        match k a s1 with
        | (r, s2, o2) => (r, s2, o1 ++ o2)
        end
    | (Abort x, s1, o1) => (Abort x, s1, o1)
    end.

Declare Scope proc_scope.
Delimit Scope proc_scope with proc.
Notation "x <- m ;; k" := (bind m (fun x => k))
  (at level 61, m at next level, right associativity) : proc_scope.
Notation "m ;; k" := (bind m (fun _ => k))
  (at level 61, right associativity) : proc_scope.
Local Open Scope proc_scope.

Definition abort_with {A} (x : abort) : M A := fun s => (Abort x, s, []).
Definition throw {A} (e : error) : M A := abort_with (Thrown e).
Definition exit {A} (code : nat) : M A := abort_with (Exited code).
Definition blocked {A} : M A := abort_with Blocking.
Definition out_of_fuel {A} : M A := abort_with NoFuel.
Definition emit (e : event) : M unit := fun s => (Ret tt, s, [e]).
Definition console_log (st : style) (msg : string) : M unit :=
  emit (ConsoleLog st msg).

(** [try { m } catch (error) { h error }]: only exceptions are caught. *)
Definition try_catch {A} (m : M A) (h : error -> M A) : M A :=
  fun s =>
    match m s with
    | (Abort (Thrown e), s1, o1) =>
        match h e s1 with
        | (r, s2, o2) => (r, s2, o1 ++ o2)
        end
    | r => r
    end.

(** The top level of a module: an exception that nothing catches is
    reported and ends the process with code 1. *)
Definition top_level (m : M unit) : M unit :=
  try_catch m (fun error => emit (Uncaught error) ;; exit 1).

(** A JavaScript expression that may throw. *)
Definition js {A} (r : error + A) : M A :=
  match r with
  | inl e => throw e
  | inr a => ret a
  end.

(** [for (const x of l) body(x)]. *)
Fixpoint for_each {A} (l : list A) (body : A -> M unit) : M unit :=
  match l with
  | [] => ret tt
  | x :: l' => body x ;; for_each l' body
  end.

(** ** File-system calls *)

Definition get_files : M node := fun s => (Ret (files s), s, []).
Definition set_files (t : node) : M unit :=
  fun s => (Ret tt, {| files := t; cwd := cwd s |}, []).

Definition existsSync (p : path) : M bool :=
  t <- get_files ;;
  ret (match lookup p t with Some _ => true | None => false end).

Definition removeSync (p : path) : M unit :=
  t <- get_files ;; set_files (remove p t).

(** [fs.mkdirSync(p, { recursive: true })]. *)
Definition mkdirSync (p : path) : M unit :=
  t <- get_files ;;
  match mkdirp p t with
  | Some t' => set_files t'
  | None => throw (ENOTDIR p)
  end.

Definition readdirSync (p : path) : M (list string) :=
  t <- get_files ;;
  match lookup p t with
  | Some (Dir es) => ret (akeys es)
  | Some (File _) => throw (ENOTDIR p)
  | None => throw (ENOENT p)
  end.

(** [fs.statSync(p).isDirectory()]. *)
Definition statSync_isDirectory (p : path) : M bool :=
  t <- get_files ;;
  match lookup p t with
  | Some (Dir _) => ret true
  | Some (File _) => ret false
  | None => throw (ENOENT p)
  end.

Definition readFileSync (p : path) : M content :=
  t <- get_files ;;
  match lookup p t with
  | Some (File c) => ret c
  | Some (Dir _) => throw (EISDIR p)
  | None => throw (ENOENT p)
  end.

Definition writeFileSync (p : path) (c : content) : M unit :=
  t <- get_files ;;
  match lookup p t with
  | Some (Dir _) => throw (EISDIR p)
  | _ =>
      match put p (File c) t with
      | Some t' => set_files t'
      | None => throw (ENOENT p)
      end
  end.

Definition copyFileSync (src dest : path) : M unit :=
  c <- readFileSync src ;; writeFileSync dest c.

Definition JSON_parse (c : content) : M json :=
  match c with
  | Json j => ret j
  | Raw _ => throw SyntaxError
  end.

(** [process.chdir(p)]. *)
Definition chdir (p : path) : M unit :=
  fun s =>
    match lookup p (files s) with
    | Some (Dir _) => (Ret tt, {| files := files s; cwd := p |}, [])
    | Some (File _) => (Abort (Thrown (ENOTDIR p)), s, [])
    | None => (Abort (Thrown (ENOENT p)), s, [])
    end.

Definition process_cwd : M path := fun s => (Ret (cwd s), s, []).

(** * The template builder ([scripts/build-template.js]) *)

Section Builder.

(** [new RegExp(source).test(subject)]. *)
Variable regexp_test : string -> string -> bool.

(** The two fixed texts the builder writes. *)
Variables gitignoreContent readmeContent : string.

(** [rootDir = path.join(__dirname, '..')]. *)
Variable rootDir : path.

Definition templateDir : path := join rootDir "template".

Definition excludePatterns : list string :=
  [ "node_modules"; "dist"; "build"; ".git"; ".env"; ".env.local";
    ".env.development.local"; ".env.test.local"; ".env.production.local";
    "yarn.lock"; "package-lock.json"; "pnpm-lock.yaml"; ".DS_Store";
    "Thumbs.db"; "npm-debug.log"; "yarn-debug.log"; "yarn-error.log";
    "lerna-debug.log"; "coverage"; ".nyc_output"; "playwright-report";
    "test-results"; "storybook-static"; ".storybook/manager-head.html";
    "bin"; "scripts"; "template" ].

(** Declared by the script and not used by it. *)
Definition filesToProcess : list string :=
  ["package.json"; "README.md"; ".gitignore"].

Definition star : ascii := ascii_of_nat 42.

(** [pattern.replace(/\*/g, '.*')]. *)
Fixpoint replace_stars (s : string) : string :=
  match s with
  | EmptyString => EmptyString
  | String a s' =>
      if Ascii.eqb a star then ".*" +++ replace_stars s'
      else String a (replace_stars s')
  end.

Definition matches_pattern (relativePath base : string) (pattern : string)
  : bool :=
  if includes star pattern then
    regexp_test (replace_stars pattern) relativePath
  else
    String.eqb relativePath pattern
    || startsWith (pattern +++ "/") relativePath
    || String.eqb base pattern.

Definition shouldExclude (filePath basePath : path) : bool :=
  let relativePath := relative basePath filePath in
  existsb (matches_pattern relativePath (basename filePath)) excludePatterns.

Fixpoint copyDirectory (fuel : nat) (src dest : path) : M unit :=
  match fuel with
  | 0 => out_of_fuel
  | S fuel' =>
      present <- existsSync dest ;;
      (if present then ret tt else mkdirSync dest) ;;
      items <- readdirSync src ;;
      for_each items (fun item =>
        let srcPath := join src item in
        let destPath := join dest item in
        if shouldExclude srcPath rootDir then
          console_log Plain ("Excluding: " +++ relative rootDir srcPath)
        else
          isDirectory <- statSync_isDirectory srcPath ;;
          if isDirectory then copyDirectory fuel' srcPath destPath
          else
            copyFileSync srcPath destPath ;;
            console_log Plain ("Copied: " +++ relative rootDir srcPath))
  end.

(** Sequencing of expressions that may throw. *)
Definition and_then {A B} (r : error + A) (f : A -> error + B) : error + B :=
  match r with
  | inl e => inl e
  | inr a => f a
  end.

(** [delete d[k1]; delete d[k2]; ...]. *)
Definition delete_all (ks : list string) (d : json) : error + json :=
  fold_left (fun acc k1 => and_then acc (delete_prop k1)) ks (inr d).

(** [if (obj[k]) { delete obj[k][k1]; ... }]: the nested object is changed
    in place, so the property keeps its position. *)
Definition delete_in (k : string) (ks : list string) (j : json)
  : error + json :=
  and_then (get_prop k j) (fun o =>
    if truthy_opt o then
      match o with
      | Some d => and_then (delete_all ks d) (fun d' => set_prop k d' j)
      | None => inr j
      end
    else inr j).

(** Lines 99-122: what [processTemplateFiles] does to the parsed manifest. *)
Definition rewrite_manifest (packageJson : json) : error + json :=
  and_then (delete_prop "bin" packageJson) (fun packageJson =>
  and_then (delete_prop "files" packageJson) (fun packageJson =>
  and_then (set_prop "name" (JStr "my-react-app") packageJson)
    (fun packageJson =>
  and_then (set_prop "version" (JStr "0.1.0") packageJson) (fun packageJson =>
  and_then (set_prop "private" (JBool true) packageJson) (fun packageJson =>
  and_then
    (delete_in "devDependencies"
       ["chalk"; "commander"; "fs-extra"; "inquirer"; "ora"] packageJson)
    (fun packageJson =>
  delete_in "scripts" ["prepublishOnly"; "build-template"; "test-cli"]
    packageJson)))))).

(** The [package.json] block of [processTemplateFiles], lines 94-126. *)
Definition processPackageJson : M unit :=
  let packageJsonPath := join templateDir "package.json" in
  present <- existsSync packageJsonPath ;;
  if present then
    text <- readFileSync packageJsonPath ;;
    packageJson <- JSON_parse text ;;
    packageJson <- js (rewrite_manifest packageJson) ;;
    writeFileSync packageJsonPath (Json packageJson) ;;
    console_log Plain "Processed: package.json"
  else ret tt.

Definition processTemplateFiles : M unit :=
  processPackageJson ;;
  writeFileSync (join templateDir ".gitignore") (Raw gitignoreContent) ;;
  console_log Plain "Created: .gitignore" ;;
  writeFileSync (join templateDir "README.md") (Raw readmeContent) ;;
  console_log Plain "Created: README.md".

(** [buildTemplate], block by block: lines 300-305, *)
Definition clear_template : M unit :=
  present <- existsSync templateDir ;;
  if present then
    removeSync templateDir ;;
    console_log Plain "Removed existing template directory"
  else ret tt.

(** lines 307-309, *)
Definition copy_files (fuel : nat) : M unit :=
  console_log Plain (nl +++ "📁 Copying files...") ;;
  copyDirectory fuel rootDir templateDir.

(** and lines 311-318. *)
Definition process_files : M unit :=
  console_log Plain (nl +++ "⚙️  Processing template files...") ;;
  processTemplateFiles ;;
  console_log Plain (nl +++ "✅ Template built successfully!") ;;
  here <- process_cwd ;;
  console_log Plain ("📦 Template location: " +++ relative here templateDir).

Definition buildTemplate (fuel : nat) : M unit :=
  console_log Plain ("🏗️  Building template..." +++ nl) ;;
  clear_template ;;
  copy_files fuel ;;
  process_files.

(** The script's last statement:
    [buildTemplate().catch(error => { console.error(...); process.exit(1) })];
    a process that reaches its end exits with code 0. *)
Definition build_main (fuel : nat) : M unit :=
  try_catch (buildTemplate fuel)
    (fun error =>
       emit (ConsoleError Plain "❌ Error building template:" error) ;;
       exit 1) ;;
  exit 0.

End Builder.

(** * The project generator ([bin/cli.js]) *)

Fixpoint path_eqb (a b : path) : bool :=
  match a, b with
  | [], [] => true
  | x :: a', y :: b' => String.eqb x y && path_eqb a' b'
  | _, _ => false
  end.

(** [is_prefix a b]: [b] is [a] or lies below it. *)
Fixpoint is_prefix (a b : path) : bool :=
  match a, b with
  | [], _ => true
  | x :: a', y :: b' => String.eqb x y && is_prefix a' b'
  | _ :: _, [] => false
  end.

(** Copying the entries [es] of a directory, one after the other, into a
    directory that holds [ds], given how one entry is copied onto what is
    there; the copy stops at the first entry that fails. *)
Definition merge_entries
  (merge : node -> option node -> option node * bool)
  : list (string * node) -> list (string * node) -> list (string * node) * bool :=
  fix go (es ds : list (string * node)) : list (string * node) * bool :=
    match es with
    | [] => (ds, true)
    | (k, n) :: es' =>
        match merge n (alookup k ds) with
        | (Some n', true) => go es' (aset k n' ds)
        | (Some n', false) => (aset k n' ds, false)
        | (None, _) => (ds, false)
        end
    end.

(** What [fs-extra]'s [copySync] leaves at the destination when it copies
    the tree [s] onto [d] ([None]: nothing is there yet), and whether it
    completed.  Files overwrite files, directories are merged entry by
    entry, and a file meeting a directory stops the copy with what was
    copied so far left in place. *)
Fixpoint merge (s : node) (d : option node) : option node * bool :=
  match s with
  | File c =>
      match d with
      | Some (Dir _) => (d, false)
      | _ => (Some (File c), true)
      end
  | Dir es =>
      match d with
      | Some (File _) => (d, false)
      | _ =>
          let ds0 := match d with Some (Dir ds) => ds | _ => [] end in
          let '(ds, ok) := merge_entries merge es ds0 in
          (Some (Dir ds), ok)
      end
  end.

(** [fs.copySync(src, dest)] of [fs-extra]. *)
Definition copySync (src dest : path) : M unit :=
  t <- get_files ;;
  match lookup src t with
  | None => throw (ENOENT src)
  | Some s =>
      if path_eqb src dest then throw (CopyError src dest)
      else if
        match s with Dir _ => is_prefix src dest | File _ => false end
      then throw (CopyError src dest)
      else
        parent_present <- existsSync (dirname dest) ;;
        (if parent_present then ret tt else mkdirSync (dirname dest)) ;;
        t1 <- get_files ;;
        match merge s (lookup dest t1) with
        | (Some n, ok) =>
            match put dest n t1 with
            | Some t2 =>
                set_files t2 ;;
                if ok then ret tt else throw (CopyError src dest)
            | None => throw (ENOTDIR dest)
            end
        | (None, _) => throw (CopyError src dest)
        end
  end.

(** The options [commander] hands to the action; [--package-manager] and
    [--template] have defaults, so they are always strings. *)
Record options : Type := {
  opt_template : string;
  opt_packageManager : string;
  opt_skipInstall : bool;
  opt_skipGit : bool
}.

(** The person at the terminal: the lines typed at the name prompt, in
    order; the answer they give to each of the other questions if it is
    asked; and the questions, by name, that they leave without an answer,
    at which the prompt waits for ever. *)
Record user : Type := {
  typed_names : list string;
  pick_packageManager : string;
  confirm_install : bool;
  confirm_git : bool;
  confirm_env : bool;
  confirm_overwrite : bool;
  unanswered : list string
}.

(** Whether the user answers the question of that name. *)
Definition responds (u : user) (question : string) : bool :=
  negb (existsb (String.eqb question) (unanswered u)).

(** One question of [inquirer.prompt]: the promise resolves only once the
    answer is given. *)
Definition ask {A} (u : user) (question : string) (answer : A) : M A :=
  if responds u question then ret answer else blocked.

Inductive validation : Type :=
| Valid
| Invalid (msg : string).

(** The [validate] callback of the name question. *)
Definition validate (input : string) : validation :=
  if negb (truthy_str (trim input)) then Invalid "Project name is required"
  else if negb (ident_regex input) then
    Invalid
      "Project name can only contain letters, numbers, hyphens, and underscores"
  else Valid.

(** An [input] question of the prompt library: an empty line stands for the
    default, and the question is asked again until [validate] accepts. *)
Fixpoint prompt_input (default : string) (check : string -> validation)
  (typed : list string) : M string :=
  match typed with
  | [] => blocked
  | line :: rest =>
      let value := if truthy_str line then line else default in
      match check value with
      | Valid => ret value
      | Invalid _ => prompt_input default check rest
      end
  end.

(** The answers object of the second prompt: a question whose [when] is
    false is not asked and leaves its key undefined. *)
Record answers : Type := {
  ans_packageManager : option string;
  ans_installDependencies : option bool;
  ans_initializeGit : option bool;
  ans_setupEnvironment : option bool
}.

Definition inquirer_answers (o : options) (u : user) : answers :=
  {| ans_packageManager :=
       if negb (truthy_str (opt_packageManager o))
       then Some (pick_packageManager u) else None;
     ans_installDependencies :=
       if negb (opt_skipInstall o) then Some (confirm_install u) else None;
     ans_initializeGit :=
       if negb (opt_skipGit o) then Some (confirm_git u) else None;
     ans_setupEnvironment := Some (confirm_env u) |}.

(** The questions of the second prompt that are asked, in order: those
    whose [when] is not false. *)
Definition questions (o : options) : list string :=
  (if negb (truthy_str (opt_packageManager o)) then ["packageManager"] else [])
  ++ (if negb (opt_skipInstall o) then ["installDependencies"] else [])
  ++ (if negb (opt_skipGit o) then ["initializeGit"] else [])
  ++ ["setupEnvironment"].

(** Lines 62-91: [await inquirer.prompt([...])] asks the questions one
    after the other and resolves with the answers object once the last one
    is answered. *)
Definition prompt_options (o : options) (u : user) : M answers :=
  for_each (questions o) (fun question => ask u question tt) ;;
  ret (inquirer_answers o u).

Record config : Type := {
  projectName : string;
  packageManager : string;
  installDependencies : bool;
  initializeGit : bool;
  setupEnvironment : bool;
  template : string
}.

(** [x !== false] for an answer that may be undefined. *)
Definition not_false (o : option bool) : bool :=
  match o with Some false => false | _ => true end.

Definition make_config (name : string) (o : options) (a : answers) : config :=
  {| projectName := name;
     packageManager :=
       if truthy_str (opt_packageManager o) then opt_packageManager o
       else match ans_packageManager a with
            | Some p => if truthy_str p then p else "npm"
            | None => "npm"
            end;
     installDependencies :=
       negb (opt_skipInstall o) && not_false (ans_installDependencies a);
     initializeGit := negb (opt_skipGit o) && not_false (ans_initializeGit a);
     setupEnvironment := not_false (ans_setupEnvironment a);
     template := opt_template o |}.

Section Generator.

(** A spawned command ([git], [npm], ...) run in the process's working
    directory: the file tree it leaves and whether it exited with 0. *)
Variable run_command : string -> state -> node * bool.

(** The installation root, [path.join(__dirname, '..')]. *)
Variable toolRoot : path.

(** [execSync(cmd, { stdio: 'ignore' })]. *)
Definition execSync (cmd : string) : M unit :=
  fun s =>
    let '(t, ok) := run_command cmd s in
    let s' := {| files := t; cwd := cwd s |} in
    if ok then (Ret tt, s', [])
    else (Abort (Thrown (CommandFailed cmd)), s', []).

(** [execSync(undefined)] when the table has no entry. *)
Definition execSync_opt (cmd : option string) : M unit :=
  match cmd with
  | Some c => execSync c
  | None => throw TypeError
  end.

(** Lines 38-59: the name is asked for only when none was given. *)
Definition resolve_name (arg : option string) (u : user) : M string :=
  match arg with
  | Some name =>
      if truthy_str name then ret name
      else prompt_input "my-react-app" validate (typed_names u)
  | None => prompt_input "my-react-app" validate (typed_names u)
  end.

(** Lines 125-134. *)
Definition copy_template (projectPath : path) : M unit :=
  emit (SpinnerStart "Copying template files...") ;;
  try_catch
    (copySync (join toolRoot "template") projectPath ;;
     emit (SpinnerSucceed "Template files copied"))
    (fun error =>
       emit (SpinnerFail "Failed to copy template files") ;;
       throw error).

(** Lines 136-142. *)
Definition rename_manifest (name : string) (projectPath : path) : M unit :=
  let projectPackageJsonPath := join projectPath "package.json" in
  present <- existsSync projectPackageJsonPath ;;
  if present then
    text <- readFileSync projectPackageJsonPath ;;
    projectPackageJson <- JSON_parse text ;;
    projectPackageJson <- js (set_prop "name" (JStr name) projectPackageJson) ;;
    writeFileSync projectPackageJsonPath (Json projectPackageJson)
  else ret tt.

(** Lines 144-158. *)
Definition setup_environment (c : config) (projectPath : path) : M unit :=
  if setupEnvironment c then
    emit (SpinnerStart "Setting up environment variables...") ;;
    try_catch
      (let envExamplePath := join projectPath ".env.example" in
       let envPath := join projectPath ".env" in
       present <- existsSync envExamplePath ;;
       (if present then copySync envExamplePath envPath else ret tt) ;;
       emit (SpinnerSucceed "Environment variables set up"))
      (fun _ => emit (SpinnerWarn "Could not set up environment variables"))
  else ret tt.

(** Lines 160-172. *)
Definition initialize_git (c : config) (projectPath : path) : M unit :=
  if initializeGit c then
    emit (SpinnerStart "Initializing git repository...") ;;
    try_catch
      (chdir projectPath ;;
       execSync "git init" ;;
       execSync "git add ." ;;
       execSync
         ("git commit -m " +++ dquote
          +++ "Initial commit from React Vite Boilerplate" +++ dquote) ;;
       emit (SpinnerSucceed "Git repository initialized"))
      (fun _ => emit (SpinnerWarn "Could not initialize git repository"))
  else ret tt.

Definition installCommands : list (string * string) :=
  [("npm", "npm install"); ("yarn", "yarn install"); ("pnpm", "pnpm install")].

(** Lines 174-193. *)
Definition install_dependencies (c : config) (projectPath : path) : M unit :=
  if installDependencies c then
    emit (SpinnerStart
            ("Installing dependencies with " +++ packageManager c +++ "...")) ;;
    try_catch
      (chdir projectPath ;;
       let installCommand := alookup (packageManager c) installCommands in
       execSync_opt installCommand ;;
       emit (SpinnerSucceed "Dependencies installed"))
      (fun _ =>
         emit (SpinnerFail "Failed to install dependencies") ;;
         console_log Yellow
           (nl +++ "You can install dependencies manually by running:") ;;
         console_log Cyan
           ("cd " +++ projectName c +++ " && " +++ packageManager c
            +++ " install"))
  else ret tt.

(** Lines 195-230. *)
Definition print_summary (c : config) : M unit :=
  let pm := packageManager c in
  console_log Green (nl +++ "✅ Project created successfully!" +++ nl) ;;
  console_log Bold "Next steps:" ;;
  console_log Cyan ("  cd " +++ projectName c) ;;
  (if negb (installDependencies c) then
     console_log Cyan ("  " +++ pm +++ " install")
   else ret tt) ;;
  console_log Cyan ("  " +++ pm +++ " dev") ;;
  console_log Bold (nl +++ "Available scripts:") ;;
  console_log Cyan
    ("  " +++ pm +++ " dev          # Start development server") ;;
  console_log Cyan ("  " +++ pm +++ " build        # Build for production") ;;
  console_log Cyan ("  " +++ pm +++ " test         # Run unit tests") ;;
  console_log Cyan ("  " +++ pm +++ " test-e2e     # Run E2E tests") ;;
  console_log Cyan ("  " +++ pm +++ " storybook    # Start Storybook") ;;
  console_log Cyan ("  " +++ pm +++ " generate     # Generate components") ;;
  console_log Bold (nl +++ "Documentation:") ;;
  console_log Cyan "  📚 Architecture docs: docs/README.md" ;;
  console_log Cyan "  🔐 Security guide: docs/SECURITY.md" ;;
  console_log Cyan "  🚀 Deployment guide: docs/DEPLOYMENT.md" ;;
  console_log Bold (nl +++ "Features included:") ;;
  console_log Green "  ✓ React 18 + TypeScript + Vite" ;;
  console_log Green "  ✓ Authentication & Authorization" ;;
  console_log Green "  ✓ TailwindCSS + Radix UI" ;;
  console_log Green "  ✓ TanStack Query + Zustand" ;;
  console_log Green "  ✓ Testing (Vitest + Playwright)" ;;
  console_log Green "  ✓ Storybook + Component Generation" ;;
  console_log Green "  ✓ ESLint + Prettier + Husky" ;;
  console_log Green "  ✓ Comprehensive Documentation" ;;
  console_log Blue (nl +++ "🎉 Happy coding!" +++ nl).

(** Lines 144-230: the optional steps and the summary. *)
Definition finish_project (c : config) (projectPath : path) : M unit :=
  setup_environment c projectPath ;;
  initialize_git c projectPath ;;
  install_dependencies c projectPath ;;
  print_summary c.

(** Lines 125-230: everything after the target check. *)
Definition generate (c : config) (projectPath : path) : M unit :=
  copy_template projectPath ;;
  rename_manifest (projectName c) projectPath ;;
  finish_project c projectPath.

Definition createProject (arg : option string) (o : options) (u : user)
  : M unit :=
  projectName <- resolve_name arg u ;;
  answers <- prompt_options o u ;;
  let config := make_config projectName o answers in
  console_log Blue
    (nl +++ "🚀 Creating your React Vite Boilerplate project..." +++ nl) ;;
  here <- process_cwd ;;
  let projectPath := resolve here projectName in
  present <- existsSync projectPath ;;
  if present then
    overwrite <- ask u "overwrite" (confirm_overwrite u) ;;
    if overwrite then
      removeSync projectPath ;;
      generate config projectPath
    else console_log Yellow "Project creation cancelled."
  else generate config projectPath.

(** Lines 16-23: the tool's own manifest is read and parsed when the module
    is loaded, and its [version] handed to [commander]. *)
Definition read_package_info : M (option json) :=
  text <- readFileSync (join toolRoot "package.json") ;;
  packageJson <- JSON_parse text ;;
  js (get_prop "version" packageJson).

(** The process: the module's top level (lines 16-23), where nothing
    catches an exception, then the [commander] action of lines 29-36; a
    process that reaches its end exits with code 0. *)
Definition cli_main (arg : option string) (o : options) (u : user) : M unit :=
  top_level
    (version <- read_package_info ;;
     try_catch (createProject arg o u)
       (fun error =>
          emit (ConsoleError Red "Error creating project:" error) ;;
          exit 1)) ;;
  exit 0.

End Generator.

(** * The CLI test harness (the [test-cli] script) *)

(** [String(v)], as a template literal renders a value. *)
Fixpoint js_String (j : json) : string :=
  match j with
  | JNull => "null"
  | JBool true => "true"
  | JBool false => "false"
  | JNum n => NilZero.string_of_int (Z.to_int n)
  | JStr s => s
  | JArr l =>
      String.concat ","
        (map (fun x => match x with JNull => EmptyString | _ => js_String x end)
           l)
  | JObj _ => "[object Object]"
  end.

Definition js_String_opt (o : option json) : string :=
  match o with Some j => js_String j | None => "undefined" end.

(** [path.join(dir, rel)] for a relative path with several components. *)
Definition join_rel (dir : path) (rel : string) : path :=
  normalize dir (segments rel).

Section Harness.

Variable regexp_test : string -> string -> bool.
Variables gitignoreContent readmeContent : string.
Variable run_command : string -> state -> node * bool.

(** [rootDir = path.join(__dirname, '..')], the repository root. *)
Variable rootDir : path.

(** Recursion budget handed to the builder. *)
Variable fuel : nat.

(** Who answers the prompts of the generator the harness starts. *)
Variable tester : user.

(** [process.env.TEST_INSTALL === 'true']. *)
Variable TEST_INSTALL : bool.

Definition testProjectName : string := "test-cli-project".
Definition testProjectPath : path := join rootDir testProjectName.

(** [execSync(cmd, { cwd: dir, stdio: 'inherit' })] where the command
    starts the program [child]: the child runs in [dir] on the same file
    tree and prints to the same terminal; a non-zero exit code makes
    [execSync] throw; the parent's working directory is its own. *)
Definition spawn (cmd : string) (dir : path) (child : M unit) : M unit :=
  fun s =>
    match child {| files := files s; cwd := dir |} with
    | (r, s1, o) =>
        let s' := {| files := files s1; cwd := cwd s |} in
        match r with
        | Ret _ | Abort (Exited 0) => (Ret tt, s', o)
        | Abort (Exited (S _)) | Abort (Thrown _) =>
            (Abort (Thrown (CommandFailed cmd)), s', o)
        | Abort Blocking => (Abort Blocking, s', o)
        | Abort NoFuel => (Abort NoFuel, s', o)
        end
    end.

(** [execSync(cmd, { cwd: dir, stdio: 'inherit' })] for a command that is
    not one of this repository's programs. *)
Definition execSync_in (cmd : string) (dir : path) : M unit :=
  fun s =>
    let '(t, ok) := run_command cmd {| files := files s; cwd := dir |} in
    let s' := {| files := t; cwd := cwd s |} in
    if ok then (Ret tt, s', [])
    else (Abort (Thrown (CommandFailed cmd)), s', []).

(** Modelled from the spec: the manifest of the repository, which maps the
    script name [build-template] to a command, is not among the sources;
    the spec has the harness "invoke the Template Builder", so
    [npm run build-template] starts [scripts/build-template.js]. *)
Definition npm_run_build_template : M unit :=
  spawn "npm run build-template" rootDir
    (build_main regexp_test gitignoreContent readmeContent rootDir fuel).

Definition node_bin_cli : M unit :=
  spawn ("node bin/cli.js " +++ testProjectName +++ " --skip-install --skip-git")
    rootDir
    (cli_main run_command rootDir (Some testProjectName)
       {| opt_template := "full"; opt_packageManager := "npm";
          opt_skipInstall := true; opt_skipGit := true |}
       tester).

Definition essentialFiles : list string :=
  [ "package.json"; "src/main.tsx"; "src/app/app.tsx"; "index.html";
    "vite.config.ts"; "tailwind.config.cjs"; ".env.example";
    "docs/README.md" ].

(** The body of the [try] block of [testCLI]. *)
Definition testCLI_body : M unit :=
  present <- existsSync testProjectPath ;;
  (if present then
     console_log Plain "🧹 Cleaning up existing test project..." ;;
     removeSync testProjectPath
   else ret tt) ;;
  console_log Plain "🏗️  Building template..." ;;
  npm_run_build_template ;;
  console_log Plain "🚀 Testing CLI with minimal options..." ;;
  node_bin_cli ;;
  created <- existsSync testProjectPath ;;
  (if negb created then throw (JsError "Test project was not created")
   else ret tt) ;;
  console_log Plain "✅ Project created successfully" ;;
  console_log Plain "🔍 Verifying essential files..." ;;
  for_each essentialFiles (fun file =>
    let filePath := join_rel testProjectPath file in
    there <- existsSync filePath ;;
    (if negb there then throw (JsError ("Essential file missing: " +++ file))
     else ret tt) ;;
    console_log Plain ("  ✓ " +++ file)) ;;
  let packageJsonPath := join testProjectPath "package.json" in
  text <- readFileSync packageJsonPath ;;
  packageJson <- JSON_parse text ;;
  name <- js (get_prop "name" packageJson) ;;
  (if match name with
      | Some (JStr n) => negb (String.eqb n testProjectName)
      | _ => true
      end
   then
     throw (JsError ("Package name not updated. Expected: "
                     +++ testProjectName +++ ", Got: " +++ js_String_opt name))
   else ret tt) ;;
  console_log Plain ("  ✓ package.json name updated to: " +++ js_String_opt name) ;;
  bin <- js (get_prop "bin" packageJson) ;;
  files_field <- js (get_prop "files" packageJson) ;;
  (if truthy_opt bin || truthy_opt files_field then
     throw (JsError "CLI-specific fields not removed from package.json")
   else ret tt) ;;
  console_log Plain "  ✓ CLI-specific fields removed" ;;
  (if TEST_INSTALL then
     console_log Plain "📦 Testing dependency installation..." ;;
     execSync_in "npm install" testProjectPath ;;
     console_log Plain "✅ Dependencies installed successfully" ;;
     console_log Plain "🏗️  Testing build..." ;;
     execSync_in "npm run build" testProjectPath ;;
     console_log Plain "✅ Build completed successfully"
   else ret tt) ;;
  console_log Plain (nl +++ "🎉 CLI test completed successfully!") ;;
  console_log Plain
    ("📁 Test project created at: " +++ String.concat "/" (EmptyString :: testProjectPath)) ;;
  console_log Plain (nl +++ "💡 To test manually:") ;;
  console_log Plain ("   cd " +++ testProjectName) ;;
  console_log Plain "   npm install" ;;
  console_log Plain "   npm run dev".

Definition testCLI : M unit :=
  console_log Plain ("🧪 Testing CLI..." +++ nl) ;;
  try_catch testCLI_body
    (fun error =>
       emit (ConsoleError Plain (nl +++ "❌ CLI test failed:") error) ;;
       exit 1).

Definition cleanup : M unit :=
  present <- existsSync testProjectPath ;;
  if present then
    console_log Plain (nl +++ "🧹 Cleaning up test project...") ;;
    removeSync testProjectPath ;;
    console_log Plain "✅ Cleanup completed"
  else ret tt.

(** The script's last statement,
    [testCLI().catch(error => { console.error(...); cleanup(); process.exit(1) })]. *)
Definition test_main : M unit :=
  try_catch testCLI
    (fun error =>
       emit (ConsoleError Plain "❌ Test failed:" error) ;;
       cleanup ;;
       exit 1) ;;
  exit 0.

End Harness.

(** * Specification vocabulary *)

Definition outcome_of {A} (r : outcome A * state * list event) : outcome A :=
  fst (fst r).
Definition state_of {A} (r : outcome A * state * list event) : state :=
  snd (fst r).
Definition output_of {A} (r : outcome A * state * list event) : list event :=
  snd r.

Definition with_files (s : state) (t : node) : state :=
  {| files := t; cwd := cwd s |}.

(** Partial-correctness triples: from a state in [P], a run that returns
    [a] ends in a state in [Q a], and a run that stops with [x] ends in a
    state in [E x]. *)
Definition hoare {A} (P : state -> Prop) (m : M A)
  (Q : A -> state -> Prop) (E : abort -> state -> Prop) : Prop :=
  forall s, P s ->
    match outcome_of (m s) with
    | Ret a => Q a (state_of (m s))
    | Abort x => E x (state_of (m s))
    end.

(** The exit code of a finished process. *)
Definition exit_code {A} (o : outcome A) : option nat :=
  match o with
  | Abort (Exited c) => Some c
  | _ => None
  end.

(** The three ways an exclusion rule matches an entry, given the entry's
    path relative to the source root. *)
Definition matches_rule (R : string) (p : path) : Prop :=
  String.concat "/" p = R
  \/ startsWith (R +++ "/") (String.concat "/" p) = true
  \/ basename p = R.

(** [shouldExclude] on the entry at the relative path [p]. *)
Definition excluded_rel (regexp_test : string -> string -> bool) (p : path)
  : bool :=
  existsb (matches_pattern regexp_test (String.concat "/" p) (basename p))
    excludePatterns.

(** No entry on the way from the source root down to [r] is excluded. *)
Definition clean_path (regexp_test : string -> string -> bool) (r : path)
  : Prop :=
  forall p, p <> [] -> is_prefix p r = true -> excluded_rel regexp_test p = false.

(** A relative path that does not start in the template directory. *)
Definition outside (q : path) : Prop :=
  match q with
  | [] => False
  | x :: _ => x <> "template"
  end.

(** The builder's invariant for the exclusion rules: nothing at or below an
    excluded relative path is present in the template directory. *)
Definition excluded_absent (regexp_test : string -> string -> bool)
  (rootDir : path) (s : state) : Prop :=
  forall p q, p <> [] -> excluded_rel regexp_test p = true ->
    lookup (templateDir rootDir ++ p ++ q) (files s) = None.

(** The builder's frame: outside the template directory the tree is [F0],
    and the working directory is [c0]. *)
Definition framed (rootDir : path) (F0 : node) (c0 : path) (s : state) : Prop :=
  remove (templateDir rootDir) (files s) = F0 /\ cwd s = c0.

(** [buildTemplate] up to the point where the copied files are processed. *)
Definition copy_phase (regexp_test : string -> string -> bool)
  (rootDir : path) (fuel : nat) : M unit :=
  console_log Plain ("🏗️  Building template..." +++ nl) ;;
  clear_template rootDir ;;
  copy_files regexp_test rootDir fuel.

(** A computation that stops short only by throwing. *)
Definition may_throw {A} (m : M A) : Prop :=
  forall s, match outcome_of (m s) with
            | Ret _ => True
            | Abort x => exists e, x = Thrown e
            end.

(** The first line [createProject] prints once the configuration is known. *)
Definition creating_banner : event :=
  ConsoleLog Blue
    (nl +++ "🚀 Creating your React Vite Boilerplate project..." +++ nl).

(** The line that opens the final summary. *)
Definition success_line : event :=
  ConsoleLog Green (nl +++ "✅ Project created successfully!" +++ nl).

(** Names are distinct within every directory of the tree. *)
Fixpoint distinct (l : list string) : bool :=
  match l with
  | [] => true
  | x :: l' => negb (existsb (String.eqb x) l') && distinct l'
  end.

Fixpoint well_formed (t : node) : bool :=
  match t with
  | File _ => true
  | Dir es =>
      distinct (akeys es)
      && (fix all (l : list (string * node)) : bool :=
            match l with
            | [] => true
            | (_, c) :: l' => well_formed c && all l'
            end) es
  end.

(** ** Sample inputs *)

(** A [RegExp] that never matches; the fixed rule list never consults it. *)
Definition no_regexp : string -> string -> bool := fun _ _ => false.

(** Spawned commands that always fail and leave the tree alone. *)
Definition failing_commands : string -> state -> node * bool :=
  fun _ s => (files s, false).

(** A small working tree of the tool's repository, at [/repo]; it has no
    [index.html]. *)
Definition sample_manifest : json :=
  JObj [ ("name", JStr "create-react-vite-boilerplate");
         ("version", JStr "1.0.0");
         ("bin", JObj [("create-react-vite-boilerplate", JStr "bin/cli.js")]);
         ("files", JArr [JStr "bin"; JStr "template"]);
         ("scripts", JObj [("dev", JStr "vite");
                           ("build-template", JStr "node scripts/build-template.js")]);
         ("devDependencies", JObj [("chalk", JStr "^5.3.0"); ("vite", JStr "^5.0.0")]) ].

Definition sample_entries (manifest : list (string * node))
  : list (string * node) :=
  manifest ++
  [ ("src", Dir [ ("main.tsx", File (Raw "main"));
                  ("app", Dir [("app.tsx", File (Raw "app"))]);
                  ("node_modules", Dir [("dep.js", File (Raw "dep"))]) ]);
    ("vite.config.ts", File (Raw "vite"));
    ("tailwind.config.cjs", File (Raw "tailwind"));
    (".env.example", File (Raw "VITE_API_URL=http://localhost"));
    ("docs", Dir [("README.md", File (Raw "docs"))]);
    ("node_modules", Dir [("react", Dir [("index.js", File (Raw "react"))])]);
    ("bin", Dir [("cli.js", File (Raw "cli"))]);
    ("scripts", Dir [("build-template.js", File (Raw "build"))]);
    ("template", Dir [("stale.txt", File (Raw "left over"))]) ].

Definition sample_tree (manifest : list (string * node)) : node :=
  Dir [ ("repo", Dir (sample_entries manifest));
        ("home", Dir [("old-app", Dir [("notes.txt", File (Raw "keep me"))])]) ].

Definition sample_repo : state :=
  {| files := sample_tree [("package.json", File (Json sample_manifest))];
     cwd := ["repo"] |}.

(** The same tree with a manifest that is not JSON, and with none. *)
Definition broken_repo : state :=
  {| files := sample_tree [("package.json", File (Raw "{ name: "))];
     cwd := ["repo"] |}.

Definition bare_repo : state :=
  {| files := sample_tree []; cwd := ["repo"] |}.

(** The tool installed at [/opt/tool] with its manifest and the given
    template, and a home
    directory, the working directory, that already holds [old-app]. *)
Definition installed_tool (template : list (string * node)) : state :=
  {| files :=
       Dir [ ("opt", Dir [("tool", Dir [ ("package.json", File (Json sample_manifest));
                                         ("bin", Dir [("cli.js", File (Raw "cli"))]);
                                         ("template", Dir template) ])]);
             ("home", Dir [("old-app", Dir [("notes.txt", File (Raw "keep me"))])]) ];
     cwd := ["home"] |}.

Definition template_manifest : node :=
  File (Json (JObj [ ("name", JStr "my-react-app"); ("version", JStr "0.1.0");
                     ("private", JBool true) ])).

Definition template_sources : list (string * node) :=
  [ ("src", Dir [("main.tsx", File (Raw "main"))]);
    ("index.html", File (Raw "<html>")) ].

Definition full_template : list (string * node) :=
  ("package.json", template_manifest)
  :: template_sources ++ [(".env.example", File (Raw "VITE_API_URL=http://localhost"))].

Definition template_without_manifest : list (string * node) :=
  template_sources ++ [(".env.example", File (Raw "VITE_API_URL=http://localhost"))].

Definition template_without_env : list (string * node) :=
  ("package.json", template_manifest) :: template_sources.

(** Command lines: every optional step that a flag can skip is skipped, or
    none is. *)
Definition flags_skip_all : options :=
  {| opt_template := "full"; opt_packageManager := "npm";
     opt_skipInstall := true; opt_skipGit := true |}.

Definition flags_none : options :=
  {| opt_template := "full"; opt_packageManager := "npm";
     opt_skipInstall := false; opt_skipGit := false |}.

(** People at the terminal: one who declines everything, one who accepts
    everything, and one who first types an invalid name; all of them answer
    every question. *)
Definition declining_user : user :=
  {| typed_names := []; pick_packageManager := "npm";
     confirm_install := false; confirm_git := false; confirm_env := false;
     confirm_overwrite := false; unanswered := [] |}.

Definition accepting_user : user :=
  {| typed_names := []; pick_packageManager := "npm";
     confirm_install := true; confirm_git := true; confirm_env := true;
     confirm_overwrite := true; unanswered := [] |}.

Definition typing_user : user :=
  {| typed_names := ["my app"; "my-app"]; pick_packageManager := "npm";
     confirm_install := false; confirm_git := false; confirm_env := false;
     confirm_overwrite := false; unanswered := [] |}.

(** ** Vocabulary for the further properties *)

(** The value left after [delete d[k]] for every [k] of [ks]. *)
Definition without_keys (ks : list string) (d : json) : json :=
  match d with
  | JObj o => JObj (fold_left (fun acc k => adel k acc) ks o)
  | _ => d
  end.

(** Membership in a list of names, as a test. *)
Definition named (ks : list string) (k : string) : bool :=
  existsb (String.eqb k) ks.

(** The fields of a manifest like the tool's own. *)
Definition tool_manifest_fields : list (string * json) :=
  [ ("name", JStr "create-react-vite-boilerplate");
    ("version", JStr "1.2.0");
    ("description", JStr "React Vite Boilerplate");
    ("bin", JObj [("create-react-vite-boilerplate", JStr "bin/cli.js")]);
    ("files", JArr [JStr "bin"; JStr "template"]);
    ("scripts", JObj [ ("dev", JStr "vite"); ("build", JStr "vite build");
                       ("build-template", JStr "node scripts/build-template.js");
                       ("test-cli", JStr "node scripts/test-cli.js");
                       ("prepublishOnly", JStr "npm run build-template") ]);
    ("dependencies", JObj [("react", JStr "^18.2.0")]);
    ("devDependencies", JObj [ ("chalk", JStr "^5.3.0"); ("vite", JStr "^5.0.0");
                               ("commander", JStr "^11.1.0");
                               ("fs-extra", JStr "^11.2.0");
                               ("inquirer", JStr "^9.2.12"); ("ora", JStr "^7.0.1") ]) ].

(** A computation that, when it stops short, stops in one of the ways [ok]. *)
Definition aborts_within {A} (ok : abort -> Prop) (m : M A) : Prop :=
  forall s, match outcome_of (m s) with
            | Ret _ => True
            | Abort x => ok x
            end.

Definition thrown (x : abort) : Prop := exists e, x = Thrown e.
Definition thrown_or_no_fuel (x : abort) : Prop := thrown x \/ x = NoFuel.

Definition thrown_or_blocking (x : abort) : Prop := thrown x \/ x = Blocking.

(** The tool's own manifest, read when the generator starts, is JSON other
    than [null]. *)
Definition tool_manifest_ok (toolRoot : path) (s : state) : Prop :=
  exists packageJson version,
    lookup (join toolRoot "package.json") (files s)
    = Some (File (Json packageJson))
    /\ get_prop "version" packageJson = inr version.

(** The user answers every question the second prompt asks under the
    options [o]. *)
Definition attentive (o : options) (u : user) : bool :=
  forallb (responds u) (questions o).

(** The project once the generator has run with every optional step off:
    the template's entries, with the manifest's [name] set. *)
Definition generated_project (name : string) (tes : list (string * node))
  (m : list (string * json)) : node :=
  Dir (aset "package.json" (File (Json (JObj (aset "name" (JStr name) m)))) tes).

(** A user who confirms the overwrite and declines the optional steps. *)
Definition overwriting_user : user :=
  {| typed_names := ["my app"; "my-app"]; pick_packageManager := "npm";
     confirm_install := false; confirm_git := false; confirm_env := false;
     confirm_overwrite := true; unanswered := [] |}.

(** A template whose manifest is not JSON. *)
Definition template_with_broken_manifest : list (string * node) :=
  ("package.json", File (Raw "{ name: ")) :: template_sources.

(** The tool installed without its manifest. *)
Definition tool_without_manifest : state :=
  {| files :=
       Dir [ ("opt", Dir [("tool", Dir [ ("bin", Dir [("cli.js", File (Raw "cli"))]);
                                         ("template", Dir full_template) ])]);
             ("home", Dir [("old-app", Dir [("notes.txt", File (Raw "keep me"))])]) ];
     cwd := ["home"] |}.

(** A user who answers the overwrite question with yes, and none of the
    questions of the second prompt. *)
Definition silent_user : user :=
  {| typed_names := []; pick_packageManager := "npm";
     confirm_install := true; confirm_git := true; confirm_env := true;
     confirm_overwrite := true;
     unanswered := ["setupEnvironment"] |}.

(** The tool installed without its template directory. *)
Definition tool_without_template : state :=
  {| files :=
       Dir [ ("opt", Dir [("tool", Dir [ ("package.json", File (Json sample_manifest));
                                         ("bin", Dir [("cli.js", File (Raw "cli"))]) ])]);
             ("home", Dir [("old-app", Dir [("notes.txt", File (Raw "keep me"))])]) ];
     cwd := ["home"] |}.

(** ** What the copy produces *)

(** Two entries of the same kind: the same file, or two directories. *)
Definition same_kind (a b : node) : Prop :=
  match a, b with
  | File c, File c' => c = c'
  | Dir _, Dir _ => True
  | _, _ => False
  end.

(** The template directory holds nothing but what the source tree [F0]
    holds at the same relative path, as the same kind of entry. *)
Definition mirrors (rootDir : path) (F0 : node) (s : state) : Prop :=
  forall r n, lookup (templateDir rootDir ++ r) (files s) = Some n ->
    exists n', lookup (rootDir ++ r) F0 = Some n' /\ same_kind n n'.

(** Every file of [F0] at a relative path in [Q] is in the template
    directory, with its content. *)
Definition copied (rootDir : path) (F0 : node) (Q : path -> Prop) (s : state)
  : Prop :=
  forall q c, Q q -> lookup (rootDir ++ q) F0 = Some (File c) ->
    lookup (templateDir rootDir ++ q) (files s) = Some (File c).

(** The invariant of the copy. *)
Definition copying (rootDir : path) (F0 : node) (c0 : path)
  (Q : path -> Prop) (s : state) : Prop :=
  framed rootDir F0 c0 s /\ mirrors rootDir F0 s /\ copied rootDir F0 Q s.

(** The relative paths at or below [r] with no excluded entry on the way. *)
Definition clean_below (regexp_test : string -> string -> bool) (r q : path)
  : Prop :=
  is_prefix r q = true /\ clean_path regexp_test q.

(** The postcondition of an abort that cannot happen. *)
Definition never (x : abort) (s : state) : Prop := False.

(** What a passing run of the harness has checked in the test project. *)
Definition certified (rootDir : path) (s : state) : Prop :=
  (forall file, In file essentialFiles ->
     lookup (join_rel (testProjectPath rootDir) file) (files s) <> None)
  /\ exists j,
       lookup (join (testProjectPath rootDir) "package.json") (files s)
       = Some (File (Json j))
       /\ get_prop "name" j = inr (Some (JStr testProjectName))
       /\ (exists b, get_prop "bin" j = inr b /\ truthy_opt b = false)
       /\ (exists f, get_prop "files" j = inr f /\ truthy_opt f = false).

(** An abort that is not a call of [process.exit]. *)
Definition not_an_exit (x : abort) (s : state) : Prop := forall n, x <> Exited n.

(** The sample tree with the [index.html] it lacks. *)
Definition complete_repo : state :=
  {| files := sample_tree [ ("package.json", File (Json sample_manifest));
                            ("index.html", File (Raw "<html>")) ];
     cwd := ["repo"] |}.

(** * Properties *)

(** ** Association lists *)

Section AssocFacts.
Context {V : Type}.
Implicit Types (m : list (string * V)) (k : string) (v : V).

Lemma alookup_aset_eq k v m : alookup k (aset k v m) = Some v.
Proof.
  induction m as [|[k' v'] m IH]; simpl.
  - now rewrite String.eqb_refl.
  - destruct (String.eqb k k') eqn:E; simpl; rewrite ?String.eqb_refl, ?E; auto.
Qed.

Lemma alookup_aset_ne k k' v m :
  k <> k' -> alookup k' (aset k v m) = alookup k' m.
Proof.
  intros Hne. induction m as [|[k1 v1] m IH]; simpl.
  - destruct (String.eqb_spec k' k); congruence.
  - destruct (String.eqb_spec k k1) as [->|]; simpl.
    + destruct (String.eqb_spec k' k1); congruence.
    + destruct (String.eqb_spec k' k1); auto.
Qed.

Lemma alookup_adel_eq k m : alookup k (adel k m) = None.
Proof.
  induction m as [|[k' v'] m IH]; simpl; auto.
  destruct (String.eqb k k') eqn:E; simpl; rewrite ?E; auto.
Qed.

Lemma alookup_adel_ne k k' m :
  k <> k' -> alookup k' (adel k m) = alookup k' m.
Proof.
  intros Hne. induction m as [|[k1 v1] m IH]; simpl; auto.
  destruct (String.eqb_spec k k1) as [->|]; simpl.
  - destruct (String.eqb_spec k' k1); congruence.
  - destruct (String.eqb_spec k' k1); auto.
Qed.

Lemma adel_aset k v m : adel k (aset k v m) = adel k m.
Proof.
  induction m as [|[k' v'] m IH]; simpl.
  - now rewrite String.eqb_refl.
  - destruct (String.eqb k k') eqn:E; simpl; rewrite ?String.eqb_refl, ?E;
      congruence.
Qed.

Lemma aset_aset k v v' m : aset k v (aset k v' m) = aset k v m.
Proof.
  induction m as [|[k' v1] m IH]; simpl.
  - now rewrite String.eqb_refl.
  - destruct (String.eqb k k') eqn:E; simpl; rewrite ?String.eqb_refl, ?E;
      congruence.
Qed.

Lemma aset_same k v m : alookup k m = Some v -> aset k v m = m.
Proof.
  induction m as [|[k' v'] m IH]; simpl; [discriminate|].
  destruct (String.eqb_spec k k') as [->|]; intros H.
  - congruence.
  - now rewrite IH.
Qed.

Lemma adel_absent k m : alookup k m = None -> adel k m = m.
Proof.
  induction m as [|[k' v'] m IH]; simpl; auto.
  destruct (String.eqb k k'); [discriminate|]. intros H. now rewrite IH.
Qed.

Lemma akeys_alookup k m : In k (akeys m) -> exists v, alookup k m = Some v.
Proof.
  induction m as [|[k' v'] m IH]; simpl; [tauto|].
  intros [->|H].
  - rewrite String.eqb_refl. eauto.
  - destruct (String.eqb k k'); eauto.
Qed.
End AssocFacts.

(** ** Paths *)

Lemma is_prefix_app a b : is_prefix a (a ++ b) = true.
Proof.
  induction a as [|x a IH]; simpl; auto. now rewrite String.eqb_refl.
Qed.

Lemma is_prefix_refl a : is_prefix a a = true.
Proof. rewrite <- (app_nil_r a) at 2. apply is_prefix_app. Qed.

Lemma is_prefix_split a b : is_prefix a b = true -> exists c, b = a ++ c.
Proof.
  revert b. induction a as [|x a IH]; intros b H; simpl in *.
  - now exists b.
  - destruct b as [|y b]; [discriminate|].
    apply andb_true_iff in H as [Hxy H]. apply String.eqb_eq in Hxy as ->.
    destruct (IH _ H) as [c ->]. now exists c.
Qed.

Lemma is_prefix_trans a b c :
  is_prefix a b = true -> is_prefix b c = true -> is_prefix a c = true.
Proof.
  intros H1 H2. apply is_prefix_split in H1 as [u ->].
  apply is_prefix_split in H2 as [w ->]. rewrite <- app_assoc.
  apply is_prefix_app.
Qed.

Lemma is_prefix_app_l a b c : is_prefix (a ++ b) (a ++ c) = is_prefix b c.
Proof.
  induction a as [|x a IH]; simpl; auto. now rewrite String.eqb_refl.
Qed.

(** Two paths are comparable, or the second lies strictly below the first. *)
Lemma not_prefix_cases x d :
  is_prefix x d = false ->
  (exists s, s <> [] /\ x = d ++ s) \/ is_prefix d x = false.
Proof.
  intros H. destruct (is_prefix d x) eqn:E; [left|now right].
  apply is_prefix_split in E as [s ->]. exists s. split; auto.
  intros ->. rewrite app_nil_r, is_prefix_refl in H. discriminate.
Qed.

Lemma path_eqb_eq a b : path_eqb a b = true <-> a = b.
Proof.
  revert b. induction a as [|x a IH]; intros [|y b]; simpl; split;
    try congruence; try discriminate.
  - intros H. apply andb_true_iff in H as [H1 H2].
    apply String.eqb_eq in H1. apply IH in H2. congruence.
  - intros [= -> ->]. rewrite String.eqb_refl. now apply IH.
Qed.

(** ** The file tree *)

Lemma lookup_app p q t :
  lookup (p ++ q) t =
  match lookup p t with Some n => lookup q n | None => None end.
Proof.
  revert t. induction p as [|x p IH]; intros t; simpl; auto.
  destruct t as [c|es]; auto. destruct (alookup x es); auto.
Qed.

Lemma lookup_put_under d v t t' s :
  put d v t = Some t' -> lookup (d ++ s) t' = lookup s v.
Proof.
  revert t t'. induction d as [|k d IH]; intros t t' H; simpl in *.
  - now injection H as <-.
  - destruct t as [c|es]; [discriminate|].
    destruct d as [|k' d].
    + injection H as <-. simpl. now rewrite alookup_aset_eq.
    + destruct (alookup k es) as [c|]; [|discriminate].
      destruct (put (k' :: d) v c) as [c'|] eqn:E; [|discriminate].
      injection H as <-. cbn [lookup]. rewrite alookup_aset_eq.
      now apply (IH c c').
Qed.

Lemma lookup_put_same d v t t' : put d v t = Some t' -> lookup d t' = Some v.
Proof.
  intros H. rewrite <- (app_nil_r d). now rewrite (lookup_put_under _ _ _ _ [] H).
Qed.

Lemma lookup_put_diverge d v t t' x :
  put d v t = Some t' ->
  is_prefix d x = false -> is_prefix x d = false ->
  lookup x t' = lookup x t.
Proof.
  revert t t' x. induction d as [|k d IH]; intros t t' x H H1 H2.
  - discriminate.
  - destruct x as [|y x]; [discriminate|].
    simpl in H. destruct t as [c|es]; [discriminate|].
    simpl in H1, H2.
    destruct (String.eqb_spec k y) as [->|Hne].
    + rewrite String.eqb_refl in H2. simpl in H1, H2.
      destruct d as [|k' d]; [discriminate|].
      destruct (alookup y es) as [c|] eqn:Ec; [|discriminate].
      destruct (put (k' :: d) v c) as [c'|] eqn:E; [|discriminate].
      injection H as <-. cbn [lookup]. rewrite alookup_aset_eq, Ec.
      now apply (IH c c').
    + assert (Ht : exists c', t' = Dir (aset k c' es)).
      { destruct d as [|k' d]; [injection H as <-; eauto|].
        destruct (alookup k es) as [c|]; [|discriminate].
        destruct (put (k' :: d) v c) as [c'|]; [|discriminate].
        injection H as <-. eauto. }
      destruct Ht as [c' ->]. cbn [lookup].
      now rewrite alookup_aset_ne.
Qed.

(** Writing a file where no directory stood changes nothing but the file
    itself and the directories above it. *)
Lemma lookup_put_file_other d c t t' x :
  put d (File c) t = Some t' ->
  (forall es, lookup d t <> Some (Dir es)) ->
  is_prefix x d = false ->
  lookup x t' = lookup x t.
Proof.
  intros H Hd Hx. destruct (not_prefix_cases _ _ Hx) as [(s & Hs & ->)|H1].
  - rewrite (lookup_put_under _ _ _ _ s H), lookup_app.
    destruct s as [|y s]; [congruence|]. simpl.
    destruct (lookup d t) as [[c0|es]|]; auto. now destruct (Hd es).
  - now apply (lookup_put_diverge d (File c)).
Qed.

Lemma lookup_mkdirp_other d t t' x :
  mkdirp d t = Some t' -> is_prefix x d = false -> lookup x t' = lookup x t.
Proof.
  revert t t' x. induction d as [|k d IH]; intros t t' x H Hx; simpl in H.
  - destruct t; [discriminate|]. now injection H as <-.
  - destruct x as [|y x]; [discriminate|].
    destruct t as [c|es]; [discriminate|].
    destruct (mkdirp d match alookup k es with Some c => c | None => Dir [] end)
      as [c'|] eqn:E; [|discriminate].
    injection H as <-. simpl in Hx. cbn [lookup].
    destruct (String.eqb_spec y k) as [->|Hne].
    + simpl in Hx. rewrite alookup_aset_eq, (IH _ _ x E Hx).
      destruct (alookup k es); auto.
      destruct x; [discriminate|reflexivity].
    + rewrite alookup_aset_ne by congruence. reflexivity.
Qed.

Lemma mkdirp_is_dir d t t' :
  mkdirp d t = Some t' -> exists es, lookup d t' = Some (Dir es).
Proof.
  revert t t'. induction d as [|k d IH]; intros t t' H; simpl in H.
  - destruct t; [discriminate|]. injection H as <-. simpl. eauto.
  - destruct t as [c|es]; [discriminate|].
    destruct (mkdirp d match alookup k es with Some c => c | None => Dir [] end)
      as [c'|] eqn:E; [|discriminate].
    injection H as <-. cbn [lookup]. rewrite alookup_aset_eq. eauto.
Qed.

Lemma remove_absent d t : lookup d t = None -> remove d t = t.
Proof.
  revert t. induction d as [|k d IH]; intros t H; simpl in *; [discriminate|].
  destruct t as [c|es]; auto.
  destruct d as [|k' d].
  - destruct (alookup k es) eqn:E; [discriminate|]. now rewrite adel_absent.
  - destruct (alookup k es) as [c|] eqn:E; auto.
    rewrite (IH c H). now rewrite aset_same.
Qed.

Lemma lookup_remove_self d t : d <> [] -> lookup d (remove d t) = None.
Proof.
  revert t. induction d as [|k d IH]; intros t Hd; [congruence|].
  destruct t as [c|es]; [reflexivity|].
  destruct d as [|k' d].
  - simpl. now rewrite alookup_adel_eq.
  - cbn [remove]. destruct (alookup k es) as [c|] eqn:E.
    + cbn [lookup]. rewrite alookup_aset_eq. apply IH. discriminate.
    + cbn [lookup]. now rewrite E.
Qed.

Lemma remove_remove d t : d <> [] -> remove d (remove d t) = remove d t.
Proof. intros H. apply remove_absent. now apply lookup_remove_self. Qed.

Lemma lookup_remove_diverge d t x :
  is_prefix d x = false -> is_prefix x d = false ->
  lookup x (remove d t) = lookup x t.
Proof.
  revert t x. induction d as [|k d IH]; intros t x H1 H2; [discriminate|].
  destruct x as [|y x]; [discriminate|].
  destruct t as [c|es]; [reflexivity|]. simpl in H1, H2.
  destruct (String.eqb_spec k y) as [->|Hne].
  - rewrite String.eqb_refl in H2. simpl in H1, H2.
    destruct d as [|k' d]; [discriminate|]. cbn [remove].
    destruct (alookup y es) as [c|] eqn:E; auto.
    cbn [lookup]. rewrite alookup_aset_eq, E. now apply IH.
  - destruct d as [|k' d]; cbn [remove].
    + cbn [lookup]. now rewrite alookup_adel_ne.
    + destruct (alookup k es) as [c|] eqn:E; auto.
      cbn [lookup]. now rewrite alookup_aset_ne.
Qed.

Lemma remove_cons x d es :
  d <> [] ->
  remove (x :: d) (Dir es) =
  match alookup x es with
  | Some c => Dir (aset x (remove d c) es)
  | None => Dir es
  end.
Proof. destruct d; [congruence|reflexivity]. Qed.

(** Removing a child keeps its parent, less that one entry. *)
Lemma lookup_remove_parent root k t :
  lookup root (remove (root ++ [k]) t) =
  match lookup root t with
  | Some (Dir es) => Some (Dir (adel k es))
  | o => o
  end.
Proof.
  revert t. induction root as [|x root IH]; intros t.
  - simpl. destruct t; auto.
  - destruct t as [c|es]; [reflexivity|].
    change ((x :: root) ++ [k]) with (x :: (root ++ [k])).
    rewrite remove_cons by (now destruct root).
    destruct (alookup x es) as [c|] eqn:E; cbn [lookup].
    + rewrite alookup_aset_eq, E. apply IH.
    + now rewrite E.
Qed.

(** A write at or below [d] is invisible once [d] is removed. *)
Lemma remove_put d r v t t' :
  d <> [] -> put (d ++ r) v t = Some t' -> remove d t' = remove d t.
Proof.
  revert t t'. induction d as [|k d IH]; intros t t' Hd H; [congruence|].
  change ((k :: d) ++ r) with (k :: (d ++ r)) in H. simpl in H.
  destruct t as [c|es]; [discriminate|].
  destruct d as [|k' d].
  - assert (Ht : exists c', t' = Dir (aset k c' es)).
    { simpl in H. destruct r as [|k' r]; [injection H as <-; eauto|].
      destruct (alookup k es) as [c|]; [|discriminate].
      destruct (put (k' :: r) v c) as [c'|]; [|discriminate].
      injection H as <-. eauto. }
    destruct Ht as [c' ->]. simpl. now rewrite adel_aset.
  - change ((k' :: d) ++ r) with (k' :: (d ++ r)) in H.
    destruct (alookup k es) as [c|] eqn:E; [|discriminate].
    destruct (put (k' :: d ++ r) v c) as [c'|] eqn:Ep; [|discriminate].
    injection H as <-. cbn [remove]. rewrite alookup_aset_eq, E, aset_aset.
    f_equal. f_equal. apply (IH c c'); [discriminate|exact Ep].
Qed.

Lemma remove_mkdirp d r t t' es0 :
  d <> [] -> lookup (dirname d) t = Some (Dir es0) ->
  mkdirp (d ++ r) t = Some t' -> remove d t' = remove d t.
Proof.
  revert t t'. induction d as [|k d IH]; intros t t' Hd Hp H; [congruence|].
  change ((k :: d) ++ r) with (k :: (d ++ r)) in H. simpl in H.
  destruct t as [c|es]; [discriminate|].
  destruct (mkdirp (d ++ r) match alookup k es with Some c => c | None => Dir [] end)
    as [c'|] eqn:E; [|discriminate].
  injection H as <-.
  destruct d as [|k' d].
  - simpl. now rewrite adel_aset.
  - unfold dirname in Hp. cbn [removelast lookup] in Hp.
    destruct (alookup k es) as [c|] eqn:Ec; [|discriminate].
    cbn [remove]. rewrite alookup_aset_eq, Ec, aset_aset.
    f_equal. f_equal. apply (IH c c'); [discriminate| exact Hp | exact E].
Qed.

Lemma height_child k es c : alookup k es = Some c -> height c < height (Dir es).
Proof.
  simpl. induction es as [|[k' c'] es IH]; simpl; [discriminate|].
  destruct (String.eqb k k').
  - intros [= ->]. lia.
  - intros H. specialize (IH H). lia.
Qed.

Lemma height_lookup p t n : lookup p t = Some n -> height n <= height t.
Proof.
  revert t. induction p as [|x p IH]; intros t H; simpl in H.
  - injection H as <-. lia.
  - destruct t as [c|es]; [discriminate|].
    destruct (alookup x es) as [c|] eqn:E; [|discriminate].
    apply IH in H. apply height_child in E. lia.
Qed.

(** ** Rules for triples *)

Section HoareRules.
Context {A B : Type}.
Implicit Types (P : state -> Prop) (E : abort -> state -> Prop).

Lemma hoare_ret (a : A) P (Q : A -> state -> Prop) E :
  (forall s, P s -> Q a s) -> hoare P (ret a) Q E.
Proof. intros H s HP. simpl. auto. Qed.

Lemma hoare_abort (x : abort) P (Q : A -> state -> Prop) E :
  (forall s, P s -> E x s) -> hoare P (abort_with x) Q E.
Proof. intros H s HP. simpl. auto. Qed.

Lemma hoare_bind (m : M A) (k : A -> M B) P (Q1 : A -> state -> Prop)
  (Q : B -> state -> Prop) E :
  hoare P m Q1 E -> (forall a, hoare (Q1 a) (k a) Q E) ->
  hoare P (bind m k) Q E.
Proof.
  intros Hm Hk s HP. specialize (Hm s HP).
  unfold bind, outcome_of, state_of in *.
  destruct (m s) as [[[a|x] s1] o1]; simpl in *; auto.
  specialize (Hk a s1 Hm). unfold outcome_of, state_of in Hk.
  destruct (k a s1) as [[r s2] o2]. exact Hk.
Qed.

Lemma hoare_conseq (m : M A) P P' (Q Q' : A -> state -> Prop) E E' :
  hoare P m Q E ->
  (forall s, P' s -> P s) ->
  (forall a s, Q a s -> Q' a s) ->
  (forall x s, E x s -> E' x s) ->
  hoare P' m Q' E'.
Proof.
  intros H HP HQ HE s Hs. specialize (H s (HP s Hs)).
  destruct (outcome_of (m s)); auto.
Qed.

Lemma hoare_try_catch (m : M A) (h : error -> M A) P
  (Q : A -> state -> Prop) E1 E :
  hoare P m Q E1 ->
  (forall e, hoare (E1 (Thrown e)) (h e) Q E) ->
  (forall x s, (forall e, x <> Thrown e) -> E1 x s -> E x s) ->
  hoare P (try_catch m h) Q E.
Proof.
  intros Hm Hh HE s HP. specialize (Hm s HP).
  unfold try_catch, outcome_of, state_of in *.
  destruct (m s) as [[[a|x] s1] o1]; simpl in *; auto.
  destruct x as [e| | |]; simpl;
    [|apply HE; [intros e'; discriminate|exact Hm]..].
  specialize (Hh e s1 Hm). unfold outcome_of, state_of in Hh.
  destruct (h e s1) as [[r s2] o2]. exact Hh.
Qed.
End HoareRules.

Lemma hoare_for_each {A} (l : list A) (body : A -> M unit)
  (I : state -> Prop) E :
  (forall x, In x l -> hoare I (body x) (fun _ => I) E) ->
  hoare I (for_each l body) (fun _ => I) E.
Proof.
  induction l as [|x l IH]; intros H; simpl.
  - now apply hoare_ret.
  - eapply hoare_bind.
    + apply H. now left.
    + intros u. apply IH. intros y Hy. apply H. now right.
Qed.

Lemma hoare_emit e P (Q : unit -> state -> Prop) E :
  (forall s, P s -> Q tt s) -> hoare P (emit e) Q E.
Proof. intros H s HP. simpl. auto. Qed.

Lemma hoare_console_log st msg P (Q : unit -> state -> Prop) E :
  (forall s, P s -> Q tt s) -> hoare P (console_log st msg) Q E.
Proof. apply hoare_emit. Qed.

Lemma hoare_js {A} (r : error + A) P (Q : A -> state -> Prop) E :
  (forall s a, P s -> r = inr a -> Q a s) ->
  (forall s e, P s -> r = inl e -> E (Thrown e) s) ->
  hoare P (js r) Q E.
Proof. intros H1 H2 s HP. destruct r; simpl; eauto. Qed.

Lemma hoare_existsSync p P (Q : bool -> state -> Prop) E :
  (forall s, P s ->
     Q (match lookup p (files s) with Some _ => true | None => false end) s) ->
  hoare P (existsSync p) Q E.
Proof. intros H s HP. simpl. auto. Qed.

Lemma hoare_removeSync p P (Q : unit -> state -> Prop) E :
  (forall s, P s -> Q tt (with_files s (remove p (files s)))) ->
  hoare P (removeSync p) Q E.
Proof. intros H s HP. simpl. apply H, HP. Qed.

Lemma hoare_mkdirSync d P (Q : unit -> state -> Prop) E :
  (forall s t', P s -> mkdirp d (files s) = Some t' -> Q tt (with_files s t')) ->
  (forall s, P s -> mkdirp d (files s) = None -> E (Thrown (ENOTDIR d)) s) ->
  hoare P (mkdirSync d) Q E.
Proof.
  intros H1 H2 s HP. unfold hoare, mkdirSync, bind, get_files, outcome_of, state_of.
  simpl. destruct (mkdirp d (files s)) eqn:Em; simpl; eauto.
Qed.

Lemma hoare_readdirSync p P (Q : list string -> state -> Prop) E :
  (forall s es, P s -> lookup p (files s) = Some (Dir es) -> Q (akeys es) s) ->
  (forall s e, P s -> E (Thrown e) s) ->
  hoare P (readdirSync p) Q E.
Proof.
  intros H1 H2 s HP. unfold readdirSync, bind, get_files, outcome_of, state_of.
  simpl. destruct (lookup p (files s)) as [[c|es]|] eqn:El; simpl; eauto.
Qed.

Lemma hoare_statSync p P (Q : bool -> state -> Prop) E :
  (forall s n, P s -> lookup p (files s) = Some n ->
     Q (match n with Dir _ => true | File _ => false end) s) ->
  (forall s e, P s -> lookup p (files s) = None -> E (Thrown e) s) ->
  hoare P (statSync_isDirectory p) Q E.
Proof.
  intros H1 H2 s HP.
  unfold statSync_isDirectory, bind, get_files, outcome_of, state_of.
  simpl. destruct (lookup p (files s)) as [[c|es]|] eqn:El; simpl; eauto.
  - apply (H1 s (File c)); auto.
  - apply (H1 s (Dir es)); auto.
Qed.

Lemma hoare_readFileSync p P (Q : content -> state -> Prop) E :
  (forall s c, P s -> lookup p (files s) = Some (File c) -> Q c s) ->
  (forall s e, P s -> (forall c, lookup p (files s) <> Some (File c)) ->
     E (Thrown e) s) ->
  hoare P (readFileSync p) Q E.
Proof.
  intros H1 H2 s HP. unfold readFileSync, bind, get_files, outcome_of, state_of.
  simpl. destruct (lookup p (files s)) as [[c|es]|] eqn:El; simpl; eauto.
  - apply H2; auto. congruence.
  - apply H2; auto. congruence.
Qed.

Lemma hoare_writeFileSync p c P (Q : unit -> state -> Prop) E :
  (forall s t', P s -> (forall es, lookup p (files s) <> Some (Dir es)) ->
     put p (File c) (files s) = Some t' -> Q tt (with_files s t')) ->
  (forall s e, P s -> E (Thrown e) s) ->
  hoare P (writeFileSync p c) Q E.
Proof.
  intros H1 H2 s HP. unfold writeFileSync, bind, get_files, outcome_of, state_of.
  simpl.
  destruct (lookup p (files s)) as [[c0|es]|] eqn:El; simpl; eauto;
    destruct (put p (File c) (files s)) eqn:Ep; simpl; eauto;
    apply H1; auto; congruence.
Qed.

(** ** Running sequences *)

Lemma bind_ret_run {A B} (m : M A) (k : A -> M B) s a s1 o1 :
  m s = (Ret a, s1, o1) ->
  bind m k s = (fst (k a s1), o1 ++ snd (k a s1)).
Proof.
  intros H. unfold bind. rewrite H. now destruct (k a s1) as [[r s2] o2].
Qed.

Lemma bind_fst {A B} (m : M A) (k : A -> M B) s a s1 o1 :
  m s = (Ret a, s1, o1) -> fst (bind m k s) = fst (k a s1).
Proof. intros H. now rewrite (bind_ret_run _ _ _ _ _ _ H). Qed.

Lemma bind_abort_run {A B} (m : M A) (k : A -> M B) s x s1 o1 :
  m s = (Abort x, s1, o1) -> bind m k s = (Abort x, s1, o1).
Proof. intros H. unfold bind. now rewrite H. Qed.

Lemma bind_assoc {A B C} (m : M A) (k : A -> M B) (h : B -> M C) s :
  bind (bind m k) h s = bind m (fun a => bind (k a) h) s.
Proof.
  unfold bind. destruct (m s) as [[[a|x] s1] o1]; auto.
  destruct (k a s1) as [[[b|y] s2] o2]; auto.
  destruct (h b s2) as [[r s3] o3]. now rewrite app_assoc.
Qed.

Lemma bind_ext {A B} (m : M A) (k k' : A -> M B) s :
  (forall a s1, k a s1 = k' a s1) -> bind m k s = bind m k' s.
Proof.
  intros H. unfold bind. destruct (m s) as [[[a|x] s1] o1]; auto.
  now rewrite H.
Qed.

(** ** The exclusion test *)

Lemma strip_common_app a p : strip_common a (a ++ p) = ([], p).
Proof.
  induction a as [|x a IH]; simpl.
  - now destruct p.
  - now rewrite String.eqb_refl.
Qed.

Lemma relative_below a p : relative a (a ++ p) = String.concat "/" p.
Proof. unfold relative. now rewrite strip_common_app. Qed.

Lemma basename_below a p : p <> [] -> basename (a ++ p) = basename p.
Proof.
  unfold basename. intros Hp. induction a as [|x a IH]; auto.
  simpl. destruct (a ++ p) eqn:E; auto.
  destruct a; simpl in E; congruence.
Qed.

Lemma is_prefix_snoc p r i :
  is_prefix p (r ++ [i]) = true -> p = r ++ [i] \/ is_prefix p r = true.
Proof.
  revert r. induction p as [|x p IH]; intros r H; [now right|].
  destruct r as [|y r]; simpl in H.
  - apply andb_true_iff in H as [H1 H2]. apply String.eqb_eq in H1 as ->.
    destruct p; [now left|discriminate].
  - apply andb_true_iff in H as [H1 H2]. apply String.eqb_eq in H1 as ->.
    destruct (IH _ H2) as [->|H]; [now left|right].
    simpl. now rewrite String.eqb_refl.
Qed.

Section BuilderFacts.
Variable regexp_test : string -> string -> bool.
Variables gitignoreContent readmeContent : string.
Variable rootDir : path.

Local Notation tpl := (templateDir rootDir).
Local Notation excluded := (excluded_rel regexp_test).
Local Notation clean := (clean_path regexp_test).

Lemma shouldExclude_below p :
  p <> [] ->
  shouldExclude regexp_test (rootDir ++ p) rootDir = excluded p.
Proof.
  intros Hp. unfold shouldExclude, excluded_rel.
  now rewrite relative_below, basename_below.
Qed.

Lemma shouldExclude_join r item :
  shouldExclude regexp_test (join (rootDir ++ r) item) rootDir
  = excluded (r ++ [item]).
Proof.
  unfold join. rewrite <- app_assoc. apply shouldExclude_below.
  now destruct r.
Qed.

Lemma no_glob_pattern :
  forallb (fun R => negb (includes star R)) excludePatterns = true.
Proof. reflexivity. Qed.

(** On the fixed rule list the test is the three-way match. *)
Lemma excluded_of_rule R p :
  In R excludePatterns -> matches_rule R p -> excluded p = true.
Proof.
  intros HR Hm. unfold excluded_rel. apply existsb_exists.
  exists R. split; [exact HR|]. unfold matches_pattern.
  pose proof no_glob_pattern as Hg. rewrite forallb_forall in Hg.
  specialize (Hg R HR). apply negb_true_iff in Hg. rewrite Hg.
  destruct Hm as [H|[H|H]].
  - rewrite H, String.eqb_refl. reflexivity.
  - rewrite H. now rewrite orb_true_r.
  - rewrite H, String.eqb_refl. now rewrite orb_true_r.
Qed.

Lemma rule_of_excluded p :
  excluded p = true -> exists R, In R excludePatterns /\ matches_rule R p.
Proof.
  unfold excluded_rel. intros H. apply existsb_exists in H as (R & HR & H).
  exists R. split; [exact HR|]. unfold matches_pattern in H.
  pose proof no_glob_pattern as Hg. rewrite forallb_forall in Hg.
  specialize (Hg R HR). apply negb_true_iff in Hg. rewrite Hg in H.
  apply orb_true_iff in H as [H|H]; [apply orb_true_iff in H as [H|H]|].
  - left. now apply String.eqb_eq.
  - right. now left.
  - right. right. now apply String.eqb_eq.
Qed.

Lemma template_excluded : excluded ["template"] = true.
Proof. reflexivity. Qed.

Lemma clean_nil : clean [].
Proof. intros p Hp H. destruct p; [congruence|discriminate]. Qed.

Lemma clean_snoc r i : clean r -> excluded (r ++ [i]) = false -> clean (r ++ [i]).
Proof.
  intros Hr Hi p Hp H. destruct (is_prefix_snoc _ _ _ H) as [->|H']; auto.
Qed.

Lemma clean_single name : excluded [name] = false -> clean [name].
Proof. intros H. apply (clean_snoc [] name clean_nil H). Qed.

(** ** Nothing excluded reaches the template *)

Local Notation Inv := (excluded_absent regexp_test rootDir).

Lemma excluded_not_above p q r :
  clean r -> p <> [] -> excluded p = true ->
  is_prefix (tpl ++ p ++ q) (tpl ++ r) = false.
Proof.
  intros Hr Hp He. rewrite is_prefix_app_l.
  destruct (is_prefix (p ++ q) r) eqn:E; auto.
  assert (H : is_prefix p r = true)
    by (eapply is_prefix_trans; [apply is_prefix_app|exact E]).
  rewrite (Hr p Hp H) in He. discriminate.
Qed.

Lemma excl_mkdirSync r :
  clean r -> hoare Inv (mkdirSync (tpl ++ r)) (fun _ => Inv) (fun _ => Inv).
Proof.
  intros Hr. apply hoare_mkdirSync; auto.
  intros s t' HI Hm p q Hp He. simpl.
  rewrite (lookup_mkdirp_other _ _ _ _ Hm); auto.
  now apply excluded_not_above.
Qed.

Lemma excl_writeFileSync r c :
  clean r ->
  hoare Inv (writeFileSync (tpl ++ r) c) (fun _ => Inv) (fun _ => Inv).
Proof.
  intros Hr. apply hoare_writeFileSync; auto.
  intros s t' HI Hd Hput p q Hp He. simpl.
  rewrite (lookup_put_file_other _ _ _ _ _ Hput); auto.
  now apply excluded_not_above.
Qed.

Lemma excl_copyFileSync src r :
  clean r ->
  hoare Inv (copyFileSync src (tpl ++ r)) (fun _ => Inv) (fun _ => Inv).
Proof.
  intros Hr. unfold copyFileSync.
  apply hoare_bind with (Q1 := fun _ => Inv).
  - apply hoare_readFileSync; auto.
  - intros c. now apply excl_writeFileSync.
Qed.

Lemma copyDirectory_excl fuel r :
  clean r ->
  hoare Inv (copyDirectory regexp_test rootDir fuel (rootDir ++ r) (tpl ++ r))
    (fun _ => Inv) (fun _ => Inv).
Proof.
  revert r. induction fuel as [|fuel IH]; intros r Hr; simpl.
  - apply hoare_abort; auto.
  - apply hoare_bind with (Q1 := fun _ => Inv);
      [apply hoare_existsSync; auto|intros present].
    apply hoare_bind with (Q1 := fun _ => Inv).
    { destruct present; [apply hoare_ret; auto|now apply excl_mkdirSync]. }
    intros _u.
    apply hoare_bind with (Q1 := fun _ => Inv);
      [apply hoare_readdirSync; auto|intros items].
    apply hoare_for_each. intros item _.
    rewrite shouldExclude_join.
    destruct (excluded (r ++ [item])) eqn:Eex.
    + apply hoare_console_log; auto.
    + pose proof (clean_snoc _ _ Hr Eex) as Hc.
      apply hoare_bind with (Q1 := fun _ => Inv);
        [apply hoare_statSync; auto|intros isDirectory].
      unfold join. rewrite <- !app_assoc.
      destruct isDirectory.
      * now apply IH.
      * apply hoare_bind with (Q1 := fun _ => Inv);
          [now apply excl_copyFileSync|intros _v].
        apply hoare_console_log; auto.
Qed.
(** ** The builder writes only inside the template, and terminates *)

Arguments String.eqb : simpl never.

Lemma dirname_join (dir : path) (name : string) : dirname (join dir name) = dir.
Proof. unfold dirname, join. apply removelast_last. Qed.

Lemma outside_diverge q :
  outside q ->
  is_prefix tpl (rootDir ++ q) = false /\ is_prefix (rootDir ++ q) tpl = false.
Proof.
  unfold templateDir, join. rewrite !is_prefix_app_l.
  destruct q as [|y q]; simpl; [tauto|]. intros Hy.
  apply String.eqb_neq in Hy as Hy1. rewrite String.eqb_sym in Hy1.
  apply String.eqb_neq in Hy as Hy2.
  now rewrite Hy1, Hy2.
Qed.

Lemma outside_snoc r i : outside r -> outside (r ++ [i]).
Proof. now destruct r. Qed.

Lemma height_adel k (es : list (string * node)) :
  height (Dir (adel k es)) <= height (Dir es).
Proof.
  simpl. apply le_n_S. induction es as [|[k' c] es IH]; simpl; auto.
  destruct (String.eqb k k'); simpl; lia.
Qed.

Lemma templateDir_nonempty : tpl <> [].
Proof. unfold templateDir, join. now destruct rootDir. Qed.

Section Frame.
Variables (F0 : node) (c0 : path) (es0 : list (string * node)).
Hypothesis Hroot : lookup rootDir F0 = Some (Dir es0).

Local Notation J := (framed rootDir F0 c0).
Local Notation EJ := (fun (x : abort) (s : state) => J s /\ x <> NoFuel).

Lemma framed_root s :
  J s ->
  exists es, lookup rootDir (files s) = Some (Dir es) /\ adel "template" es = es0.
Proof.
  intros [HF _]. pose proof (lookup_remove_parent rootDir "template" (files s)) as H.
  fold (join rootDir "template") in H. fold tpl in H. rewrite HF, Hroot in H.
  destruct (lookup rootDir (files s)) as [[c|es]|]; try discriminate.
  injection H as H. eauto.
Qed.

Lemma framed_outside s q :
  J s -> outside q -> lookup (rootDir ++ q) (files s) = lookup (rootDir ++ q) F0.
Proof.
  intros [HF _] Hq. rewrite <- HF. symmetry.
  destruct (outside_diverge q Hq). now apply lookup_remove_diverge.
Qed.

Lemma frame_mkdirSync r : hoare J (mkdirSync (tpl ++ r)) (fun _ => J) EJ.
Proof.
  apply hoare_mkdirSync.
  - intros s t' HJ Hm. destruct (framed_root s HJ) as (es & He & _).
    destruct HJ as [HF Hc]. split; [|exact Hc]. simpl.
    rewrite <- HF. apply (remove_mkdirp tpl r (files s) t' es).
    + apply templateDir_nonempty.
    + unfold templateDir. now rewrite dirname_join.
    + exact Hm.
  - intros s HJ _. split; [exact HJ|discriminate].
Qed.

Lemma frame_writeFileSync r c :
  hoare J (writeFileSync (tpl ++ r) c) (fun _ => J) EJ.
Proof.
  apply hoare_writeFileSync.
  - intros s t' [HF Hc] _ Hput. split; [|exact Hc]. simpl. rewrite <- HF.
    apply (remove_put tpl r (File c)); [apply templateDir_nonempty|exact Hput].
  - intros s e HJ. split; [exact HJ|discriminate].
Qed.

Lemma frame_copyFileSync src r :
  hoare J (copyFileSync src (tpl ++ r)) (fun _ => J) EJ.
Proof.
  unfold copyFileSync. apply hoare_bind with (Q1 := fun _ => J).
  - apply hoare_readFileSync; auto. intros s e HJ _. split; [exact HJ|discriminate].
  - intros c. apply frame_writeFileSync.
Qed.

(** What the listing of a source directory says about the tree [F0]. *)
Lemma listed_items s r n es i :
  J s -> r = [] \/ outside r ->
  lookup (rootDir ++ r) F0 = Some n ->
  lookup (rootDir ++ r) (files s) = Some (Dir es) ->
  In i (akeys es) -> excluded (r ++ [i]) = false ->
  exists c, lookup (rootDir ++ r ++ [i]) F0 = Some c
            /\ height c < height n /\ outside (r ++ [i]).
Proof.
  intros HJ Hr Hn Hs Hi Hex. destruct (akeys_alookup _ _ Hi) as [c Hc].
  destruct Hr as [->|Hr].
  - rewrite app_nil_r in *. simpl in Hex.
    destruct (framed_root s HJ) as (es' & He' & Hdel).
    rewrite Hs in He'. injection He' as <-. rewrite Hroot in Hn. injection Hn as <-.
    assert (Hi' : i <> "template").
    { intros ->. rewrite template_excluded in Hex. discriminate. }
    exists c. split; [|split].
    + rewrite lookup_app, Hroot. simpl. rewrite <- Hdel.
      rewrite alookup_adel_ne by congruence. now rewrite Hc.
    + apply height_child with (k := i). rewrite <- Hdel.
      now rewrite alookup_adel_ne by congruence.
    + exact Hi'.
  - rewrite (framed_outside s r HJ Hr), Hn in Hs. injection Hs as ->.
    exists c. split; [|split].
    + rewrite app_assoc, lookup_app, Hn. simpl. now rewrite Hc.
    + now apply height_child with (k := i).
    + now apply outside_snoc.
Qed.

Lemma hoare_pure {A} (phi : Prop) (P : state -> Prop) (m : M A) Q E :
  (phi -> hoare P m Q E) -> hoare (fun s => P s /\ phi) m Q E.
Proof. intros H s [HP Hphi]. now apply H. Qed.

Lemma copyDirectory_frame fuel r n :
  r = [] \/ outside r ->
  lookup (rootDir ++ r) F0 = Some n -> height n < fuel ->
  hoare J (copyDirectory regexp_test rootDir fuel (rootDir ++ r) (tpl ++ r))
    (fun _ => J) EJ.
Proof.
  revert r n. induction fuel as [|fuel IH]; intros r n Hr Hn Hh; [lia|]. simpl.
  apply hoare_bind with (Q1 := fun _ => J);
    [apply hoare_existsSync; auto|intros present].
  apply hoare_bind with (Q1 := fun _ => J).
  { destruct present; [apply hoare_ret; auto|apply frame_mkdirSync]. }
  intros _u.
  apply hoare_bind with
    (Q1 := fun items s =>
             J s /\ forall i, In i items -> excluded (r ++ [i]) = false ->
                    exists c, lookup (rootDir ++ r ++ [i]) F0 = Some c
                              /\ height c < height n /\ outside (r ++ [i])).
  { apply hoare_readdirSync.
    - intros s es HJ Hs. split; [exact HJ|]. intros i Hi Hex.
      now apply (listed_items s r n es i).
    - intros s e HJ. split; [exact HJ|discriminate]. }
  intros items. apply hoare_pure. intros Hitems.
  apply hoare_for_each. intros item Hin.
  rewrite shouldExclude_join.
  destruct (excluded (r ++ [item])) eqn:Eex.
  - apply hoare_console_log; auto.
  - destruct (Hitems item Hin Eex) as (c & Hc & Hhc & Hout).
    apply hoare_bind with (Q1 := fun _ => J).
    { apply hoare_statSync; auto. intros s e HJ _. split; [exact HJ|discriminate]. }
    intros isDirectory. unfold join. rewrite <- !app_assoc.
    destruct isDirectory.
    + apply (IH (r ++ [item]) c); auto. lia.
    + apply hoare_bind with (Q1 := fun _ => J);
        [apply frame_copyFileSync|intros _v].
      apply hoare_console_log; auto.
Qed.



Lemma frame_processPackageJson :
  hoare J (processPackageJson rootDir) (fun _ => J) EJ.
Proof.
  assert (HE : forall s e, J s -> EJ (Thrown e) s)
    by (intros s e HJ; split; [exact HJ|discriminate]).
  unfold processPackageJson.
  apply hoare_bind with (Q1 := fun _ => J);
    [apply hoare_existsSync; auto|intros [|]; [|apply hoare_ret; auto]].
  apply hoare_bind with (Q1 := fun _ => J);
    [apply hoare_readFileSync; auto|intros text].
  apply hoare_bind with (Q1 := fun _ => J);
    [destruct text; [apply hoare_ret|apply hoare_abort]; auto|intros j0].
  apply hoare_bind with (Q1 := fun _ => J); [apply hoare_js; auto|intros ?].
  apply hoare_bind with (Q1 := fun _ => J);
    [apply (frame_writeFileSync ["package.json"])|intros ?].
  apply hoare_console_log; auto.
Qed.

Lemma frame_process_files :
  hoare J (process_files gitignoreContent readmeContent rootDir) (fun _ => J) EJ.
Proof.
  unfold process_files, processTemplateFiles.
  apply hoare_bind with (Q1 := fun _ => J);
    [apply hoare_console_log; auto|intros ?].
  apply hoare_bind with (Q1 := fun _ => J).
  { apply hoare_bind with (Q1 := fun _ => J);
      [apply frame_processPackageJson|intros ?].
    apply hoare_bind with (Q1 := fun _ => J);
      [apply (frame_writeFileSync [".gitignore"])|intros ?].
    apply hoare_bind with (Q1 := fun _ => J);
      [apply hoare_console_log; auto|intros ?].
    apply hoare_bind with (Q1 := fun _ => J);
      [apply (frame_writeFileSync ["README.md"])|intros ?].
    apply hoare_console_log; auto. }
  intros ?.
  apply hoare_bind with (Q1 := fun _ => J);
    [apply hoare_console_log; auto|intros ?].
  apply hoare_bind with (Q1 := fun _ => J);
    [intros s HJ; exact HJ|intros ?].
  apply hoare_console_log; auto.
Qed.

(** After the template directory is cleared, the rest of the build stays
    inside it and, given fuel beyond the height of the source tree, does not
    stop for lack of fuel. *)
Lemma frame_build_tail fuel :
  height (Dir es0) < fuel ->
  hoare J
    (bind (copy_files regexp_test rootDir fuel)
       (fun _ => process_files gitignoreContent readmeContent rootDir))
    (fun _ => J) EJ.
Proof.
  intros Hh. apply hoare_bind with (Q1 := fun _ => J).
  - unfold copy_files. apply hoare_bind with (Q1 := fun _ => J);
      [apply hoare_console_log; auto|intros ?].
    pose proof (copyDirectory_frame fuel [] (Dir es0)) as H.
    rewrite !app_nil_r in H. apply H; auto.
  - intros ?. apply frame_process_files.
Qed.
End Frame.

Lemma excl_processPackageJson :
  hoare Inv (processPackageJson rootDir) (fun _ => Inv) (fun _ => Inv).
Proof.
  unfold processPackageJson.
  apply hoare_bind with (Q1 := fun _ => Inv);
    [apply hoare_existsSync; auto|intros [|]; [|apply hoare_ret; auto]].
  apply hoare_bind with (Q1 := fun _ => Inv);
    [apply hoare_readFileSync; auto|intros text].
  apply hoare_bind with (Q1 := fun _ => Inv);
    [destruct text; [apply hoare_ret|apply hoare_abort]; auto|intros j0].
  apply hoare_bind with (Q1 := fun _ => Inv); [apply hoare_js; auto|intros ?].
  apply hoare_bind with (Q1 := fun _ => Inv);
    [apply (excl_writeFileSync ["package.json"]), clean_single; reflexivity
    |intros ?].
  apply hoare_console_log; auto.
Qed.

Lemma excl_process_files :
  hoare Inv (process_files gitignoreContent readmeContent rootDir)
    (fun _ => Inv) (fun _ => Inv).
Proof.
  unfold process_files, processTemplateFiles.
  apply hoare_bind with (Q1 := fun _ => Inv);
    [apply hoare_console_log; auto|intros ?].
  apply hoare_bind with (Q1 := fun _ => Inv).
  { apply hoare_bind with (Q1 := fun _ => Inv);
      [apply excl_processPackageJson|intros ?].
    apply hoare_bind with (Q1 := fun _ => Inv);
      [apply (excl_writeFileSync [".gitignore"]), clean_single; reflexivity
      |intros ?].
    apply hoare_bind with (Q1 := fun _ => Inv);
      [apply hoare_console_log; auto|intros ?].
    apply hoare_bind with (Q1 := fun _ => Inv);
      [apply (excl_writeFileSync ["README.md"]), clean_single; reflexivity
      |intros ?].
    apply hoare_console_log; auto. }
  intros ?.
  apply hoare_bind with (Q1 := fun _ => Inv);
    [apply hoare_console_log; auto|intros ?].
  apply hoare_bind with (Q1 := fun _ => Inv);
    [intros s HI; exact HI|intros ?].
  apply hoare_console_log; auto.
Qed.

Lemma excl_clear_template :
  hoare (fun _ => True) (clear_template rootDir) (fun _ => Inv) (fun _ => Inv).
Proof.
  assert (Habs : forall t, lookup tpl t = None ->
                 forall p q, lookup (tpl ++ p ++ q) t = None).
  { intros t Ht p q. now rewrite lookup_app, Ht. }
  unfold clear_template.
  apply hoare_bind with
    (Q1 := fun b s => b = match lookup tpl (files s) with
                          | Some _ => true | None => false end);
    [apply hoare_existsSync; auto|intros present].
  destruct present.
  - apply hoare_bind with (Q1 := fun _ => Inv).
    + apply hoare_removeSync. intros s _ p q _ _. simpl.
      apply Habs, lookup_remove_self. unfold templateDir, join.
      now destruct rootDir.
    + intros ?. apply hoare_console_log; auto.
  - apply hoare_ret. intros s Hs p q _ _. apply Habs.
    destruct (lookup tpl (files s)); [discriminate|reflexivity].
Qed.

Lemma buildTemplate_excl fuel :
  hoare (fun _ => True)
    (buildTemplate regexp_test gitignoreContent readmeContent rootDir fuel)
    (fun _ => Inv) (fun _ => Inv).
Proof.
  unfold buildTemplate.
  apply hoare_bind with (Q1 := fun _ _ => True);
    [apply hoare_console_log; auto|intros ?].
  apply hoare_bind with (Q1 := fun _ => Inv).
  { eapply hoare_conseq; [apply excl_clear_template|auto..].
    (* an abort cannot occur before the copy starts; if it did, the
       invariant would still hold *) }
  intros ?.
  apply hoare_bind with (Q1 := fun _ => Inv).
  { unfold copy_files. apply hoare_bind with (Q1 := fun _ => Inv);
      [apply hoare_console_log; auto|intros ?].
    pose proof (copyDirectory_excl fuel [] clean_nil) as H.
    now rewrite !app_nil_r in H. }
  intros ?. apply excl_process_files.
Qed.

Lemma clear_template_run s :
  exists o,
    clear_template rootDir s
    = (Ret tt, with_files s (remove tpl (files s)), o).
Proof.
  unfold clear_template, bind, existsSync, removeSync, bind, get_files,
    set_files, ret, console_log, emit, with_files.
  destruct (lookup tpl (files s)) eqn:El; simpl; eauto.
  rewrite remove_absent by exact El. destruct s. simpl. eauto.
Qed.

(** The build is its tail run on the tree without the template. *)
Lemma buildTemplate_tail fuel s :
  fst (buildTemplate regexp_test gitignoreContent readmeContent rootDir fuel s)
  = fst (bind (copy_files regexp_test rootDir fuel)
           (fun _ => process_files gitignoreContent readmeContent rootDir)
           (with_files s (remove tpl (files s)))).
Proof.
  unfold buildTemplate. erewrite bind_fst by reflexivity.
  destruct (clear_template_run s) as [o Ho].
  now erewrite bind_fst by exact Ho.
Qed.
End BuilderFacts.

(** ** The template builder: exclusion, idempotence, manifest *)

Lemma excluded_nonempty regexp_test p : excluded_rel regexp_test p = true -> p <> [].
Proof. intros H ->. discriminate. Qed.

(** C3.  For every exclusion rule [R] of the builder and every entry whose
    path [p] relative to the source root matches [R] (the path is [R], the
    path starts with [R/], or the entry's base name is [R]), the output tree
    of [buildTemplate] holds nothing at [p] nor anywhere below it: the
    entry is not copied and its subtree is not entered.  This holds of the
    state in which the run stops, however it stops. *)
Theorem excluded_entries_not_copied
  (regexp_test : string -> string -> bool) (gitignoreContent readmeContent : string)
  (rootDir : path) (fuel : nat) (s : state) (R : string) (p q : path) :
  In R excludePatterns ->
  matches_rule R p ->
  lookup (templateDir rootDir ++ p ++ q)
    (files (state_of
       (buildTemplate regexp_test gitignoreContent readmeContent rootDir fuel s)))
  = None.
Proof.
  intros HR Hm.
  pose proof (excluded_of_rule regexp_test R p HR Hm) as Hex.
  pose proof (buildTemplate_excl regexp_test gitignoreContent readmeContent
                rootDir fuel s I) as H.
  assert (HI : excluded_absent regexp_test rootDir
                 (state_of (buildTemplate regexp_test gitignoreContent
                              readmeContent rootDir fuel s)))
    by (destruct (outcome_of _) in H; exact H).
  apply HI; [exact (excluded_nonempty regexp_test p Hex)|exact Hex].
Qed.

Lemma excluded_entries_not_copied_witness :
  let built := files (state_of (buildTemplate no_regexp "ignore" "readme"
                                  ["repo"] 5 sample_repo)) in
  In "node_modules" excludePatterns
  /\ matches_rule "node_modules" ["src"; "node_modules"]
  /\ lookup (templateDir ["repo"] ++ ["src"; "node_modules"] ++ ["dep.js"]) built
     = None
  /\ lookup (templateDir ["repo"] ++ ["src"; "main.tsx"]) built
     = Some (File (Raw "main")).
Proof.
  intros built.
  assert (HR : In "node_modules" excludePatterns) by (simpl; tauto).
  assert (Hm : matches_rule "node_modules" ["src"; "node_modules"])
    by (right; right; reflexivity).
  split; [exact HR|split; [exact Hm|split; [|reflexivity]]].
  exact (excluded_entries_not_copied no_regexp "ignore" "readme" ["repo"] 5
           sample_repo "node_modules" ["src"; "node_modules"] ["dep.js"] HR Hm).
Defined.

(** The walk needs no more fuel than the height of the tree. *)
Lemma buildTemplate_enough_fuel
  (regexp_test : string -> string -> bool) (gitignoreContent readmeContent : string)
  (rootDir : path) (fuel : nat) (s : state) (es : list (string * node)) :
  lookup rootDir (files s) = Some (Dir es) ->
  height (files s) < fuel ->
  framed rootDir (remove (templateDir rootDir) (files s)) (cwd s)
    (state_of (buildTemplate regexp_test gitignoreContent readmeContent rootDir fuel s))
  /\ outcome_of (buildTemplate regexp_test gitignoreContent readmeContent rootDir fuel s)
     <> Abort NoFuel.
Proof.
  intros Hroot Hfuel.
  set (tpl := templateDir rootDir). set (F0 := remove tpl (files s)).
  assert (Hroot0 : lookup rootDir F0 = Some (Dir (adel "template" es))).
  { unfold F0, tpl, templateDir, join. now rewrite lookup_remove_parent, Hroot. }
  assert (Hh : height (Dir (adel "template" es)) < fuel).
  { eapply Nat.le_lt_trans; [apply height_adel|].
    eapply Nat.le_lt_trans; [apply (height_lookup _ _ _ Hroot)|exact Hfuel]. }
  assert (HJ : framed rootDir F0 (cwd s) (with_files s F0)).
  { split; [|reflexivity]. simpl. apply remove_remove.
    apply templateDir_nonempty. }
  pose proof (frame_build_tail regexp_test gitignoreContent readmeContent
                rootDir F0 (cwd s) _ Hroot0 fuel Hh (with_files s F0) HJ) as H.
  pose proof (buildTemplate_tail regexp_test gitignoreContent readmeContent
                rootDir fuel s) as Ht.
  fold tpl in Ht. fold F0 in Ht.
  unfold outcome_of, state_of in *. rewrite Ht.
  destruct (fst (fst _)) as [a|x] in H |- *.
  - split; [exact H|discriminate].
  - destruct H as [H Hx]. split; [exact H|congruence].
Qed.

(** Whatever the template directory held before, the build starts from a
    tree without it. *)
Lemma buildTemplate_clean_slate
  (regexp_test : string -> string -> bool) (gitignoreContent readmeContent : string)
  (rootDir : path) (fuel : nat) (s s' : state) :
  remove (templateDir rootDir) (files s') = remove (templateDir rootDir) (files s) ->
  cwd s' = cwd s ->
  fst (buildTemplate regexp_test gitignoreContent readmeContent rootDir fuel s')
  = fst (buildTemplate regexp_test gitignoreContent readmeContent rootDir fuel s).
Proof.
  intros Hf Hc. rewrite !buildTemplate_tail. unfold with_files.
  now rewrite Hf, Hc.
Qed.

(** C6.  [buildTemplate] is idempotent because it starts from a clean
    slate.  On a source root that is a directory, and with fuel beyond the
    height of the tree, the run does not stop for lack of fuel; whatever
    the template directory holds beforehand has no part in the result: a
    run from any state with the same tree outside the template directory
    (and the same working directory) ends the same way in the same state;
    so a second run from the state the first one leaves ends the same way
    in the same state (file tree and working directory). *)
Theorem buildTemplate_idempotent
  (regexp_test : string -> string -> bool) (gitignoreContent readmeContent : string)
  (rootDir : path) (fuel : nat) (s : state) (es : list (string * node)) :
  lookup rootDir (files s) = Some (Dir es) ->
  height (files s) < fuel ->
  let build := buildTemplate regexp_test gitignoreContent readmeContent rootDir fuel in
  outcome_of (build s) <> Abort NoFuel
  /\ (forall s',
        remove (templateDir rootDir) (files s')
        = remove (templateDir rootDir) (files s) ->
        cwd s' = cwd s ->
        outcome_of (build s') = outcome_of (build s)
        /\ state_of (build s') = state_of (build s))
  /\ outcome_of (build (state_of (build s))) = outcome_of (build s)
  /\ state_of (build (state_of (build s))) = state_of (build s).
Proof.
  intros Hroot Hfuel build.
  destruct (buildTemplate_enough_fuel regexp_test gitignoreContent readmeContent
              rootDir fuel s es Hroot Hfuel) as [[Hf Hc] Hn].
  fold build in Hf, Hc, Hn. split; [exact Hn|].
  assert (Hslate : forall s',
             remove (templateDir rootDir) (files s')
             = remove (templateDir rootDir) (files s) ->
             cwd s' = cwd s ->
             outcome_of (build s') = outcome_of (build s)
             /\ state_of (build s') = state_of (build s)).
  { intros s' Hf' Hc'.
    pose proof (buildTemplate_clean_slate regexp_test gitignoreContent
                  readmeContent rootDir fuel s s' Hf' Hc') as H.
    fold build in H. unfold outcome_of, state_of. now rewrite H. }
  split; [exact Hslate|]. now apply Hslate.
Qed.

Lemma buildTemplate_idempotent_witness :
  let build := buildTemplate no_regexp "ignore" "readme" ["repo"] 5 in
  outcome_of (build sample_repo) <> Abort NoFuel
  /\ (forall s',
        remove (templateDir ["repo"]) (files s')
        = remove (templateDir ["repo"]) (files sample_repo) ->
        cwd s' = cwd sample_repo ->
        outcome_of (build s') = outcome_of (build sample_repo)
        /\ state_of (build s') = state_of (build sample_repo))
  /\ outcome_of (build (state_of (build sample_repo))) = outcome_of (build sample_repo)
  /\ state_of (build (state_of (build sample_repo))) = state_of (build sample_repo).
Proof.
  apply (buildTemplate_idempotent no_regexp "ignore" "readme" ["repo"] 5
           sample_repo
           (sample_entries [("package.json", File (Json sample_manifest))])).
  - reflexivity.
  - vm_compute. lia.
Defined.

Lemma put_present p v t n : lookup p t = Some n -> exists t', put p v t = Some t'.
Proof.
  revert t. induction p as [|x p IH]; intros t H; simpl in *; eauto.
  destruct t as [c|es]; [discriminate|].
  destruct (alookup x es) as [c|] eqn:E; [|discriminate].
  destruct p as [|y p]; eauto.
  destruct (IH c H) as [c' ->]. eauto.
Qed.

Lemma delete_all_total ks d :
  d <> JNull -> exists d', delete_all ks d = inr d'.
Proof.
  unfold delete_all. revert d. induction ks as [|k ks IH]; intros d Hd; simpl.
  - eauto.
  - destruct d; try congruence; simpl; apply IH; discriminate.
Qed.

Lemma delete_in_obj k ks m :
  exists m', delete_in k ks (JObj m) = inr (JObj m')
             /\ forall key, key <> k -> alookup key m' = alookup key m.
Proof.
  unfold delete_in. simpl. destruct (alookup k m) as [d|] eqn:E; simpl.
  - destruct (truthy d) eqn:Ht; [|eauto].
    destruct (delete_all_total ks d) as [d' ->].
    { intros ->. discriminate. }
    simpl. eexists. split; [reflexivity|].
    intros key Hk. now rewrite alookup_aset_ne by congruence.
  - eauto.
Qed.

(** The rewritten manifest has neither key. *)
Lemma rewrite_manifest_keys j j' :
  rewrite_manifest j = inr j' ->
  has_key "bin" j' = false /\ has_key "files" j' = false.
Proof.
  destruct j; try discriminate.
  - intros [= <-]. auto.
  - unfold rewrite_manifest. simpl.
    match goal with |- context [delete_in "devDependencies" ?ks (JObj ?m0)] =>
      destruct (delete_in_obj "devDependencies" ks m0) as (m1 & -> & H1) end.
    simpl.
    match goal with |- context [delete_in "scripts" ?ks (JObj m1)] =>
      destruct (delete_in_obj "scripts" ks m1) as (m2 & -> & H2) end.
    intros [= <-]. simpl.
    rewrite !H2, !H1 by discriminate.
    rewrite !alookup_aset_ne by discriminate.
    rewrite (alookup_adel_ne "files" "bin") by discriminate.
    now rewrite !alookup_adel_eq.
Qed.

(** The rewrite only fails on a manifest that is not an object, and such a
    manifest has no keys. *)
Lemma rewrite_manifest_error j e :
  rewrite_manifest j = inl e -> forall k, has_key k j = false.
Proof.
  destruct j; try reflexivity. unfold rewrite_manifest. simpl.
  match goal with |- context [delete_in "devDependencies" ?ks (JObj ?m0)] =>
    destruct (delete_in_obj "devDependencies" ks m0) as (m1 & -> & H1) end.
  simpl.
  match goal with |- context [delete_in "scripts" ?ks (JObj m1)] =>
    destruct (delete_in_obj "scripts" ks m1) as (m2 & -> & H2) end.
  discriminate.
Qed.

Lemma existsSync_run p s :
  existsSync p s
  = (Ret (match lookup p (files s) with Some _ => true | None => false end),
     s, []).
Proof. reflexivity. Qed.

Lemma readFileSync_run p s c :
  lookup p (files s) = Some (File c) -> readFileSync p s = (Ret c, s, []).
Proof.
  intros H. unfold readFileSync, bind, get_files. simpl. now rewrite H.
Qed.

Lemma writeFileSync_run p c s t' :
  (forall es, lookup p (files s) <> Some (Dir es)) ->
  put p (File c) (files s) = Some t' ->
  writeFileSync p c s = (Ret tt, with_files s t', []).
Proof.
  intros Hd Hp. unfold writeFileSync, bind, get_files. simpl.
  destruct (lookup p (files s)) as [[c0|es]|]; try (now destruct (Hd es));
    now rewrite Hp.
Qed.

Section ManifestFacts.
Variables gitignoreContent readmeContent : string.
Variable rootDir : path.

Local Notation pkg := (join (templateDir rootDir) "package.json").

(** The manifest block on a parseable manifest. *)
Lemma processPackageJson_json s j :
  lookup pkg (files s) = Some (File (Json j)) ->
  match rewrite_manifest j with
  | inr j' =>
      exists t', put pkg (File (Json j')) (files s) = Some t'
                 /\ processPackageJson rootDir s
                    = (Ret tt, with_files s t',
                       [ConsoleLog Plain "Processed: package.json"])
  | inl e => processPackageJson rootDir s = (Abort (Thrown e), s, [])
  end.
Proof.
  intros H. unfold processPackageJson.
  rewrite (bind_ret_run _ _ _ _ _ _ (existsSync_run pkg s)), H.
  rewrite (bind_ret_run _ _ _ _ _ _ (readFileSync_run pkg s _ H)).
  rewrite (bind_ret_run (JSON_parse (Json j)) _ s j s [] eq_refl).
  destruct (rewrite_manifest j) as [e|j'] eqn:E.
  - rewrite (bind_abort_run (js (inl e)) _ s (Thrown e) s [] eq_refl).
    reflexivity.
  - destruct (put_present pkg (File (Json j')) _ _ H) as [t' Ht'].
    exists t'. split; [exact Ht'|].
    rewrite (bind_ret_run (js (inr j')) _ s j' s [] eq_refl).
    assert (Hd : forall es, lookup pkg (files s) <> Some (Dir es))
      by (intros es; rewrite H; discriminate).
    rewrite (bind_ret_run _ _ _ _ _ _ (writeFileSync_run pkg _ s t' Hd Ht')).
    reflexivity.
Qed.

(** The manifest block on a manifest that is not JSON. *)
Lemma processPackageJson_raw s c :
  lookup pkg (files s) = Some (File (Raw c)) ->
  processPackageJson rootDir s = (Abort (Thrown SyntaxError), s, []).
Proof.
  intros H. unfold processPackageJson.
  rewrite (bind_ret_run _ _ _ _ _ _ (existsSync_run pkg s)), H.
  rewrite (bind_ret_run _ _ _ _ _ _ (readFileSync_run pkg s _ H)).
  reflexivity.
Qed.

(** The manifest block when there is no manifest: the guard skips it. *)
Lemma processPackageJson_missing s :
  lookup pkg (files s) = None ->
  processPackageJson rootDir s = (Ret tt, s, []).
Proof.
  intros H. unfold processPackageJson.
  rewrite (bind_ret_run _ _ _ _ _ _ (existsSync_run pkg s)), H. reflexivity.
Qed.

Lemma keep_writeFileSync (x : path) (n : node) r c :
  is_prefix (templateDir rootDir ++ r) x = false ->
  is_prefix x (templateDir rootDir ++ r) = false ->
  hoare (fun s => lookup x (files s) = Some n)
    (writeFileSync (templateDir rootDir ++ r) c)
    (fun _ s => lookup x (files s) = Some n)
    (fun _ s => lookup x (files s) = Some n).
Proof.
  intros H1 H2. apply hoare_writeFileSync; auto.
  intros s t' Hs _ Hput. simpl.
  now rewrite (lookup_put_diverge _ _ _ _ x Hput H1 H2).
Qed.
End ManifestFacts.

Lemma rewrite_manifest_obj m : exists m', rewrite_manifest (JObj m) = inr (JObj m').
Proof.
  unfold rewrite_manifest. simpl.
  match goal with |- context [delete_in "devDependencies" ?ks (JObj ?m0)] =>
    destruct (delete_in_obj "devDependencies" ks m0) as (m1 & -> & H1) end.
  simpl.
  match goal with |- context [delete_in "scripts" ?ks (JObj m1)] =>
    destruct (delete_in_obj "scripts" ks m1) as (m2 & -> & H2) end.
  eauto.
Qed.

Lemma try_catch_thrown {A} (m : M A) (h : error -> M A) s e s1 o1 :
  m s = (Abort (Thrown e), s1, o1) ->
  try_catch m h s = (fst (h e s1), o1 ++ snd (h e s1)).
Proof.
  intros H. unfold try_catch. rewrite H. now destruct (h e s1) as [[r s2] o2].
Qed.

Lemma try_catch_ret {A} (m : M A) (h : error -> M A) s a s1 o1 :
  m s = (Ret a, s1, o1) -> try_catch m h s = (Ret a, s1, o1).
Proof. intros H. unfold try_catch. now rewrite H. Qed.

Lemma try_catch_exited {A} (m : M A) (h : error -> M A) s code s1 o1 :
  m s = (Abort (Exited code), s1, o1) ->
  try_catch m h s = (Abort (Exited code), s1, o1).
Proof. intros H. unfold try_catch. now rewrite H. Qed.

Lemma state_of_bind {A B} (m : M A) (k : A -> M B) s a s1 o1 :
  m s = (Ret a, s1, o1) -> state_of (bind m k s) = state_of (k a s1).
Proof. intros H. unfold state_of. now rewrite (bind_fst _ _ _ _ _ _ H). Qed.

Lemma outcome_of_bind {A B} (m : M A) (k : A -> M B) s a s1 o1 :
  m s = (Ret a, s1, o1) -> outcome_of (bind m k s) = outcome_of (k a s1).
Proof. intros H. unfold outcome_of. now rewrite (bind_fst _ _ _ _ _ _ H). Qed.

(** A triple read at one state. *)
Lemma hoare_state {A} (P : state -> Prop) (m : M A) (I : state -> Prop) s :
  hoare P m (fun _ => I) (fun _ => I) -> P s -> I (state_of (m s)).
Proof. intros H HP. specialize (H s HP). now destruct (outcome_of (m s)). Qed.

(** C2.  Whatever manifest the template directory holds when the builder
    processes it (with or without [bin] and [files]), the manifest found
    there afterwards has neither a [bin] nor a [files] key; when the manifest
    is a JSON object, what is found there is that object as rewritten by the
    builder. *)
Theorem rewritten_manifest_has_no_bin_or_files
  (gitignoreContent readmeContent : string) (rootDir : path) (s : state) (j : json) :
  lookup (join (templateDir rootDir) "package.json") (files s)
  = Some (File (Json j)) ->
  exists j',
    lookup (join (templateDir rootDir) "package.json")
      (files (state_of
                (processTemplateFiles gitignoreContent readmeContent rootDir s)))
    = Some (File (Json j'))
    /\ has_key "bin" j' = false
    /\ has_key "files" j' = false
    /\ (forall m, j = JObj m -> rewrite_manifest j = inr j').
Proof.
  intros H. set (pkg := join (templateDir rootDir) "package.json") in *.
  pose proof (processPackageJson_json rootDir s j H) as Hrun. fold pkg in Hrun.
  unfold processTemplateFiles.
  destruct (rewrite_manifest j) as [e|j'] eqn:E.
  - exists j. rewrite (bind_abort_run _ _ _ _ _ _ Hrun).
    repeat split; try apply (rewrite_manifest_error j e E); [exact H|].
    intros m ->. destruct (rewrite_manifest_obj m) as [m' Hm]. congruence.
  - destruct Hrun as (t' & Hput & Hrun). exists j'.
    destruct (rewrite_manifest_keys j j' E) as [Hb Hf].
    repeat split; auto.
    rewrite (state_of_bind _ _ _ _ _ _ Hrun).
    apply (hoare_state (fun s0 => lookup pkg (files s0) = Some (File (Json j')))).
    + apply hoare_bind with
        (Q1 := fun _ s0 => lookup pkg (files s0) = Some (File (Json j'))).
      { apply (keep_writeFileSync rootDir pkg _ [".gitignore"]);
          unfold pkg, join; rewrite is_prefix_app_l; reflexivity. }
      intros ?. apply hoare_bind with
        (Q1 := fun _ s0 => lookup pkg (files s0) = Some (File (Json j'))).
      { apply hoare_console_log; auto. }
      intros ?. apply hoare_bind with
        (Q1 := fun _ s0 => lookup pkg (files s0) = Some (File (Json j'))).
      { apply (keep_writeFileSync rootDir pkg _ ["README.md"]);
          unfold pkg, join; rewrite is_prefix_app_l; reflexivity. }
      intros ?. apply hoare_console_log; auto.
    + simpl. apply (lookup_put_same _ _ _ _ Hput).
Qed.

Lemma rewritten_manifest_has_no_bin_or_files_witness :
  exists j',
    lookup (join (templateDir ["repo"]) "package.json")
      (files (state_of
                (processTemplateFiles "ignore" "readme" ["repo"]
                   (state_of (copy_phase no_regexp ["repo"] 5 sample_repo)))))
    = Some (File (Json j'))
    /\ has_key "bin" j' = false
    /\ has_key "files" j' = false
    /\ (forall m, sample_manifest = JObj m -> rewrite_manifest sample_manifest = inr j').
Proof.
  apply (rewritten_manifest_has_no_bin_or_files "ignore" "readme" ["repo"]
           (state_of (copy_phase no_regexp ["repo"] 5 sample_repo))
           sample_manifest).
  reflexivity.
Defined.

(** ** The template builder: manifest failure modes *)

Lemma buildTemplate_phases regexp_test gitignoreContent readmeContent rootDir fuel s :
  buildTemplate regexp_test gitignoreContent readmeContent rootDir fuel s
  = bind (copy_phase regexp_test rootDir fuel)
      (fun _ => process_files gitignoreContent readmeContent rootDir) s.
Proof.
  unfold buildTemplate, copy_phase. rewrite bind_assoc. apply bind_ext.
  intros a s1. now rewrite bind_assoc.
Qed.

Lemma put_cons k d v es :
  d <> [] ->
  put (k :: d) v (Dir es) =
  match alookup k es with
  | Some c =>
      match put d v c with
      | Some c' => Some (Dir (aset k c' es))
      | None => None
      end
  | None => None
  end.
Proof. destruct d; [congruence|reflexivity]. Qed.

Lemma put_child d x v t es :
  lookup d t = Some (Dir es) ->
  exists t', put (d ++ [x]) v t = Some t'
             /\ lookup d t' = Some (Dir (aset x v es)).
Proof.
  revert t. induction d as [|k d IH]; intros t H.
  - simpl in H. injection H as ->. simpl. eauto.
  - cbn [lookup] in H. destruct t as [c|es0]; [discriminate|].
    destruct (alookup k es0) as [c|] eqn:E; [|discriminate].
    destruct (IH c H) as (c' & Hc' & Hl).
    change ((k :: d) ++ [x]) with (k :: (d ++ [x])).
    rewrite put_cons by (now destruct d). rewrite E, Hc'.
    eexists. split; [reflexivity|]. cbn [lookup]. now rewrite alookup_aset_eq.
Qed.

(** Writing a file into an existing directory where no directory of that
    name stands succeeds. *)
Lemma writeFileSync_child d x c s es :
  lookup d (files s) = Some (Dir es) ->
  (forall sub, alookup x es <> Some (Dir sub)) ->
  exists t', writeFileSync (join d x) c s = (Ret tt, with_files s t', [])
             /\ lookup d t' = Some (Dir (aset x (File c) es)).
Proof.
  intros Hd Hx. destruct (put_child d x (File c) _ _ Hd) as (t' & Hput & Hl).
  exists t'. split; [|exact Hl]. apply writeFileSync_run; [|exact Hput].
  intros sub. unfold join. rewrite lookup_app, Hd. simpl.
  destruct (alookup x es) as [n|] eqn:E; [|discriminate].
  destruct n; [discriminate|]. now destruct (Hx es0).
Qed.

Lemma writeFileSync_dir p c s es :
  lookup p (files s) = Some (Dir es) ->
  writeFileSync p c s = (Abort (Thrown (EISDIR p)), s, []).
Proof.
  intros H. unfold writeFileSync, bind, get_files. simpl. now rewrite H.
Qed.

(** The process in terms of the function: exit code 0 when [buildTemplate]
    returns, 1 when it throws. *)
Lemma build_main_outcome regexp_test gitignoreContent readmeContent rootDir fuel s :
  outcome_of (build_main regexp_test gitignoreContent readmeContent rootDir fuel s)
  = match outcome_of (buildTemplate regexp_test gitignoreContent readmeContent
                        rootDir fuel s) with
    | Ret _ => Abort (Exited 0)
    | Abort (Thrown _) => Abort (Exited 1)
    | Abort x => Abort x
    end.
Proof.
  unfold build_main, bind, try_catch, outcome_of.
  destruct (buildTemplate regexp_test gitignoreContent readmeContent rootDir
              fuel s) as [[[[]|[e| | |]] s1] o1]; reflexivity.
Qed.

(** The build after the copy, when the manifest block leaves the state as
    it is: the two remaining writes decide. *)
Lemma build_after_manifest regexp_test gitignoreContent readmeContent rootDir
  fuel s s1 o1 es :
  copy_phase regexp_test rootDir fuel s = (Ret tt, s1, o1) ->
  processPackageJson rootDir s1 = (Ret tt, s1, []) ->
  lookup (templateDir rootDir) (files s1) = Some (Dir es) ->
  outcome_of (buildTemplate regexp_test gitignoreContent readmeContent rootDir
                fuel s)
  = match alookup ".gitignore" es, alookup "README.md" es with
    | Some (Dir _), _ =>
        Abort (Thrown (EISDIR (join (templateDir rootDir) ".gitignore")))
    | _, Some (Dir _) =>
        Abort (Thrown (EISDIR (join (templateDir rootDir) "README.md")))
    | _, _ => Ret tt
    end.
Proof.
  intros Hcopy Hp Htpl.
  unfold outcome_of.
  rewrite buildTemplate_phases, (bind_fst _ _ _ _ _ _ Hcopy).
  unfold process_files. erewrite bind_fst by reflexivity.
  unfold processTemplateFiles.
  assert (Hlook : forall x, lookup (join (templateDir rootDir) x) (files s1)
                            = alookup x es).
  { intros x. unfold join. rewrite lookup_app, Htpl. simpl.
    now destruct (alookup x es). }
  destruct (alookup ".gitignore" es) as [[cg|subg]|] eqn:Eg.
  3: assert (Hg : forall sub, alookup ".gitignore" es <> Some (Dir sub))
       by (intros sub; rewrite Eg; discriminate).
  1: assert (Hg : forall sub, alookup ".gitignore" es <> Some (Dir sub))
       by (intros sub; rewrite Eg; discriminate).
  2: { erewrite bind_abort_run; [reflexivity|].
       rewrite (bind_ret_run _ _ _ _ _ _ Hp).
       erewrite bind_abort_run; [reflexivity|].
       apply (writeFileSync_dir _ _ _ subg). now rewrite Hlook. }
  all: destruct (writeFileSync_child (templateDir rootDir) ".gitignore"
                   (Raw gitignoreContent) s1 es Htpl Hg) as (t1 & Hw1 & Hl1);
    destruct (alookup "README.md" es) as [[cr|subr]|] eqn:Er.
  all: try (assert (Hr : forall sub,
                      alookup "README.md"
                        (aset ".gitignore" (File (Raw gitignoreContent)) es)
                      <> Some (Dir sub))
              by (intros sub; rewrite alookup_aset_ne by discriminate;
                  rewrite Er; discriminate);
            destruct (writeFileSync_child (templateDir rootDir) "README.md"
                        (Raw readmeContent) (with_files s1 t1) _ Hl1 Hr)
              as (t2 & Hw2 & Hl2);
            erewrite (bind_fst (bind _ _)
                        _ _ tt (with_files (with_files s1 t1) t2));
            [ erewrite bind_fst by reflexivity;
              rewrite (bind_fst process_cwd _ _ _ _ [] eq_refl); reflexivity
            | rewrite (bind_ret_run _ _ _ _ _ _ Hp);
              rewrite (bind_ret_run _ _ _ _ _ _ Hw1);
              erewrite (bind_ret_run (console_log _ _)) by reflexivity;
              rewrite (bind_ret_run _ _ _ _ _ _ Hw2); reflexivity ]).
  all: erewrite bind_abort_run; [reflexivity|];
    rewrite (bind_ret_run _ _ _ _ _ _ Hp);
    rewrite (bind_ret_run _ _ _ _ _ _ Hw1);
    erewrite (bind_ret_run (console_log _ _)) by reflexivity;
    erewrite bind_abort_run; [reflexivity|];
    apply (writeFileSync_dir _ _ _ subr); simpl; unfold join;
    rewrite lookup_app, Hl1; simpl;
    rewrite alookup_aset_ne by discriminate; now rewrite Er.
Qed.

(** C5 (as the code has it).  Take the state [s1] in which the builder has
    finished copying and turns to the manifest.  If the manifest in the
    output directory is not parseable, the build fails fatally:
    [buildTemplate] throws the parse error in that very state, with nothing
    more written, and the process exits with code 1.  If the manifest is
    missing, the guard skips the rewrite without an error, and the two
    remaining writes decide: the process exits with code 0 when neither
    [.gitignore] nor [README.md] is a directory in the output directory,
    and with code 1 when one of them is. *)
Theorem manifest_failure_modes
  (regexp_test : string -> string -> bool) (gitignoreContent readmeContent : string)
  (rootDir : path) (fuel : nat) (s s1 : state) (o1 : list event) :
  copy_phase regexp_test rootDir fuel s = (Ret tt, s1, o1) ->
  let pkg := join (templateDir rootDir) "package.json" in
  let build := buildTemplate regexp_test gitignoreContent readmeContent rootDir fuel in
  let run := build_main regexp_test gitignoreContent readmeContent rootDir fuel s in
  (forall c, lookup pkg (files s1) = Some (File (Raw c)) ->
     outcome_of (build s) = Abort (Thrown SyntaxError)
     /\ state_of (build s) = s1
     /\ outcome_of run = Abort (Exited 1))
  /\ (lookup pkg (files s1) = None ->
      processPackageJson rootDir s1 = (Ret tt, s1, [])
      /\ forall es,
           lookup (templateDir rootDir) (files s1) = Some (Dir es) ->
           ((forall sub, alookup ".gitignore" es <> Some (Dir sub)) ->
            (forall sub, alookup "README.md" es <> Some (Dir sub)) ->
            outcome_of run = Abort (Exited 0))
           /\ ((exists sub, alookup ".gitignore" es = Some (Dir sub))
               \/ (exists sub, alookup "README.md" es = Some (Dir sub)) ->
               outcome_of run = Abort (Exited 1))).
Proof.
  intros Hcopy pkg build run. split.
  - intros c Hraw.
    pose proof (processPackageJson_raw rootDir s1 c Hraw) as Hp.
    assert (Hb : fst (build s) = (Abort (Thrown SyntaxError), s1)).
    { unfold build.
      rewrite buildTemplate_phases, (bind_fst _ _ _ _ _ _ Hcopy).
      unfold process_files. erewrite bind_fst by reflexivity.
      unfold processTemplateFiles.
      now rewrite (bind_abort_run _ _ _ _ _ _ (bind_abort_run _ _ _ _ _ _ Hp)). }
    assert (Ho : outcome_of (build s) = Abort (Thrown SyntaxError))
      by (unfold outcome_of; now rewrite Hb).
    split; [exact Ho|]. split; [unfold state_of; now rewrite Hb|].
    unfold run. rewrite build_main_outcome. fold build. now rewrite Ho.
  - intros Hnone.
    pose proof (processPackageJson_missing rootDir s1 Hnone) as Hp.
    split; [exact Hp|]. intros es Htpl.
    pose proof (build_after_manifest regexp_test gitignoreContent readmeContent
                  rootDir fuel s s1 o1 es Hcopy Hp Htpl) as Hb.
    unfold run. rewrite build_main_outcome, Hb. split.
    + intros Hg Hr.
      destruct (alookup ".gitignore" es) as [[cg|subg]|];
        try (now destruct (Hg subg));
        destruct (alookup "README.md" es) as [[cr|subr]|];
        try (now destruct (Hr subr)); reflexivity.
    + intros [[sub Hg]|[sub Hr]].
      * now rewrite Hg.
      * rewrite Hr. now destruct (alookup ".gitignore" es) as [[cg|subg]|].
Qed.

Lemma manifest_failure_modes_witness :
  let pkg := join (templateDir ["repo"]) "package.json" in
  let s1 := state_of (copy_phase no_regexp ["repo"] 5 broken_repo) in
  let build := buildTemplate no_regexp "ignore" "readme" ["repo"] 5 in
  let run := build_main no_regexp "ignore" "readme" ["repo"] 5 broken_repo in
  lookup pkg (files s1) = Some (File (Raw "{ name: "))
  /\ outcome_of (build broken_repo) = Abort (Thrown SyntaxError)
  /\ state_of (build broken_repo) = s1
  /\ outcome_of run = Abort (Exited 1).
Proof.
  intros pkg s1 build run. split; [reflexivity|].
  exact (proj1 (manifest_failure_modes no_regexp "ignore" "readme" ["repo"] 5
                  broken_repo s1
                  (output_of (copy_phase no_regexp ["repo"] 5 broken_repo))
                  eq_refl)
           "{ name: " eq_refl).
Defined.

(** C5, as stated, fails: with no manifest in the output directory the
    build completes and the process exits with code 0. *)
Lemma missing_manifest_build_succeeds :
  let run := build_main no_regexp "ignore" "readme" ["repo"] 5 bare_repo in
  lookup (join (templateDir ["repo"]) "package.json") (files (state_of run)) = None
  /\ outcome_of run = Abort (Exited 0)
  /\ In (ConsoleLog Plain (nl +++ "✅ Template built successfully!")) (output_of run).
Proof. vm_compute. intuition. Qed.

(** ** The project generator: names and target paths *)

Lemma append_snoc cur a s : (cur +++ String a EmptyString) +++ s = cur +++ String a s.
Proof. induction cur as [|b cur IH]; simpl; [reflexivity|now rewrite IH]. Qed.

Lemma segments_no_slash cur s :
  includes slash s = false -> segments_aux cur s = [cur +++ s].
Proof.
  revert cur. induction s as [|a s IH]; intros cur H; simpl in *.
  - f_equal. induction cur as [|b cur IHc]; simpl; congruence.
  - apply orb_false_iff in H as [Ha Hs]. rewrite Ha.
    now rewrite (IH _ Hs), append_snoc.
Qed.

(** A name without a slash, other than [.] and [..], resolves to the entry
    of that name in the working directory. *)
Lemma resolve_single cwd s :
  includes slash s = false -> s <> EmptyString -> s <> "." -> s <> ".." ->
  resolve cwd s = cwd ++ [s].
Proof.
  intros Hs He Hd Hdd. unfold resolve, segments.
  assert (Habs : is_absolute s = false).
  { destruct s as [|a s]; [reflexivity|]. simpl in *.
    now apply orb_false_iff in Hs as [Ha _]. }
  rewrite Habs, (segments_no_slash EmptyString s Hs). simpl.
  apply String.eqb_neq in He, Hd, Hdd. now rewrite He, Hd, Hdd.
Qed.

Lemma ident_char_not_slash a : ident_char a = true -> Ascii.eqb a slash = false.
Proof.
  intros H. destruct (Ascii.eqb_spec a slash) as [->|]; [discriminate|reflexivity].
Qed.

Lemma ident_no_slash s : all_chars ident_char s = true -> includes slash s = false.
Proof.
  induction s as [|a s IH]; simpl; auto. intros H.
  apply andb_true_iff in H as [Ha Hs].
  now rewrite (ident_char_not_slash a Ha), (IH Hs).
Qed.

Lemma validate_valid name :
  validate name = Valid -> ident_regex name = true.
Proof.
  unfold validate. destruct (negb (truthy_str (trim name))); [discriminate|].
  destruct (ident_regex name); [reflexivity|discriminate].
Qed.

Lemma resolve_valid cwd name :
  validate name = Valid -> resolve cwd name = cwd ++ [name].
Proof.
  intros H. apply validate_valid in H.
  assert (Hall : all_chars ident_char name = true)
    by (destruct name; [discriminate|exact H]).
  apply resolve_single.
  - now apply ident_no_slash.
  - intros ->. discriminate.
  - intros ->. discriminate.
  - intros ->. discriminate.
Qed.

(** ** The project generator: copying onto a fresh destination *)

Lemma alookup_absent {V} k (m : list (string * V)) :
  existsb (String.eqb k) (akeys m) = false -> alookup k m = None.
Proof.
  induction m as [|[k' v] m IH]; simpl; auto.
  intros H. apply orb_false_iff in H as [H1 H2]. now rewrite H1, IH.
Qed.

Lemma aset_fresh {V} k (v : V) m :
  alookup k m = None -> aset k v m = m ++ [(k, v)].
Proof.
  induction m as [|[k' v'] m IH]; simpl; auto.
  destruct (String.eqb k k'); [discriminate|]. intros H. now rewrite IH.
Qed.

Lemma existsb_snoc k (l : list string) x :
  existsb (String.eqb k) (l ++ [x]) = existsb (String.eqb k) l || String.eqb k x.
Proof. rewrite existsb_app. simpl. now rewrite orb_false_r. Qed.

Lemma merge_fresh n : forall t,
  height t < n -> well_formed t = true -> merge t None = (Some t, true).
Proof.
  induction n as [|n IH]; intros t Hh Hwf; [lia|].
  destruct t as [c|es]; [reflexivity|].
  cbn [merge].
  assert (Hgo : forall es ds,
             (forall k c, In (k, c) es -> height c < n) ->
             well_formed (Dir es) = true ->
             (forall k, existsb (String.eqb k) (akeys es) = true ->
                        existsb (String.eqb k) (akeys ds) = false) ->
             merge_entries merge es ds = (ds ++ es, true)).
  { clear es Hh Hwf. induction es as [|[k c] es IHes]; intros ds Hhs Hw Hdisj.
    - simpl. now rewrite app_nil_r.
    - cbn [merge_entries]. cbn [well_formed akeys map fst distinct] in Hw.
      apply andb_true_iff in Hw as [Hd Hall].
      apply andb_true_iff in Hd as [Hk Hd].
      apply andb_true_iff in Hall as [Hc Hall].
      apply negb_true_iff in Hk.
      assert (Hkds : alookup k ds = None).
      { apply alookup_absent, Hdisj. simpl. now rewrite String.eqb_refl. }
      rewrite Hkds, (IH c); [|apply (Hhs k); now left|exact Hc].
      rewrite (aset_fresh _ _ _ Hkds), IHes.
      + now rewrite <- app_assoc.
      + intros k' c' Hin. apply (Hhs k'). now right.
      + cbn [well_formed]. apply andb_true_iff. split; [exact Hd|exact Hall].
      + intros k' Hk'. unfold akeys. rewrite map_app. fold (akeys ds). simpl.
        rewrite existsb_snoc. apply orb_false_iff. split.
        * apply Hdisj. simpl. fold (akeys es). rewrite Hk'. apply orb_true_r.
        * destruct (String.eqb_spec k' k) as [->|]; [|reflexivity].
          fold (akeys es) in Hk. congruence. }
  rewrite (Hgo es []); [reflexivity| |exact Hwf|reflexivity].
  intros k c Hin. simpl in Hh.
  assert (Hc : height c <= (fix hs (l : list (string * node)) : nat :=
                              match l with
                              | [] => 0
                              | (_, c0) :: l' => Nat.max (height c0) (hs l')
                              end) es).
  { clear -Hin. induction es as [|[k' c'] es IHes]; [destruct Hin|].
    destruct Hin as [[= -> ->]|Hin]; [lia|]. specialize (IHes Hin). lia. }
  lia.
Qed.

Lemma copySync_fresh src dest s n es :
  lookup src (files s) = Some n ->
  well_formed n = true ->
  is_prefix src dest = false ->
  lookup dest (files s) = None ->
  lookup (dirname dest) (files s) = Some (Dir es) ->
  exists t',
    put dest n (files s) = Some t'
    /\ copySync src dest s = (Ret tt, with_files s t', []).
Proof.
  intros Hsrc Hwf Hpre Hdest Hparent.
  assert (Hne : dest <> []).
  { intros ->. simpl in Hdest. discriminate. }
  assert (Heq : path_eqb src dest = false).
  { destruct (path_eqb src dest) eqn:E; [|reflexivity].
    apply path_eqb_eq in E as ->. now rewrite is_prefix_refl in Hpre. }
  destruct (put_child (dirname dest) (basename dest) n _ _ Hparent)
    as (t' & Hput & _).
  unfold dirname, basename in Hput.
  rewrite <- (app_removelast_last EmptyString Hne) in Hput.
  exists t'. split; [exact Hput|].
  unfold copySync.
  rewrite (bind_ret_run get_files _ s (files s) s [] eq_refl).
  rewrite Hsrc, Heq.
  replace (match n with Dir _ => is_prefix src dest | File _ => false end)
    with false by (destruct n; [reflexivity|now rewrite Hpre]).
  rewrite (bind_ret_run _ _ _ _ _ _ (existsSync_run (dirname dest) s)), Hparent.
  rewrite (bind_ret_run (ret tt) _ s tt s [] eq_refl).
  rewrite (bind_ret_run get_files _ s (files s) s [] eq_refl).
  rewrite Hdest, (merge_fresh (S (height n)) n (Nat.lt_succ_diag_r _) Hwf), Hput.
  reflexivity.
Qed.

Lemma prompt_input_run default check typed s :
  prompt_input default check typed s
  = (outcome_of (prompt_input default check typed s), s, []).
Proof.
  induction typed as [|line rest IH]; simpl; [reflexivity|].
  destruct (check _); [reflexivity|exact IH].
Qed.

Lemma resolve_name_run arg u s :
  resolve_name arg u s = (outcome_of (resolve_name arg u s), s, []).
Proof.
  unfold resolve_name. destruct arg as [name|]; [|apply prompt_input_run].
  destruct (truthy_str name); [reflexivity|apply prompt_input_run].
Qed.

Section GeneratorFacts.
Variable run_command : string -> state -> node * bool.
Variable toolRoot : path.

Local Notation generate := (generate run_command toolRoot).
Local Notation createProject := (createProject run_command toolRoot).
Local Notation cli_main := (cli_main run_command toolRoot).

Lemma ask_run {A} u question (answer : A) s :
  responds u question = true -> ask u question answer s = (Ret answer, s, []).
Proof. intros H. unfold ask. now rewrite H. Qed.

Lemma ask_blocks {A} u question (answer : A) s :
  responds u question = false ->
  ask u question answer s = (Abort Blocking, s, []).
Proof. intros H. unfold ask. now rewrite H. Qed.

Lemma ask_all_run u qs s :
  for_each qs (fun question => ask u question tt) s
  = (if forallb (responds u) qs then Ret tt else Abort Blocking, s, []).
Proof.
  induction qs as [|q qs IH]; [reflexivity|]. cbn [for_each forallb].
  destruct (responds u q) eqn:E.
  - rewrite (bind_ret_run _ _ _ _ _ _ (ask_run u q tt s E)), IH.
    now destruct (forallb (responds u) qs).
  - now rewrite (bind_abort_run _ _ _ _ _ _ (ask_blocks u q tt s E)).
Qed.

(** The second prompt resolves exactly for a user who answers what it
    asks. *)
Lemma prompt_options_run o u s :
  prompt_options o u s
  = (if attentive o u then Ret (inquirer_answers o u) else Abort Blocking, s, []).
Proof.
  unfold prompt_options, attentive, bind. rewrite ask_all_run.
  now destruct (forallb (responds u) (questions o)).
Qed.

Lemma read_package_info_run s :
  tool_manifest_ok toolRoot s ->
  exists version, read_package_info toolRoot s = (Ret version, s, []).
Proof.
  intros (pj & v & Hl & Hv). exists v. unfold read_package_info.
  rewrite (bind_ret_run _ _ _ _ _ _ (readFileSync_run _ s _ Hl)).
  rewrite (bind_ret_run (JSON_parse (Json pj)) _ s pj s [] eq_refl).
  now rewrite Hv.
Qed.

(** Once the name is known and the questions are answered, and the target
    is free or the overwrite is confirmed, [createProject] is [generate] on
    the tree without the target. *)
Lemma createProject_generate arg o u s name :
  outcome_of (resolve_name arg u s) = Ret name ->
  attentive o u = true ->
  lookup (resolve (cwd s) name) (files s) = None
  \/ (responds u "overwrite" = true /\ confirm_overwrite u = true) ->
  let c := make_config name o (inquirer_answers o u) in
  let p := resolve (cwd s) name in
  let s0 := with_files s (remove p (files s)) in
  createProject arg o u s
  = (fst (generate c p s0), creating_banner :: snd (generate c p s0)).
Proof.
  intros Hname Hatt Htarget c p s0. unfold createProject.
  pose proof (resolve_name_run arg u s) as Hr. rewrite Hname in Hr.
  rewrite (bind_ret_run _ _ _ _ _ _ Hr).
  pose proof (prompt_options_run o u s) as Hq. rewrite Hatt in Hq.
  rewrite (bind_ret_run _ _ _ _ _ _ Hq).
  erewrite (bind_ret_run (console_log _ _)) by reflexivity.
  rewrite (bind_ret_run process_cwd _ s (cwd s) s [] eq_refl).
  rewrite (bind_ret_run _ _ _ _ _ _ (existsSync_run _ s)).
  fold c. fold p.
  destruct (lookup p (files s)) as [n|] eqn:El.
  - destruct Htarget as [Hn|[Hans Hov]]; [unfold p in El; congruence|].
    rewrite (bind_ret_run _ _ _ _ _ _ (ask_run u "overwrite" _ s Hans)), Hov.
    rewrite (bind_ret_run (removeSync p) _ s tt s0 [] eq_refl). reflexivity.
  - assert (Hs : s0 = s).
    { unfold s0, with_files. rewrite remove_absent by exact El. now destruct s. }
    rewrite Hs. reflexivity.
Qed.

Lemma createProject_cancelled arg o u s name n :
  outcome_of (resolve_name arg u s) = Ret name ->
  attentive o u = true ->
  lookup (resolve (cwd s) name) (files s) = Some n ->
  responds u "overwrite" = true ->
  confirm_overwrite u = false ->
  createProject arg o u s
  = (Ret tt, s, [creating_banner; ConsoleLog Yellow "Project creation cancelled."]).
Proof.
  intros Hname Hatt Hex Hans Hov. unfold createProject.
  pose proof (resolve_name_run arg u s) as Hr. rewrite Hname in Hr.
  rewrite (bind_ret_run _ _ _ _ _ _ Hr).
  pose proof (prompt_options_run o u s) as Hq. rewrite Hatt in Hq.
  rewrite (bind_ret_run _ _ _ _ _ _ Hq).
  erewrite (bind_ret_run (console_log _ _)) by reflexivity.
  rewrite (bind_ret_run process_cwd _ s (cwd s) s [] eq_refl).
  rewrite (bind_ret_run _ _ _ _ _ _ (existsSync_run _ s)).
  rewrite Hex.
  rewrite (bind_ret_run _ _ _ _ _ _ (ask_run u "overwrite" _ s Hans)), Hov.
  reflexivity.
Qed.

(** A user who leaves a question of the second prompt unanswered stops
    the run there, before anything is printed or written. *)
Lemma createProject_waits_for_options arg o u s name :
  outcome_of (resolve_name arg u s) = Ret name ->
  attentive o u = false ->
  createProject arg o u s = (Abort Blocking, s, []).
Proof.
  intros Hname Hatt. unfold createProject.
  pose proof (resolve_name_run arg u s) as Hr. rewrite Hname in Hr.
  rewrite (bind_ret_run _ _ _ _ _ _ Hr).
  pose proof (prompt_options_run o u s) as Hq. rewrite Hatt in Hq.
  now rewrite (bind_abort_run _ _ _ _ _ _ Hq).
Qed.

(** On an existing target, a user who leaves the overwrite question
    unanswered stops the run there, with the target as it was. *)
Lemma createProject_waits_for_overwrite arg o u s name n :
  outcome_of (resolve_name arg u s) = Ret name ->
  attentive o u = true ->
  lookup (resolve (cwd s) name) (files s) = Some n ->
  responds u "overwrite" = false ->
  createProject arg o u s = (Abort Blocking, s, [creating_banner]).
Proof.
  intros Hname Hatt Hex Hans. unfold createProject.
  pose proof (resolve_name_run arg u s) as Hr. rewrite Hname in Hr.
  rewrite (bind_ret_run _ _ _ _ _ _ Hr).
  pose proof (prompt_options_run o u s) as Hq. rewrite Hatt in Hq.
  rewrite (bind_ret_run _ _ _ _ _ _ Hq).
  erewrite (bind_ret_run (console_log _ _)) by reflexivity.
  rewrite (bind_ret_run process_cwd _ s (cwd s) s [] eq_refl).
  rewrite (bind_ret_run _ _ _ _ _ _ (existsSync_run _ s)).
  rewrite Hex.
  now rewrite (bind_abort_run _ _ _ _ _ _ (ask_blocks u "overwrite" _ s Hans)).
Qed.

(** The process around the action: once the tool's manifest is read, a run
    of [createProject] that returns ends the process with code 0, and one
    that throws ends it with code 1 after the error line. *)
Lemma cli_main_returns arg o u s s1 o1 :
  tool_manifest_ok toolRoot s ->
  createProject arg o u s = (Ret tt, s1, o1) ->
  cli_main arg o u s = (Abort (Exited 0), s1, o1 ++ []).
Proof.
  intros Hok H. destruct (read_package_info_run s Hok) as [v Hv].
  unfold cli_main, top_level, bind, try_catch. rewrite Hv, H. simpl.
  now rewrite !app_nil_r.
Qed.

Lemma cli_main_throws arg o u s e s1 o1 :
  tool_manifest_ok toolRoot s ->
  createProject arg o u s = (Abort (Thrown e), s1, o1) ->
  cli_main arg o u s
  = (Abort (Exited 1), s1, o1 ++ [ConsoleError Red "Error creating project:" e]).
Proof.
  intros Hok H. destruct (read_package_info_run s Hok) as [v Hv].
  unfold cli_main, top_level, bind, try_catch. rewrite Hv, H. simpl.
  rewrite ?app_nil_r. reflexivity.
Qed.

(** A start-up read that throws ends the process with code 1 before the
    action runs: nothing is asked, printed by the tool, or written. *)
Lemma cli_main_dies_at_startup arg o u s e :
  outcome_of (read_package_info toolRoot s) = Abort (Thrown e) ->
  cli_main arg o u s = (Abort (Exited 1), s, [Uncaught e]).
Proof.
  intros H.
  assert (Hr : read_package_info toolRoot s = (Abort (Thrown e), s, [])).
  { revert H. unfold read_package_info, readFileSync, bind, get_files, outcome_of.
    simpl.
    destruct (lookup (join toolRoot "package.json") (files s)) as [[[j|c]|es]|];
      simpl; try (now intros [= <-]).
    destruct (get_prop "version" j); simpl; [now intros [= <-]|discriminate]. }
  unfold cli_main, top_level, bind, try_catch. rewrite Hr. reflexivity.
Qed.
End GeneratorFacts.

(** ** The project generator: the steps one by one *)

Lemma may_throw_bind {A B} (m : M A) (k : A -> M B) :
  may_throw m -> (forall a, may_throw (k a)) -> may_throw (bind m k).
Proof.
  intros Hm Hk s. specialize (Hm s). unfold bind, outcome_of in *.
  destruct (m s) as [[[a|x] s1] o1]; simpl in *; auto.
  specialize (Hk a s1). unfold outcome_of in Hk.
  now destruct (k a s1) as [[r s2] o2].
Qed.

Lemma may_throw_ret {A} (a : A) : may_throw (ret a).
Proof. intros s. exact I. Qed.

Lemma may_throw_throw {A} e : may_throw (@throw A e).
Proof. intros s. simpl. eauto. Qed.

Lemma may_throw_emit e : may_throw (emit e).
Proof. intros s. exact I. Qed.

Lemma may_throw_existsSync p : may_throw (existsSync p).
Proof. intros s. exact I. Qed.

Lemma may_throw_mkdirSync p : may_throw (mkdirSync p).
Proof.
  intros s. unfold mkdirSync, bind, get_files, outcome_of. simpl.
  destruct (mkdirp p (files s)); simpl; eauto.
Qed.

Lemma may_throw_chdir p : may_throw (chdir p).
Proof.
  intros s. unfold chdir, outcome_of.
  destruct (lookup p (files s)) as [[c|es]|]; simpl; eauto.
Qed.

Lemma may_throw_copySync src dest : may_throw (copySync src dest).
Proof.
  unfold copySync. apply may_throw_bind; [intros s; exact I|intros t].
  destruct (lookup src t) as [n|]; [|apply may_throw_throw].
  destruct (path_eqb src dest); [apply may_throw_throw|].
  destruct (match n with Dir _ => is_prefix src dest | File _ => false end);
    [apply may_throw_throw|].
  apply may_throw_bind; [apply may_throw_existsSync|intros b].
  apply may_throw_bind;
    [destruct b; [apply may_throw_ret|apply may_throw_mkdirSync]|intros _u].
  apply may_throw_bind; [intros s; exact I|intros t1].
  destruct (merge n (lookup dest t1)) as [[n'|] ok]; [|apply may_throw_throw].
  destruct (put dest n' t1); [|apply may_throw_throw].
  apply may_throw_bind; [intros s; exact I|intros _v].
  destruct ok; [apply may_throw_ret|apply may_throw_throw].
Qed.

(** A [try] whose handler only prints always returns. *)
Lemma try_catch_returns (m : M unit) (h : error -> M unit) s :
  may_throw m ->
  (forall e s1, exists o, h e s1 = (Ret tt, s1, o)) ->
  exists s' o, try_catch m h s = (Ret tt, s', o).
Proof.
  intros Hm Hh. specialize (Hm s). unfold try_catch, outcome_of in *.
  destruct (m s) as [[[[]|x] s1] o1]; simpl in *; eauto.
  destruct Hm as [e ->]. destruct (Hh e s1) as [o ->]. eauto.
Qed.

Section StepFacts.
Variable run_command : string -> state -> node * bool.
Variable toolRoot : path.

Lemma may_throw_execSync cmd : may_throw (execSync run_command cmd).
Proof.
  intros s. unfold execSync, outcome_of.
  destruct (run_command cmd s) as [t [|]]; simpl; eauto.
Qed.

Lemma setup_environment_returns c p s :
  exists s' o, setup_environment c p s = (Ret tt, s', o).
Proof.
  unfold setup_environment. destruct (setupEnvironment c); [|do 2 eexists; reflexivity].
  erewrite (bind_ret_run (emit _)) by reflexivity.
  match goal with |- context [try_catch ?m ?h s] =>
    assert (Hm : may_throw m); [|destruct (try_catch_returns m h s Hm)
                                  as (s' & o & ->)] end.
  - apply may_throw_bind; [apply may_throw_existsSync|intros b].
    apply may_throw_bind; [|intros ?; apply may_throw_emit].
    destruct b; [apply may_throw_copySync|apply may_throw_ret].
  - intros e s1. eexists. reflexivity.
  - simpl. do 2 eexists. reflexivity.
Qed.

Lemma initialize_git_returns c p s :
  exists s' o, initialize_git run_command c p s = (Ret tt, s', o).
Proof.
  unfold initialize_git. destruct (initializeGit c); [|do 2 eexists; reflexivity].
  erewrite (bind_ret_run (emit _)) by reflexivity.
  match goal with |- context [try_catch ?m ?h s] =>
    assert (Hm : may_throw m); [|destruct (try_catch_returns m h s Hm)
                                  as (s' & o & ->)] end.
  - repeat (apply may_throw_bind;
            [first [apply may_throw_chdir|apply may_throw_execSync]|intros ?]).
    apply may_throw_emit.
  - intros e s1. eexists. reflexivity.
  - simpl. do 2 eexists. reflexivity.
Qed.

(** The [try] block of the install step when the command cannot succeed. *)
Lemma install_block_throws c p s :
  (forall cmd, alookup (packageManager c) installCommands = Some cmd ->
               snd (run_command cmd {| files := files s; cwd := p |}) = false) ->
  exists e s',
    bind (chdir p) (fun _ =>
      bind (execSync_opt run_command
              (alookup (packageManager c) installCommands))
        (fun _ => emit (SpinnerSucceed "Dependencies installed"))) s
    = (Abort (Thrown e), s', []).
Proof.
  intros Hfail. unfold chdir at 1, bind at 1.
  destruct (lookup p (files s)) as [[c0|es]|];
    try (do 2 eexists; reflexivity).
  destruct (alookup (packageManager c) installCommands) as [cmd|] eqn:E.
  - unfold bind, execSync_opt, execSync.
    specialize (Hfail cmd eq_refl).
    destruct (run_command cmd _) as [t ok]. simpl in Hfail. subst ok.
    do 2 eexists. reflexivity.
  - do 2 eexists. reflexivity.
Qed.

Lemma install_dependencies_failed c p s :
  installDependencies c = true ->
  (forall cmd, alookup (packageManager c) installCommands = Some cmd ->
               snd (run_command cmd {| files := files s; cwd := p |}) = false) ->
  exists s',
    install_dependencies run_command c p s
    = (Ret tt, s',
       [ SpinnerStart ("Installing dependencies with " +++ packageManager c +++ "...");
         SpinnerFail "Failed to install dependencies";
         ConsoleLog Yellow (nl +++ "You can install dependencies manually by running:");
         ConsoleLog Cyan ("cd " +++ projectName c +++ " && " +++ packageManager c
                          +++ " install") ]).
Proof.
  intros Hflag Hfail. unfold install_dependencies. rewrite Hflag.
  erewrite (bind_ret_run (emit _)) by reflexivity.
  destruct (install_block_throws c p s Hfail) as (e & s' & Hb).
  rewrite (try_catch_thrown _ _ _ _ _ _ Hb). simpl. eexists. reflexivity.
Qed.

Lemma print_summary_run c s :
  exists o, print_summary c s = (Ret tt, s, success_line :: o).
Proof.
  unfold print_summary, bind, console_log, emit, ret, success_line.
  destruct (negb (installDependencies c)); simpl; eexists; reflexivity.
Qed.

(** The optional steps never stop the run: [finish_project] always
    returns, and its output ends with the summary. *)
Lemma finish_project_returns c p s :
  exists s' o o', finish_project run_command c p s
                  = (Ret tt, s', o ++ success_line :: o').
Proof.
  unfold finish_project.
  destruct (setup_environment_returns c p s) as (s1 & o1 & H1).
  rewrite (bind_ret_run _ _ _ _ _ _ H1).
  destruct (initialize_git_returns c p s1) as (s2 & o2 & H2).
  rewrite (bind_ret_run _ _ _ _ _ _ H2).
  assert (H3 : exists s3 o3, install_dependencies run_command c p s2 = (Ret tt, s3, o3)).
  { unfold install_dependencies. destruct (installDependencies c); [|do 2 eexists; reflexivity].
    erewrite (bind_ret_run (emit _)) by reflexivity.
    match goal with |- context [try_catch ?m ?h s2] =>
      assert (Hm : may_throw m); [|destruct (try_catch_returns m h s2 Hm)
                                    as (s' & o & ->)] end.
    - apply may_throw_bind; [apply may_throw_chdir|intros ?].
      apply may_throw_bind; [|intros ?; apply may_throw_emit].
      unfold execSync_opt. destruct (alookup _ _);
        [apply may_throw_execSync|apply may_throw_throw].
    - intros e s0. eexists. reflexivity.
    - simpl. do 2 eexists. reflexivity. }
  destruct H3 as (s3 & o3 & H3). rewrite (bind_ret_run _ _ _ _ _ _ H3).
  destruct (print_summary_run c s3) as (o4 & ->). simpl.
  exists s3, (o1 ++ o2 ++ o3), o4. now rewrite <- !app_assoc.
Qed.
End StepFacts.

(** ** The project generator: cancellation *)

(** C4.  Once the generator has started (the tool's own manifest is read),
    if the target exists and the user, who answers the questions asked,
    declines to overwrite it, the run stops with the file tree (and the
    working directory) exactly as they were, it prints the cancellation
    notice and no error line, and the process exits with code 0. *)
Theorem declined_overwrite_is_clean_cancellation
  (run_command : string -> state -> node * bool) (toolRoot : path)
  (arg : option string) (o : options) (u : user) (s : state)
  (name : string) (n : node) :
  tool_manifest_ok toolRoot s ->
  outcome_of (resolve_name arg u s) = Ret name ->
  attentive o u = true ->
  lookup (resolve (cwd s) name) (files s) = Some n ->
  responds u "overwrite" = true ->
  confirm_overwrite u = false ->
  cli_main run_command toolRoot arg o u s
  = (Abort (Exited 0), s,
     [creating_banner; ConsoleLog Yellow "Project creation cancelled."]).
Proof.
  intros Hok Hname Hatt Hex Hans Hov.
  rewrite (cli_main_returns _ _ _ _ _ _ _ _ Hok
             (createProject_cancelled run_command toolRoot arg o u s name n
                Hname Hatt Hex Hans Hov)).
  reflexivity.
Qed.

Lemma declined_overwrite_is_clean_cancellation_witness :
  cli_main failing_commands ["opt"; "tool"] (Some "old-app") flags_none
    declining_user (installed_tool full_template)
  = (Abort (Exited 0), installed_tool full_template,
     [creating_banner; ConsoleLog Yellow "Project creation cancelled."]).
Proof.
  apply (declined_overwrite_is_clean_cancellation failing_commands
           ["opt"; "tool"] (Some "old-app") flags_none declining_user
           (installed_tool full_template) "old-app"
           (Dir [("notes.txt", File (Raw "keep me"))]));
    try reflexivity.
  exists sample_manifest, (Some (JStr "1.0.0")). split; reflexivity.
Defined.

(** ** The project generator: the manifest of the new project *)

Section RequiredSteps.
Variable run_command : string -> state -> node * bool.
Variable toolRoot : path.

Lemma copy_template_fresh p s tes es :
  lookup (join toolRoot "template") (files s) = Some (Dir tes) ->
  well_formed (Dir tes) = true ->
  is_prefix (join toolRoot "template") p = false ->
  lookup p (files s) = None ->
  lookup (dirname p) (files s) = Some (Dir es) ->
  exists t',
    put p (Dir tes) (files s) = Some t'
    /\ copy_template toolRoot p s
       = (Ret tt, with_files s t',
          [SpinnerStart "Copying template files...";
           SpinnerSucceed "Template files copied"]).
Proof.
  intros Htpl Hwf Hpre Hfree Hparent.
  destruct (copySync_fresh _ p s _ es Htpl Hwf Hpre Hfree Hparent)
    as (t' & Hput & Hcopy).
  exists t'. split; [exact Hput|]. unfold copy_template.
  erewrite (bind_ret_run (emit _)) by reflexivity.
  erewrite try_catch_ret; [reflexivity|].
  now rewrite (bind_ret_run _ _ _ _ _ _ Hcopy).
Qed.

Lemma rename_manifest_object name p s m :
  lookup (join p "package.json") (files s) = Some (File (Json (JObj m))) ->
  exists t',
    put (join p "package.json")
      (File (Json (JObj (aset "name" (JStr name) m)))) (files s) = Some t'
    /\ rename_manifest name p s = (Ret tt, with_files s t', []).
Proof.
  intros H.
  destruct (put_present (join p "package.json")
              (File (Json (JObj (aset "name" (JStr name) m)))) _ _ H)
    as [t' Hput].
  exists t'. split; [exact Hput|]. unfold rename_manifest.
  rewrite (bind_ret_run _ _ _ _ _ _ (existsSync_run _ s)), H.
  rewrite (bind_ret_run _ _ _ _ _ _ (readFileSync_run _ s _ H)).
  rewrite (bind_ret_run (JSON_parse (Json (JObj m))) _ s (JObj m) s [] eq_refl).
  rewrite (bind_ret_run (js (set_prop "name" (JStr name) (JObj m))) _ s
             (JObj (aset "name" (JStr name) m)) s [] eq_refl).
  rewrite (writeFileSync_run _ _ s t'); [reflexivity| |exact Hput].
  intros es. rewrite H. discriminate.
Qed.

(** With every optional step off, what is left of [finish_project] is the
    summary. *)
Lemma finish_project_disabled c p s :
  setupEnvironment c = false -> initializeGit c = false ->
  installDependencies c = false ->
  exists o, finish_project run_command c p s = (Ret tt, s, o).
Proof.
  intros He Hg Hi.
  unfold finish_project, setup_environment, initialize_git, install_dependencies.
  rewrite He, Hg, Hi.
  do 3 rewrite (bind_ret_run (ret tt) _ s tt s [] eq_refl).
  destruct (print_summary_run c s) as [o ->]. simpl. eauto.
Qed.

Lemma rename_manifest_missing name p s :
  lookup (join p "package.json") (files s) = None ->
  rename_manifest name p s = (Ret tt, s, []).
Proof.
  intros H. unfold rename_manifest.
  now rewrite (bind_ret_run _ _ _ _ _ _ (existsSync_run _ s)), H.
Qed.

(** The run up to the end of the copy: for a valid name, questions
    answered, in an existing working directory, on a target that is free or
    whose overwrite is confirmed and that lies apart from a well-formed
    template directory, [createProject] puts the template at the target and
    goes on with the manifest and the optional steps. *)
Lemma createProject_copies arg name o u s es tes :
  outcome_of (resolve_name arg u s) = Ret name ->
  validate name = Valid ->
  attentive o u = true ->
  lookup (cwd s) (files s) = Some (Dir es) ->
  lookup (join toolRoot "template") (files s) = Some (Dir tes) ->
  well_formed (Dir tes) = true ->
  alookup name es = None
  \/ (responds u "overwrite" = true /\ confirm_overwrite u = true) ->
  is_prefix (join toolRoot "template") (join (cwd s) name) = false ->
  is_prefix (join (cwd s) name) (join toolRoot "template") = false ->
  let c := make_config name o (inquirer_answers o u) in
  let p := join (cwd s) name in
  exists t1,
    put p (Dir tes) (remove p (files s)) = Some t1
    /\ forall rest : M unit,
         rest = bind (rename_manifest name p)
                  (fun _ => finish_project run_command c p) ->
         createProject run_command toolRoot arg o u s
         = (fst (rest (with_files s t1)),
            creating_banner
            :: SpinnerStart "Copying template files..."
            :: SpinnerSucceed "Template files copied"
            :: snd (rest (with_files s t1))).
Proof.
  intros Hname Hvalid Hatt Hcwd Htpl Hwf Htarget Hd1 Hd2 c p.
  assert (Hp : resolve (cwd s) name = p) by now apply resolve_valid.
  assert (Hfree : lookup (resolve (cwd s) name) (files s) = None
                  \/ (responds u "overwrite" = true /\ confirm_overwrite u = true)).
  { destruct Htarget as [Hn|Hov]; [left|now right].
    rewrite Hp. unfold p, join. rewrite lookup_app, Hcwd. simpl. now rewrite Hn. }
  pose proof (createProject_generate run_command toolRoot arg o u s
                name Hname Hatt Hfree) as Hcreate.
  cbv zeta in Hcreate. rewrite Hp in Hcreate. fold c in Hcreate.
  set (s0 := with_files s (remove p (files s))) in *.
  assert (Htpl0 : lookup (join toolRoot "template") (files s0) = Some (Dir tes)).
  { simpl. now rewrite lookup_remove_diverge. }
  assert (Hfree0 : lookup p (files s0) = None).
  { simpl. apply lookup_remove_self. unfold p, join. now destruct (cwd s). }
  assert (Hparent0 : lookup (dirname p) (files s0) = Some (Dir (adel name es))).
  { unfold p at 1. rewrite dirname_join. simpl. unfold p, join.
    now rewrite lookup_remove_parent, Hcwd. }
  destruct (copy_template_fresh p s0 tes _ Htpl0 Hwf Hd1 Hfree0 Hparent0)
    as (t1 & Hput1 & Hcopy).
  exists t1. split; [exact Hput1|]. intros rest ->.
  rewrite Hcreate. unfold generate.
  now rewrite (bind_ret_run _ _ _ _ _ _ Hcopy).
Qed.
End RequiredSteps.

(** C1 (as the code has it).  Take a valid project name, given as the
    argument or typed at the prompt, and a run of the generator that has
    started (the tool's own manifest is read), with every optional step
    off and the questions asked answered, in an existing working
    directory, with a well-formed template directory, on a target that is
    free or whose overwrite is confirmed and that neither contains nor lies
    inside the template.  If the template holds a manifest that is a JSON
    object, the run exits with code 0 and leaves at the target a manifest
    that is the template's with its [name] set to the project name.  If the
    template holds no manifest, the rename is skipped: the run exits with
    code 0 all the same and the target, a copy of the template, has no
    manifest. *)
Theorem generated_manifest_carries_name
  (run_command : string -> state -> node * bool) (toolRoot : path)
  (arg : option string) (name : string) (o : options) (u : user) (s : state)
  (es tes : list (string * node)) :
  tool_manifest_ok toolRoot s ->
  outcome_of (resolve_name arg u s) = Ret name ->
  validate name = Valid ->
  attentive o u = true ->
  opt_skipInstall o = true -> opt_skipGit o = true -> confirm_env u = false ->
  lookup (cwd s) (files s) = Some (Dir es) ->
  lookup (join toolRoot "template") (files s) = Some (Dir tes) ->
  well_formed (Dir tes) = true ->
  alookup name es = None
  \/ (responds u "overwrite" = true /\ confirm_overwrite u = true) ->
  is_prefix (join toolRoot "template") (join (cwd s) name) = false ->
  is_prefix (join (cwd s) name) (join toolRoot "template") = false ->
  let run := cli_main run_command toolRoot arg o u s in
  let pkg := join (join (cwd s) name) "package.json" in
  (forall m, alookup "package.json" tes = Some (File (Json (JObj m))) ->
     let manifest := JObj (aset "name" (JStr name) m) in
     outcome_of run = Abort (Exited 0)
     /\ lookup pkg (files (state_of run)) = Some (File (Json manifest))
     /\ get_prop "name" manifest = inr (Some (JStr name)))
  /\ (alookup "package.json" tes = None ->
      outcome_of run = Abort (Exited 0)
      /\ lookup (join (cwd s) name) (files (state_of run)) = Some (Dir tes)
      /\ lookup pkg (files (state_of run)) = None).
Proof.
  intros Hok Hname Hvalid Hatt Hsi Hsg Henv Hcwd Htpl Hwf Htarget Hd1 Hd2 run pkg.
  set (p := join (cwd s) name) in *.
  set (c := make_config name o (inquirer_answers o u)).
  destruct (createProject_copies run_command toolRoot arg name o u s es tes
              Hname Hvalid Hatt Hcwd Htpl Hwf Htarget Hd1 Hd2)
    as (t1 & Hput1 & Hcreate).
  specialize (Hcreate _ eq_refl). fold p c in Hput1, Hcreate.
  set (s1 := with_files s t1) in *.
  assert (Hfin : forall s2, exists o3,
             finish_project run_command c p s2 = (Ret tt, s2, o3)).
  { intros s2. apply finish_project_disabled; unfold c; simpl.
    - now rewrite Henv.
    - now rewrite Hsg.
    - now rewrite Hsi. }
  split.
  - intros m Hm manifest.
    assert (Hpkg1 : lookup (join p "package.json") (files s1)
                    = Some (File (Json (JObj m)))).
    { simpl. unfold join at 1. rewrite (lookup_put_under _ _ _ _ _ Hput1).
      simpl. now rewrite Hm. }
    destruct (rename_manifest_object name p _ m Hpkg1) as (t2 & Hput2 & Hren).
    destruct (Hfin (with_files s1 t2)) as [o3 Hf].
    rewrite (bind_ret_run _ _ _ _ _ _ Hren), Hf in Hcreate. simpl in Hcreate.
    pose proof (cli_main_returns _ _ _ _ _ _ _ _ Hok Hcreate) as Hrun.
    fold run in Hrun. unfold outcome_of, state_of. rewrite Hrun. simpl.
    repeat split.
    + apply (lookup_put_same _ _ _ _ Hput2).
    + unfold manifest. simpl. now rewrite alookup_aset_eq.
  - intros Hnone.
    assert (Hpkg1 : lookup (join p "package.json") (files s1) = None).
    { simpl. unfold join at 1. rewrite (lookup_put_under _ _ _ _ _ Hput1).
      simpl. now rewrite Hnone. }
    destruct (Hfin s1) as [o3 Hf].
    rewrite (bind_ret_run _ _ _ _ _ _ (rename_manifest_missing name p s1 Hpkg1)), Hf
      in Hcreate.
    simpl in Hcreate.
    pose proof (cli_main_returns _ _ _ _ _ _ _ _ Hok Hcreate) as Hrun.
    fold run in Hrun. unfold outcome_of, state_of. rewrite Hrun. simpl.
    repeat split.
    + apply (lookup_put_same _ _ _ _ Hput1).
    + exact Hpkg1.
Qed.

Lemma generated_manifest_carries_name_witness :
  let run := cli_main failing_commands ["opt"; "tool"] (Some "my-app")
               flags_skip_all declining_user (installed_tool full_template) in
  let manifest :=
    JObj (aset "name" (JStr "my-app")
            [ ("name", JStr "my-react-app"); ("version", JStr "0.1.0");
              ("private", JBool true) ]) in
  outcome_of run = Abort (Exited 0)
  /\ lookup (join (join ["home"] "my-app") "package.json") (files (state_of run))
     = Some (File (Json manifest))
  /\ get_prop "name" manifest = inr (Some (JStr "my-app")).
Proof.
  refine (proj1
            (generated_manifest_carries_name failing_commands ["opt"; "tool"]
               (Some "my-app") "my-app" flags_skip_all declining_user
               (installed_tool full_template)
               [("old-app", Dir [("notes.txt", File (Raw "keep me"))])]
               full_template _ _ _ _ _ _ _ _ _ _ _ _ _) _ _);
    try reflexivity.
  - exists sample_manifest, (Some (JStr "1.0.0")). split; reflexivity.
  - left. reflexivity.
Defined.

(** C1, as stated, fails: on a template that carries no manifest the run
    succeeds and the new project has no manifest at all. *)
Lemma project_without_manifest :
  let run := cli_main failing_commands ["opt"; "tool"] (Some "my-app")
               flags_skip_all declining_user
               (installed_tool template_without_manifest) in
  validate "my-app" = Valid
  /\ outcome_of run = Abort (Exited 0)
  /\ lookup ["home"; "my-app"; "src"; "main.tsx"] (files (state_of run))
     = Some (File (Raw "main"))
  /\ lookup ["home"; "my-app"; "package.json"] (files (state_of run)) = None.
Proof. vm_compute. auto. Qed.

(** ** The project generator: the optional steps *)

(** C7 (as the code has it).  When the environment step runs and the
    example file is absent from the target directory, the step copies
    nothing, changes nothing, and reports success, not a warning; the run
    then continues with the next steps and reaches the summary. *)
Theorem absent_env_example_reports_success
  (run_command : string -> state -> node * bool) (toolRoot : path)
  (c : config) (p : path) (s : state) :
  setupEnvironment c = true ->
  lookup (join p ".env.example") (files s) = None ->
  let reported :=
    [ SpinnerStart "Setting up environment variables...";
      SpinnerSucceed "Environment variables set up" ] in
  let next :=
    bind (initialize_git run_command c p) (fun _ =>
    bind (install_dependencies run_command c p) (fun _ => print_summary c)) in
  setup_environment c p s = (Ret tt, s, reported)
  /\ finish_project run_command c p s = (fst (next s), reported ++ snd (next s))
  /\ exists s' o o',
       finish_project run_command c p s = (Ret tt, s', o ++ success_line :: o').
Proof.
  intros Hflag Habs reported next.
  assert (Hstep : setup_environment c p s = (Ret tt, s, reported)).
  { unfold setup_environment. rewrite Hflag.
    erewrite (bind_ret_run (emit _)) by reflexivity.
    erewrite try_catch_ret; [reflexivity|].
    rewrite (bind_ret_run _ _ _ _ _ _ (existsSync_run _ s)), Habs.
    rewrite (bind_ret_run (ret tt) _ s tt s [] eq_refl). reflexivity. }
  split; [exact Hstep|split].
  - unfold finish_project. now rewrite (bind_ret_run _ _ _ _ _ _ Hstep).
  - apply finish_project_returns.
Qed.

Lemma absent_env_example_reports_success_witness :
  let c := make_config "my-app" flags_skip_all
             (inquirer_answers flags_skip_all accepting_user) in
  let s := state_of (copy_template ["opt"; "tool"] ["home"; "my-app"]
                       (installed_tool template_without_env)) in
  setup_environment c ["home"; "my-app"] s
  = (Ret tt, s,
     [ SpinnerStart "Setting up environment variables...";
       SpinnerSucceed "Environment variables set up" ]).
Proof.
  intros c s.
  exact (proj1 (absent_env_example_reports_success failing_commands
                  ["opt"; "tool"] c ["home"; "my-app"] s eq_refl eq_refl)).
Defined.

(** C7, as stated, fails: with no example file in the target the
    environment step reports success and no warning. *)
Lemma env_step_without_example_succeeds :
  let run := cli_main failing_commands ["opt"; "tool"] (Some "my-app")
               flags_skip_all accepting_user
               (installed_tool template_without_env) in
  lookup ["home"; "my-app"; ".env.example"] (files (state_of run)) = None
  /\ In (SpinnerStart "Setting up environment variables...") (output_of run)
  /\ In (SpinnerSucceed "Environment variables set up") (output_of run)
  /\ ~ In (SpinnerWarn "Could not set up environment variables") (output_of run)
  /\ outcome_of run = Abort (Exited 0).
Proof.
  vm_compute. repeat split; auto 10.
  intros H. repeat (destruct H as [H|H]; [discriminate|]). exact H.
Qed.

(** C8.  Suppose the generator has started (the tool's own manifest is
    read), the name is resolved and the questions asked are answered, the
    target is free or its overwrite confirmed, dependency installation is
    on, and the two required steps (template copy, manifest rename) have
    succeeded.  If the install command fails in the state in which the
    step runs it (the tree the environment and git steps have left, from
    the project directory), then the failure is caught: the run prints
    the failure followed by the advice and the exact command
    [cd <name> && <package manager> install], goes on to the success
    summary, and the process exits with code 0. *)
Theorem failed_install_is_not_fatal
  (run_command : string -> state -> node * bool) (toolRoot : path)
  (arg : option string) (o : options) (u : user) (s s1 : state)
  (name : string) (o1 : list event) :
  tool_manifest_ok toolRoot s ->
  outcome_of (resolve_name arg u s) = Ret name ->
  attentive o u = true ->
  lookup (resolve (cwd s) name) (files s) = None
  \/ (responds u "overwrite" = true /\ confirm_overwrite u = true) ->
  let c := make_config name o (inquirer_answers o u) in
  let p := resolve (cwd s) name in
  let s0 := with_files s (remove p (files s)) in
  installDependencies c = true ->
  bind (copy_template toolRoot p) (fun _ => rename_manifest name p) s0
  = (Ret tt, s1, o1) ->
  let s3 := state_of (initialize_git run_command c p
                        (state_of (setup_environment c p s1))) in
  (forall cmd, alookup (packageManager c) installCommands = Some cmd ->
               snd (run_command cmd {| files := files s3; cwd := p |}) = false) ->
  let run := cli_main run_command toolRoot arg o u s in
  outcome_of run = Abort (Exited 0)
  /\ exists before after,
       output_of run
       = before
         ++ [ SpinnerFail "Failed to install dependencies";
              ConsoleLog Yellow
                (nl +++ "You can install dependencies manually by running:");
              ConsoleLog Cyan
                ("cd " +++ name +++ " && " +++ packageManager c +++ " install");
              success_line ]
         ++ after.
Proof.
  intros Hok Hname Hatt Htarget c p s0 Hflag Hreq s3' Hfail run.
  pose proof (createProject_generate run_command toolRoot arg o u s name
                Hname Hatt Htarget) as Hcreate.
  cbv zeta in Hcreate. fold c p s0 in Hcreate.
  destruct (setup_environment_returns c p s1) as (s2 & o2 & H2).
  destruct (initialize_git_returns run_command c p s2) as (s3 & o3 & H3).
  assert (Hs3 : s3' = s3).
  { unfold s3', state_of. rewrite H2. cbn [fst snd]. now rewrite H3. }
  rewrite Hs3 in Hfail.
  destruct (install_dependencies_failed run_command c p s3 Hflag Hfail)
    as (s4 & H4).
  destruct (print_summary_run c s4) as (o5 & H5).
  assert (Hgen : generate run_command toolRoot c p s0
                 = (Ret tt, s4,
                    o1 ++ o2 ++ o3
                    ++ [ SpinnerStart ("Installing dependencies with "
                                       +++ packageManager c +++ "...");
                         SpinnerFail "Failed to install dependencies";
                         ConsoleLog Yellow
                           (nl +++ "You can install dependencies manually by running:");
                         ConsoleLog Cyan
                           ("cd " +++ projectName c +++ " && "
                            +++ packageManager c +++ " install") ]
                    ++ success_line :: o5)).
  { unfold generate. rewrite <- bind_assoc.
    replace (projectName c) with name by reflexivity.
    rewrite (bind_ret_run _ _ _ _ _ _ Hreq). unfold finish_project.
    rewrite (bind_ret_run _ _ _ _ _ _ H2), (bind_ret_run _ _ _ _ _ _ H3).
    rewrite (bind_ret_run _ _ _ _ _ _ H4), H5. reflexivity. }
  rewrite Hgen in Hcreate. simpl fst in Hcreate. simpl snd in Hcreate.
  pose proof (cli_main_returns _ _ _ _ _ _ _ _ Hok Hcreate) as Hrun.
  fold run in Hrun. unfold outcome_of, output_of. rewrite Hrun. simpl.
  split; [reflexivity|].
  exists (creating_banner :: o1 ++ o2 ++ o3
          ++ [SpinnerStart ("Installing dependencies with "
                            +++ packageManager c +++ "...")]), o5.
  rewrite app_nil_r. simpl. rewrite <- !app_assoc. reflexivity.
Qed.

Lemma failed_install_is_not_fatal_witness :
  let run := cli_main failing_commands ["opt"; "tool"] (Some "my-app")
               flags_none accepting_user (installed_tool full_template) in
  outcome_of run = Abort (Exited 0)
  /\ exists before after,
       output_of run
       = before
         ++ [ SpinnerFail "Failed to install dependencies";
              ConsoleLog Yellow
                (nl +++ "You can install dependencies manually by running:");
              ConsoleLog Cyan ("cd " +++ "my-app" +++ " && " +++ "npm" +++ " install");
              success_line ]
         ++ after.
Proof.
  set (s := installed_tool full_template).
  set (s0 := with_files s (remove (resolve (cwd s) "my-app") (files s))).
  set (required :=
         bind (copy_template ["opt"; "tool"] (resolve (cwd s) "my-app"))
           (fun _ => rename_manifest "my-app" (resolve (cwd s) "my-app")) s0).
  apply (failed_install_is_not_fatal failing_commands ["opt"; "tool"]
           (Some "my-app") flags_none accepting_user s
           (state_of required) "my-app" (output_of required)).
  - exists sample_manifest, (Some (JStr "1.0.0")). split; reflexivity.
  - reflexivity.
  - reflexivity.
  - left. reflexivity.
  - reflexivity.
  - reflexivity.
  - intros cmd _. reflexivity.
Defined.

(** ** The project generator: a name given on the command line *)

(** C10 (as the code has it).  Every non-empty string given as the
    positional argument is used as the project name without being checked:
    no prompt for the name is shown, the configuration carries the
    argument, and the target is the argument resolved against the working
    directory, which for an argument without a slash other than [.] and
    [..] is the entry of exactly that name.  This holds whatever
    [validate] would say of it.  What the run then does depends on the
    user only through the later questions: when those asked are answered
    and the target is free or its overwrite confirmed, the project is
    generated at that target; when one is left unanswered, the run waits
    there. *)
Theorem nonempty_argument_is_used_unvalidated
  (run_command : string -> state -> node * bool) (toolRoot : path)
  (arg : string) (o : options) (u : user) (s : state) :
  arg <> EmptyString ->
  let c := make_config arg o (inquirer_answers o u) in
  let p := resolve (cwd s) arg in
  let s0 := with_files s (remove p (files s)) in
  resolve_name (Some arg) u s = (Ret arg, s, [])
  /\ projectName c = arg
  /\ (attentive o u = true ->
      lookup p (files s) = None
      \/ (responds u "overwrite" = true /\ confirm_overwrite u = true) ->
      createProject run_command toolRoot (Some arg) o u s
      = (fst (generate run_command toolRoot c p s0),
         creating_banner :: snd (generate run_command toolRoot c p s0)))
  /\ (attentive o u = false ->
      createProject run_command toolRoot (Some arg) o u s = (Abort Blocking, s, []))
  /\ (attentive o u = true -> lookup p (files s) <> None ->
      responds u "overwrite" = false ->
      createProject run_command toolRoot (Some arg) o u s
      = (Abort Blocking, s, [creating_banner]))
  /\ (includes slash arg = false -> arg <> "." -> arg <> ".." ->
      p = cwd s ++ [arg]).
Proof.
  intros Hne c p s0.
  assert (Hname : resolve_name (Some arg) u s = (Ret arg, s, [])).
  { unfold resolve_name. destruct arg; [congruence|reflexivity]. }
  assert (Hout : outcome_of (resolve_name (Some arg) u s) = Ret arg)
    by now rewrite Hname.
  repeat split.
  - exact Hname.
  - intros Hatt Htarget.
    now apply (createProject_generate run_command toolRoot (Some arg) o u s arg).
  - intros Hatt. now apply (createProject_waits_for_options _ _ _ _ _ _ arg).
  - intros Hatt Hex Hans. fold p in Hex.
    destruct (lookup p (files s)) as [n|] eqn:El; [|congruence].
    now apply (createProject_waits_for_overwrite _ _ _ _ _ _ arg n).
  - intros Hs Hd Hdd. now apply resolve_single.
Qed.

Lemma nonempty_argument_is_used_unvalidated_witness :
  let s := installed_tool full_template in
  let run := cli_main failing_commands ["opt"; "tool"] (Some "my app")
               flags_skip_all declining_user s in
  validate "my app"
  = Invalid "Project name can only contain letters, numbers, hyphens, and underscores"
  /\ resolve_name (Some "my app") declining_user s = (Ret "my app", s, [])
  /\ resolve (cwd s) "my app" = ["home"; "my app"]
  /\ outcome_of run = Abort (Exited 0)
  /\ lookup ["home"; "my app"; "package.json"] (files (state_of run))
     = Some (File (Json (JObj [ ("name", JStr "my app"); ("version", JStr "0.1.0");
                                ("private", JBool true) ]))).
Proof.
  intros s run.
  assert (Hne : "my app" <> EmptyString) by discriminate.
  pose proof (nonempty_argument_is_used_unvalidated failing_commands
                ["opt"; "tool"] "my app" flags_skip_all declining_user s Hne)
    as (Hname & _ & _ & _ & _ & Hp).
  split; [reflexivity|]. split; [exact Hname|].
  split; [apply Hp; [reflexivity|discriminate|discriminate]|].
  split; reflexivity.
Defined.

(** C10, as stated for every string, fails at the empty string: it is not
    used; the prompt is shown and its answer goes through [validate], which
    here turns down [my app] before [my-app] is accepted. *)
Lemma empty_argument_is_prompted :
  let s := installed_tool full_template in
  let run := cli_main failing_commands ["opt"; "tool"] (Some EmptyString)
               flags_skip_all typing_user s in
  resolve_name (Some EmptyString) typing_user s = (Ret "my-app", s, [])
  /\ lookup ["home"; "my-app"; "package.json"] (files (state_of run))
     = Some (File (Json (JObj [ ("name", JStr "my-app"); ("version", JStr "0.1.0");
                                ("private", JBool true) ])))
  /\ lookup ["home"; "my app"] (files (state_of run)) = None.
Proof. vm_compute. auto. Qed.

(** ** The test harness *)

(** Whatever makes the body of [testCLI] throw, the handler inside
    [testCLI] prints the failure and exits with code 1 in the state the
    failure left: [cleanup] is not run, and the handler of the script's last
    statement, which would run it, is never reached. *)
Lemma failed_test_leaves_state
  (regexp_test : string -> string -> bool) (gitignoreContent readmeContent : string)
  (run_command : string -> state -> node * bool) (rootDir : path) (fuel : nat)
  (tester : user) (TEST_INSTALL : bool) (s s1 : state) (e : error)
  (o1 : list event) :
  testCLI_body regexp_test gitignoreContent readmeContent run_command rootDir
    fuel tester TEST_INSTALL s = (Abort (Thrown e), s1, o1) ->
  test_main regexp_test gitignoreContent readmeContent run_command rootDir
    fuel tester TEST_INSTALL s
  = (Abort (Exited 1), s1,
     ConsoleLog Plain ("🧪 Testing CLI..." +++ nl)
     :: o1 ++ [ConsoleError Plain (nl +++ "❌ CLI test failed:") e]).
Proof.
  intros H. unfold test_main, testCLI.
  assert (Ht : bind (console_log Plain ("🧪 Testing CLI..." +++ nl))
                 (fun _ =>
                    try_catch
                      (testCLI_body regexp_test gitignoreContent readmeContent
                         run_command rootDir fuel tester TEST_INSTALL)
                      (fun error =>
                         bind (emit (ConsoleError Plain
                                       (nl +++ "❌ CLI test failed:") error))
                           (fun _ => exit 1))) s
               = (Abort (Exited 1), s1,
                  ConsoleLog Plain ("🧪 Testing CLI..." +++ nl)
                  :: o1 ++ [ConsoleError Plain (nl +++ "❌ CLI test failed:") e])).
  { erewrite (bind_ret_run (console_log _ _)) by reflexivity.
    rewrite (try_catch_thrown _ _ _ _ _ _ H). reflexivity. }
  apply bind_abort_run. apply try_catch_exited. exact Ht.
Qed.

(** C9 at a failing input.  The repository has no [index.html], so the
    generated project lacks an essential file: the harness prints the
    failure and exits with code 1, but the test project directory is still
    there and no clean-up line is printed. *)
Theorem failed_assertion_leaves_test_directory :
  let run := test_main no_regexp "ignore" "readme" failing_commands ["repo"] 5
               accepting_user false sample_repo in
  outcome_of run = Abort (Exited 1)
  /\ In (ConsoleError Plain (nl +++ "❌ CLI test failed:")
           (JsError "Essential file missing: index.html")) (output_of run)
  /\ lookup ["repo"; "test-cli-project"; "package.json"] (files (state_of run))
     = Some (File (Json (JObj [ ("name", JStr "test-cli-project");
                                ("version", JStr "0.1.0");
                                ("scripts", JObj [("dev", JStr "vite")]);
                                ("devDependencies", JObj [("vite", JStr "^5.0.0")]);
                                ("private", JBool true) ])))
  /\ ~ In (ConsoleLog Plain (nl +++ "🧹 Cleaning up test project...")) (output_of run).
Proof.
  vm_compute. repeat split.
  - repeat (first [left; reflexivity|right]).
  - intros H. repeat (destruct H as [H|H]; [discriminate|]). exact H.
Qed.

(** * Further properties *)

(** ** The manifest rewrite *)

Lemma alookup_without {V} ks k (o : list (string * V)) :
  alookup k (fold_left (fun acc k0 => adel k0 acc) ks o)
  = if named ks k then None else alookup k o.
Proof.
  unfold named. revert o. induction ks as [|k0 ks IH]; intros o; simpl; auto.
  rewrite IH. destruct (String.eqb_spec k k0) as [->|Hne]; simpl.
  - rewrite alookup_adel_eq. now destruct (existsb _ ks).
  - now rewrite alookup_adel_ne by congruence.
Qed.

Lemma delete_all_exact ks d :
  d <> JNull -> delete_all ks d = inr (without_keys ks d).
Proof.
  unfold delete_all. revert d. induction ks as [|k ks IH]; intros d Hd.
  - destruct d; reflexivity.
  - simpl. destruct d; try congruence; simpl; rewrite IH by discriminate;
      reflexivity.
Qed.

Lemma delete_in_exact k ks m :
  delete_in k ks (JObj m)
  = inr (JObj match alookup k m with
              | Some d => if truthy d then aset k (without_keys ks d) m else m
              | None => m
              end).
Proof.
  unfold delete_in. simpl. destruct (alookup k m) as [d|]; simpl; auto.
  destruct (truthy d) eqn:Ht; auto.
  rewrite delete_all_exact by (intros ->; discriminate). reflexivity.
Qed.

Lemma alookup_delete_in k ks m key :
  alookup key match alookup k m with
              | Some d => if truthy d then aset k (without_keys ks d) m else m
              | None => m
              end
  = if String.eqb key k then
      match alookup k m with
      | Some d => Some (if truthy d then without_keys ks d else d)
      | None => None
      end
    else alookup key m.
Proof.
  destruct (String.eqb_spec key k) as [->|Hne].
  - destruct (alookup k m) as [d|] eqn:E; auto.
    destruct (truthy d); [apply alookup_aset_eq|exact E].
  - destruct (alookup k m) as [d|] eqn:E; auto.
    destruct (truthy d); auto. now rewrite alookup_aset_ne by congruence.
Qed.

(** The five changes made before the nested deletions. *)
Lemma alookup_placeholders m key :
  alookup key
    (aset "private" (JBool true)
       (aset "version" (JStr "0.1.0")
          (aset "name" (JStr "my-react-app") (adel "files" (adel "bin" m)))))
  = if String.eqb key "private" then Some (JBool true)
    else if String.eqb key "version" then Some (JStr "0.1.0")
    else if String.eqb key "name" then Some (JStr "my-react-app")
    else if String.eqb key "files" then None
    else if String.eqb key "bin" then None
    else alookup key m.
Proof.
  destruct (String.eqb_spec key "private") as [->|H1]; [apply alookup_aset_eq|].
  rewrite alookup_aset_ne by congruence.
  destruct (String.eqb_spec key "version") as [->|H2]; [apply alookup_aset_eq|].
  rewrite alookup_aset_ne by congruence.
  destruct (String.eqb_spec key "name") as [->|H3]; [apply alookup_aset_eq|].
  rewrite alookup_aset_ne by congruence.
  destruct (String.eqb_spec key "files") as [->|H4]; [apply alookup_adel_eq|].
  rewrite alookup_adel_ne by congruence.
  destruct (String.eqb_spec key "bin") as [->|H5]; [apply alookup_adel_eq|].
  now rewrite alookup_adel_ne by congruence.
Qed.

(** What the rewrite leaves under every key of an object manifest. *)
Lemma rewrite_manifest_fields m :
  exists m',
    rewrite_manifest (JObj m) = inr (JObj m')
    /\ forall key,
         alookup key m'
         = if String.eqb key "scripts" then
             match alookup "scripts" m with
             | Some d =>
                 Some (if truthy d then
                         without_keys ["prepublishOnly"; "build-template"; "test-cli"] d
                       else d)
             | None => None
             end
           else if String.eqb key "devDependencies" then
             match alookup "devDependencies" m with
             | Some d =>
                 Some (if truthy d then
                         without_keys
                           ["chalk"; "commander"; "fs-extra"; "inquirer"; "ora"] d
                       else d)
             | None => None
             end
           else if String.eqb key "private" then Some (JBool true)
           else if String.eqb key "version" then Some (JStr "0.1.0")
           else if String.eqb key "name" then Some (JStr "my-react-app")
           else if String.eqb key "files" then None
           else if String.eqb key "bin" then None
           else alookup key m.
Proof.
  unfold rewrite_manifest. cbn [delete_prop set_prop and_then].
  rewrite delete_in_exact. cbn [and_then]. rewrite delete_in_exact.
  eexists. split; [reflexivity|]. intros key.
  rewrite alookup_delete_in.
  destruct (String.eqb_spec key "scripts") as [->|Hs].
  - rewrite alookup_delete_in.
    rewrite !alookup_placeholders. reflexivity.
  - rewrite alookup_delete_in.
    destruct (String.eqb_spec key "devDependencies") as [->|Hd].
    + rewrite !alookup_placeholders. reflexivity.
    + apply alookup_placeholders.
Qed.

(** X1.  On every object manifest the rewrite succeeds and leaves the
    placeholder name [my-react-app], the placeholder version [0.1.0] and
    [private: true], whatever the manifest held under those keys. *)
Theorem rewrite_sets_placeholders (m : list (string * json)) :
  exists m',
    rewrite_manifest (JObj m) = inr (JObj m')
    /\ alookup "name" m' = Some (JStr "my-react-app")
    /\ alookup "version" m' = Some (JStr "0.1.0")
    /\ alookup "private" m' = Some (JBool true).
Proof.
  destruct (rewrite_manifest_fields m) as (m' & Hr & Hf).
  exists m'. rewrite !Hf. repeat split; auto.
Qed.

(** X2.  Every top-level field other than the seven the rewrite names
    ([bin], [files], [name], [version], [private], [devDependencies],
    [scripts]) passes through with its value unchanged. *)
Theorem rewrite_passes_other_fields (m : list (string * json)) (key : string) :
  named ["bin"; "files"; "name"; "version"; "private"; "devDependencies";
         "scripts"] key = false ->
  exists m',
    rewrite_manifest (JObj m) = inr (JObj m')
    /\ alookup key m' = alookup key m.
Proof.
  intros Hk. destruct (rewrite_manifest_fields m) as (m' & Hr & Hf).
  exists m'. split; [exact Hr|]. rewrite Hf.
  unfold named in Hk. cbn [existsb] in Hk.
  repeat (apply orb_false_iff in Hk as [? Hk]).
  repeat match goal with H : String.eqb key _ = false |- _ => rewrite H; clear H end.
  reflexivity.
Qed.

Lemma rewrite_passes_other_fields_witness :
  exists m',
    rewrite_manifest (JObj tool_manifest_fields) = inr (JObj m')
    /\ alookup "dependencies" m' = alookup "dependencies" tool_manifest_fields.
Proof.
  apply (rewrite_passes_other_fields tool_manifest_fields "dependencies").
  reflexivity.
Defined.

(** X3.  When [devDependencies] is an object, the rewrite removes from it
    the five libraries only the tool uses ([chalk], [commander], [fs-extra],
    [inquirer], [ora]) and keeps every other entry; when [scripts] is an
    object, it removes [prepublishOnly], [build-template] and [test-cli] and
    keeps every other script. *)
Theorem rewrite_strips_tool_entries (m : list (string * json)) (k : string)
  (ks : list string) (d : list (string * json)) :
  (k = "devDependencies"
   /\ ks = ["chalk"; "commander"; "fs-extra"; "inquirer"; "ora"])
  \/ (k = "scripts" /\ ks = ["prepublishOnly"; "build-template"; "test-cli"]) ->
  alookup k m = Some (JObj d) ->
  exists m' d',
    rewrite_manifest (JObj m) = inr (JObj m')
    /\ alookup k m' = Some (JObj d')
    /\ forall entry,
         alookup entry d' = if named ks entry then None else alookup entry d.
Proof.
  intros Hk Hd. destruct (rewrite_manifest_fields m) as (m' & Hr & Hf).
  exists m'. eexists. split; [exact Hr|].
  destruct Hk as [[-> ->]|[-> ->]]; rewrite Hf, Hd; cbn [truthy without_keys];
    (split; [reflexivity|intros entry; apply alookup_without]).
Qed.

Lemma rewrite_strips_tool_entries_witness :
  exists m' d',
    rewrite_manifest (JObj tool_manifest_fields) = inr (JObj m')
    /\ alookup "devDependencies" m' = Some (JObj d')
    /\ forall entry,
         alookup entry d'
         = if named ["chalk"; "commander"; "fs-extra"; "inquirer"; "ora"] entry
           then None
           else alookup entry
                  [ ("chalk", JStr "^5.3.0"); ("vite", JStr "^5.0.0");
                    ("commander", JStr "^11.1.0"); ("fs-extra", JStr "^11.2.0");
                    ("inquirer", JStr "^9.2.12"); ("ora", JStr "^7.0.1") ].
Proof.
  apply (rewrite_strips_tool_entries tool_manifest_fields "devDependencies").
  - left. split; reflexivity.
  - reflexivity.
Defined.

Lemma fold_adel_absent {V} ks (o : list (string * V)) :
  (forall k, named ks k = true -> alookup k o = None) ->
  fold_left (fun acc k => adel k acc) ks o = o.
Proof.
  unfold named. revert o. induction ks as [|k0 ks IH]; intros o H; simpl; auto.
  rewrite adel_absent.
  - apply IH. intros k Hk. apply H. simpl. rewrite Hk. apply orb_true_r.
  - apply H. simpl. now rewrite String.eqb_refl.
Qed.

Lemma without_keys_twice ks d : without_keys ks (without_keys ks d) = without_keys ks d.
Proof.
  destruct d; try reflexivity. simpl. f_equal. apply fold_adel_absent.
  intros k Hk. now rewrite alookup_without, Hk.
Qed.

Lemma truthy_without_keys ks d : truthy (without_keys ks d) = truthy d.
Proof. now destruct d. Qed.

(** X4.  The rewrite is idempotent: applied to a manifest it has already
    rewritten, it returns that manifest unchanged, key order included. *)
Theorem rewrite_manifest_idempotent (j j' : json) :
  rewrite_manifest j = inr j' -> rewrite_manifest j' = inr j'.
Proof.
  destruct j as [| | | |l|m]; try discriminate.
  - intros [= <-]. reflexivity.
  - intros H. destruct (rewrite_manifest_fields m) as (m' & Hr & Hf).
    rewrite Hr in H. injection H as <-.
    unfold rewrite_manifest. cbn [delete_prop set_prop and_then].
    assert (Hget : forall key v, alookup key m' = Some v -> aset key v m' = m')
      by (intros; now apply aset_same).
    rewrite (adel_absent "bin") by (rewrite Hf; reflexivity).
    rewrite (adel_absent "files") by (rewrite Hf; reflexivity).
    rewrite (Hget "name") by (rewrite Hf; reflexivity).
    rewrite (Hget "version") by (rewrite Hf; reflexivity).
    rewrite (Hget "private") by (rewrite Hf; reflexivity).
    rewrite delete_in_exact. cbn [and_then].
    assert (Hdev : match alookup "devDependencies" m' with
                   | Some d =>
                       if truthy d then
                         aset "devDependencies"
                           (without_keys
                              ["chalk"; "commander"; "fs-extra"; "inquirer"; "ora"] d)
                           m'
                       else m'
                   | None => m'
                   end = m').
    { pose proof (Hf "devDependencies") as Hd.
      replace (String.eqb "devDependencies" "scripts") with false in Hd
        by reflexivity.
      rewrite String.eqb_refl in Hd.
      destruct (alookup "devDependencies" m') as [x|] eqn:Ex; [|reflexivity].
      destruct (truthy x) eqn:Tx; [|reflexivity].
      apply Hget. rewrite Ex. f_equal.
      destruct (alookup "devDependencies" m) as [d|]; [|discriminate].
      injection Hd as ->. destruct (truthy d) eqn:Td.
      - symmetry. apply without_keys_twice.
      - congruence. }
    rewrite Hdev, delete_in_exact.
    assert (Hscr : match alookup "scripts" m' with
                   | Some d =>
                       if truthy d then
                         aset "scripts"
                           (without_keys
                              ["prepublishOnly"; "build-template"; "test-cli"] d)
                           m'
                       else m'
                   | None => m'
                   end = m').
    { pose proof (Hf "scripts") as Hd. rewrite String.eqb_refl in Hd.
      destruct (alookup "scripts" m') as [x|] eqn:Ex; [|reflexivity].
      destruct (truthy x) eqn:Tx; [|reflexivity].
      apply Hget. rewrite Ex. f_equal.
      destruct (alookup "scripts" m) as [d|]; [|discriminate].
      injection Hd as ->. destruct (truthy d) eqn:Td.
      - symmetry. apply without_keys_twice.
      - congruence. }
    now rewrite Hscr.
Qed.

Lemma rewrite_manifest_idempotent_witness :
  exists j',
    rewrite_manifest (JObj tool_manifest_fields) = inr j'
    /\ rewrite_manifest j' = inr j'.
Proof.
  eexists. split; [reflexivity|].
  apply (rewrite_manifest_idempotent (JObj tool_manifest_fields)). reflexivity.
Defined.

(** X5.  The rewrite throws a [TypeError] exactly on a manifest that parses
    to [null], a boolean, a number or a string; an array goes through
    unchanged, and an object never fails. *)
Theorem rewrite_fails_on_primitives_only (j : json) :
  match j with
  | JObj _ => exists m', rewrite_manifest j = inr (JObj m')
  | JArr _ => rewrite_manifest j = inr j
  | _ => rewrite_manifest j = inl TypeError
  end.
Proof.
  destruct j; try reflexivity.
  destruct (rewrite_manifest_fields m) as (m' & Hr & _). eauto.
Qed.

(** ** How the programs can stop *)

Lemma aborts_within_bind {A B} ok (m : M A) (k : A -> M B) :
  aborts_within ok m -> (forall a, aborts_within ok (k a)) ->
  aborts_within ok (bind m k).
Proof.
  intros Hm Hk s. specialize (Hm s). unfold bind, outcome_of in *.
  destruct (m s) as [[[a|x] s1] o1]; simpl in *; auto.
  specialize (Hk a s1). unfold outcome_of in Hk.
  now destruct (k a s1) as [[r s2] o2].
Qed.

Lemma aborts_within_weaken {A} (ok ok' : abort -> Prop) (m : M A) :
  (forall x, ok x -> ok' x) -> aborts_within ok m -> aborts_within ok' m.
Proof.
  intros H Hm s. specialize (Hm s). destruct (outcome_of (m s)); auto.
Qed.

Lemma aborts_within_for_each {A} ok (l : list A) (body : A -> M unit) :
  (forall x, aborts_within ok (body x)) -> aborts_within ok (for_each l body).
Proof.
  intros H. induction l as [|x l IH]; simpl; [intros s; exact I|].
  apply aborts_within_bind; auto.
Qed.

Lemma may_throw_thrown {A} (m : M A) : may_throw m -> aborts_within thrown m.
Proof. intros H. exact H. Qed.

Lemma may_throw_readdirSync p : may_throw (readdirSync p).
Proof.
  intros s. unfold readdirSync, bind, get_files, outcome_of. simpl.
  destruct (lookup p (files s)) as [[c|es]|]; simpl; eauto.
Qed.

Lemma may_throw_statSync p : may_throw (statSync_isDirectory p).
Proof.
  intros s. unfold statSync_isDirectory, bind, get_files, outcome_of. simpl.
  destruct (lookup p (files s)) as [[c|es]|]; simpl; eauto.
Qed.

Lemma may_throw_readFileSync p : may_throw (readFileSync p).
Proof.
  intros s. unfold readFileSync, bind, get_files, outcome_of. simpl.
  destruct (lookup p (files s)) as [[c|es]|]; simpl; eauto.
Qed.

Lemma may_throw_writeFileSync p c : may_throw (writeFileSync p c).
Proof.
  intros s. unfold writeFileSync, bind, get_files, outcome_of. simpl.
  destruct (lookup p (files s)) as [[c0|es]|]; simpl; eauto;
    destruct (put p (File c) (files s)); simpl; eauto.
Qed.

Lemma may_throw_copyFileSync src dest : may_throw (copyFileSync src dest).
Proof.
  unfold copyFileSync. apply may_throw_bind;
    [apply may_throw_readFileSync|intros c; apply may_throw_writeFileSync].
Qed.

Lemma may_throw_removeSync p : may_throw (removeSync p).
Proof. intros s. exact I. Qed.

Lemma may_throw_js {A} (r : error + A) : may_throw (js r).
Proof. intros s. destruct r; simpl; eauto. Qed.

Lemma may_throw_JSON_parse c : may_throw (JSON_parse c).
Proof. intros s. destruct c; simpl; eauto. Qed.

Lemma may_throw_console_log st msg : may_throw (console_log st msg).
Proof. intros s. exact I. Qed.

Lemma copyDirectory_aborts regexp_test rootDir fuel src dest :
  aborts_within thrown_or_no_fuel (copyDirectory regexp_test rootDir fuel src dest).
Proof.
  assert (W : forall A (m : M A), may_throw m -> aborts_within thrown_or_no_fuel m).
  { intros A m H. apply (aborts_within_weaken thrown); [now left|exact H]. }
  revert src dest. induction fuel as [|fuel IH]; intros src dest; simpl.
  - intros s. simpl. now right.
  - apply aborts_within_bind; [apply W, may_throw_existsSync|intros present].
    apply aborts_within_bind;
      [destruct present; apply W;
         [apply may_throw_ret|apply may_throw_mkdirSync]|intros _u].
    apply aborts_within_bind; [apply W, may_throw_readdirSync|intros items].
    apply aborts_within_for_each. intros item.
    destruct (shouldExclude _ _ _); [apply W, may_throw_console_log|].
    apply aborts_within_bind; [apply W, may_throw_statSync|intros isDirectory].
    destruct isDirectory; [apply IH|].
    apply W, may_throw_bind;
      [apply may_throw_copyFileSync|intros; apply may_throw_console_log].
Qed.

Lemma processTemplateFiles_may_throw gitignoreContent readmeContent rootDir :
  may_throw (processTemplateFiles gitignoreContent readmeContent rootDir).
Proof.
  unfold processTemplateFiles, processPackageJson.
  apply may_throw_bind.
  - apply may_throw_bind; [apply may_throw_existsSync|intros [|]];
      [|apply may_throw_ret].
    apply may_throw_bind; [apply may_throw_readFileSync|intros text].
    apply may_throw_bind; [apply may_throw_JSON_parse|intros j].
    apply may_throw_bind; [apply may_throw_js|intros j'].
    apply may_throw_bind; [apply may_throw_writeFileSync|intros ?].
    apply may_throw_console_log.
  - intros ?. apply may_throw_bind; [apply may_throw_writeFileSync|intros ?].
    apply may_throw_bind; [apply may_throw_console_log|intros ?].
    apply may_throw_bind; [apply may_throw_writeFileSync|intros ?].
    apply may_throw_console_log.
Qed.

Lemma buildTemplate_aborts regexp_test gitignoreContent readmeContent rootDir fuel :
  aborts_within thrown_or_no_fuel
    (buildTemplate regexp_test gitignoreContent readmeContent rootDir fuel).
Proof.
  assert (W : forall A (m : M A), may_throw m -> aborts_within thrown_or_no_fuel m).
  { intros A m H. apply (aborts_within_weaken thrown); [now left|exact H]. }
  unfold buildTemplate, clear_template, copy_files, process_files.
  apply aborts_within_bind; [apply W, may_throw_console_log|intros ?].
  apply aborts_within_bind.
  { apply W, may_throw_bind; [apply may_throw_existsSync|intros [|]];
      [|apply may_throw_ret].
    apply may_throw_bind; [apply may_throw_removeSync|intros ?].
    apply may_throw_console_log. }
  intros ?. apply aborts_within_bind.
  { apply aborts_within_bind; [apply W, may_throw_console_log|intros ?].
    apply copyDirectory_aborts. }
  intros ?. apply W.
  apply may_throw_bind; [apply may_throw_console_log|intros ?].
  apply may_throw_bind; [apply processTemplateFiles_may_throw|intros ?].
  apply may_throw_bind; [apply may_throw_console_log|intros ?].
  apply may_throw_bind; [intros s; exact I|intros ?].
  apply may_throw_console_log.
Qed.

(** X6.  On a source root that is a directory, and with fuel beyond the
    height of the tree, the builder process ends with exit code 0 or 1: it
    exits 0 exactly when [buildTemplate] returns, and 1 exactly when it
    throws. *)
Theorem build_exits_with_0_or_1
  (regexp_test : string -> string -> bool) (gitignoreContent readmeContent : string)
  (rootDir : path) (fuel : nat) (s : state) (es : list (string * node)) :
  lookup rootDir (files s) = Some (Dir es) ->
  height (files s) < fuel ->
  let build := buildTemplate regexp_test gitignoreContent readmeContent rootDir fuel in
  let run := build_main regexp_test gitignoreContent readmeContent rootDir fuel s in
  (outcome_of (build s) = Ret tt /\ outcome_of run = Abort (Exited 0))
  \/ (exists e, outcome_of (build s) = Abort (Thrown e)
                /\ outcome_of run = Abort (Exited 1)).
Proof.
  intros Hroot Hfuel build run.
  destruct (buildTemplate_enough_fuel regexp_test gitignoreContent readmeContent
              rootDir fuel s es Hroot Hfuel) as [_ Hn].
  pose proof (buildTemplate_aborts regexp_test gitignoreContent readmeContent
                rootDir fuel s) as Ha.
  fold build in Hn, Ha. unfold run, build_main. fold build. unfold outcome_of in *.
  destruct (build s) as [[[[]|x] s1] o1] eqn:Eb; simpl in *.
  - left. split; [reflexivity|].
    now rewrite (bind_fst _ _ _ _ _ _ (try_catch_ret _ _ _ _ _ _ Eb)).
  - destruct Ha as [[e ->]| ->]; [|congruence]. right. exists e.
    split; [reflexivity|].
    erewrite bind_abort_run; [reflexivity|].
    rewrite (try_catch_thrown _ _ _ _ _ _ Eb). reflexivity.
Qed.

Lemma build_exits_with_0_or_1_witness :
  let build := buildTemplate no_regexp "ignore" "readme" ["repo"] 5 in
  let run := build_main no_regexp "ignore" "readme" ["repo"] 5 broken_repo in
  (outcome_of (build broken_repo) = Ret tt /\ outcome_of run = Abort (Exited 0))
  \/ (exists e, outcome_of (build broken_repo) = Abort (Thrown e)
                /\ outcome_of run = Abort (Exited 1)).
Proof.
  apply (build_exits_with_0_or_1 no_regexp "ignore" "readme" ["repo"] 5
           broken_repo
           (sample_entries [("package.json", File (Raw "{ name: "))])).
  - reflexivity.
  - vm_compute. lia.
Defined.

(** X7.  Under the same conditions the builder changes nothing outside the
    template directory: with the template removed, the tree after the build
    is the tree before it, and the working directory stays. *)
Theorem build_leaves_source_untouched
  (regexp_test : string -> string -> bool) (gitignoreContent readmeContent : string)
  (rootDir : path) (fuel : nat) (s : state) (es : list (string * node)) :
  lookup rootDir (files s) = Some (Dir es) ->
  height (files s) < fuel ->
  let s' := state_of (build_main regexp_test gitignoreContent readmeContent
                        rootDir fuel s) in
  remove (templateDir rootDir) (files s') = remove (templateDir rootDir) (files s)
  /\ cwd s' = cwd s.
Proof.
  intros Hroot Hfuel s'.
  destruct (buildTemplate_enough_fuel regexp_test gitignoreContent readmeContent
              rootDir fuel s es Hroot Hfuel) as [Hf _].
  assert (Hs : s' = state_of (buildTemplate regexp_test gitignoreContent
                                readmeContent rootDir fuel s)).
  { unfold s', build_main, bind, try_catch, state_of.
    destruct (buildTemplate regexp_test gitignoreContent readmeContent rootDir
                fuel s) as [[[[]|[e| | |]] s1] o1]; reflexivity. }
  rewrite Hs. exact Hf.
Qed.

Lemma build_leaves_source_untouched_witness :
  let s' := state_of (build_main no_regexp "ignore" "readme" ["repo"] 5 sample_repo) in
  remove (templateDir ["repo"]) (files s') = remove (templateDir ["repo"]) (files sample_repo)
  /\ cwd s' = cwd sample_repo.
Proof.
  apply (build_leaves_source_untouched no_regexp "ignore" "readme" ["repo"] 5
           sample_repo
           (sample_entries [("package.json", File (Json sample_manifest))])).
  - reflexivity.
  - vm_compute. lia.
Defined.

(** X8.  For an entry below the source root, [shouldExclude] answers true
    exactly when one of the fixed rules matches it in one of the three
    ways; the wildcard branch is never taken, so the answer does not depend
    on [RegExp]. *)
Theorem shouldExclude_is_three_way_match
  (regexp_test : string -> string -> bool) (rootDir p : path) :
  p <> [] ->
  (shouldExclude regexp_test (rootDir ++ p) rootDir = true
   <-> exists R, In R excludePatterns /\ matches_rule R p).
Proof.
  intros Hp. rewrite shouldExclude_below by exact Hp. split.
  - apply rule_of_excluded.
  - intros (R & HR & Hm). now apply (excluded_of_rule regexp_test R p).
Qed.

Lemma shouldExclude_is_three_way_match_witness :
  shouldExclude no_regexp (["repo"] ++ ["src"; "node_modules"]) ["repo"] = true
  <-> exists R, In R excludePatterns /\ matches_rule R ["src"; "node_modules"].
Proof.
  apply (shouldExclude_is_three_way_match no_regexp ["repo"] ["src"; "node_modules"]).
  discriminate.
Defined.

(** ** The project generator: names from the prompt *)

Lemma prompt_input_valid default check typed s name :
  outcome_of (prompt_input default check typed s) = Ret name ->
  check name = Valid.
Proof.
  induction typed as [|line rest IH]; simpl; [discriminate|].
  destruct (check (if truthy_str line then line else default)) eqn:E.
  - intros [= <-]. exact E.
  - exact IH.
Qed.

Lemma prompt_input_outcome default check typed s :
  (exists name, prompt_input default check typed s = (Ret name, s, []))
  \/ prompt_input default check typed s = (Abort Blocking, s, []).
Proof.
  induction typed as [|line rest IH]; simpl; [right; reflexivity|].
  destruct (check _); [left; eexists; reflexivity|exact IH].
Qed.

(** X9.  When no name, or the empty string, is given on the command line,
    whatever name [createProject] goes on with has been accepted by
    [validate]; such a name resolves to the entry of that name directly in
    the working directory, so a prompted name can never point outside it. *)
Theorem prompted_name_is_valid_and_local
  (arg : option string) (u : user) (s : state) (name : string) :
  arg = None \/ arg = Some EmptyString ->
  outcome_of (resolve_name arg u s) = Ret name ->
  validate name = Valid /\ resolve (cwd s) name = cwd s ++ [name].
Proof.
  intros Harg Hname.
  assert (Hv : validate name = Valid).
  { unfold resolve_name in Hname.
    destruct Harg as [->| ->]; simpl in Hname;
      exact (prompt_input_valid _ _ _ _ _ Hname). }
  split; [exact Hv|now apply resolve_valid].
Qed.

Lemma prompted_name_is_valid_and_local_witness :
  validate "my-app" = Valid
  /\ resolve (cwd (installed_tool full_template)) "my-app"
     = cwd (installed_tool full_template) ++ ["my-app"].
Proof.
  apply (prompted_name_is_valid_and_local None typing_user
           (installed_tool full_template) "my-app").
  - left. reflexivity.
  - reflexivity.
Defined.

(** ** The project generator: how a run ends *)

Lemma may_throw_try_catch {A} (m : M A) (h : error -> M A) :
  may_throw m -> (forall e, may_throw (h e)) -> may_throw (try_catch m h).
Proof.
  intros Hm Hh s. specialize (Hm s). unfold try_catch, outcome_of in *.
  destruct (m s) as [[[a|x] s1] o1]; simpl in *; auto.
  destruct Hm as [e ->]. specialize (Hh e s1). unfold outcome_of in Hh.
  now destruct (h e s1) as [[r s2] o2].
Qed.

Lemma generate_may_throw run_command toolRoot c p :
  may_throw (generate run_command toolRoot c p).
Proof.
  unfold generate. apply may_throw_bind.
  - unfold copy_template. apply may_throw_bind; [apply may_throw_emit|intros ?].
    apply may_throw_try_catch.
    + apply may_throw_bind; [apply may_throw_copySync|intros ?; apply may_throw_emit].
    + intros e. apply may_throw_bind; [apply may_throw_emit|intros ?].
      apply may_throw_throw.
  - intros ?. apply may_throw_bind.
    + unfold rename_manifest.
      apply may_throw_bind; [apply may_throw_existsSync|intros [|]];
        [|apply may_throw_ret].
      apply may_throw_bind; [apply may_throw_readFileSync|intros text].
      apply may_throw_bind; [apply may_throw_JSON_parse|intros j].
      apply may_throw_bind; [apply may_throw_js|intros j'].
      apply may_throw_writeFileSync.
    + intros ? s. destruct (finish_project_returns run_command c p s)
        as (s' & o & o' & H). unfold outcome_of. now rewrite H.
Qed.

Lemma createProject_aborts run_command toolRoot arg o u :
  aborts_within thrown_or_blocking (createProject run_command toolRoot arg o u).
Proof.
  assert (W : forall A (m : M A), may_throw m -> aborts_within thrown_or_blocking m).
  { intros A m H. apply (aborts_within_weaken thrown); [now left|exact H]. }
  unfold createProject. apply aborts_within_bind.
  - intros s. unfold resolve_name, outcome_of.
    destruct arg as [name|]; [destruct (truthy_str name); [exact I|]|];
      match goal with |- context [prompt_input ?d ?c ?t s] =>
        destruct (prompt_input_outcome d c t s) as [[n ->]| ->] end;
      simpl; auto; now right.
  - intros name. apply aborts_within_bind.
    { intros s. unfold outcome_of. rewrite prompt_options_run.
      destruct (attentive o u); simpl; [exact I|now right]. }
    intros answers.
    apply aborts_within_bind; [apply W, may_throw_console_log|intros ?].
    apply aborts_within_bind; [intros s; exact I|intros here].
    apply aborts_within_bind; [apply W, may_throw_existsSync|intros [|]].
    + apply aborts_within_bind.
      { intros s. unfold ask, outcome_of.
        destruct (responds u "overwrite"); simpl; [exact I|now right]. }
      intros [|]; apply W; [|apply may_throw_console_log].
      apply may_throw_bind; [apply may_throw_removeSync|intros ?].
      apply generate_may_throw.
    + apply W, generate_may_throw.
Qed.

Lemma read_package_info_outcome toolRoot s :
  (exists version, read_package_info toolRoot s = (Ret version, s, []))
  \/ (exists e, read_package_info toolRoot s = (Abort (Thrown e), s, [])).
Proof.
  unfold read_package_info, readFileSync, bind, get_files. simpl.
  destruct (lookup (join toolRoot "package.json") (files s)) as [[[j|c]|es]|];
    simpl; try (right; eexists; reflexivity).
  destruct (get_prop "version" j); simpl;
    [right|left]; eexists; reflexivity.
Qed.

(** With every question answered, nothing in [createProject] waits. *)
Lemma createProject_answered run_command toolRoot arg o u s name :
  outcome_of (resolve_name arg u s) = Ret name ->
  attentive o u = true ->
  responds u "overwrite" = true ->
  outcome_of (createProject run_command toolRoot arg o u s) <> Abort Blocking.
Proof.
  intros Hname Hatt Hans.
  destruct (lookup (resolve (cwd s) name) (files s)) as [n|] eqn:El.
  - destruct (confirm_overwrite u) eqn:Hov.
    + rewrite (createProject_generate run_command toolRoot arg o u s name
                 Hname Hatt (or_intror (conj Hans Hov))).
      cbv zeta. unfold outcome_of. simpl.
      pose proof (generate_may_throw run_command toolRoot
                    (make_config name o (inquirer_answers o u))
                    (resolve (cwd s) name)
                    (with_files s (remove (resolve (cwd s) name) (files s))))
        as Hg.
      unfold outcome_of in Hg. intros Hb. rewrite Hb in Hg.
      destruct Hg as [e He]. discriminate.
    + rewrite (createProject_cancelled run_command toolRoot arg o u s name n
                 Hname Hatt El Hans Hov). discriminate.
  - rewrite (createProject_generate run_command toolRoot arg o u s name
               Hname Hatt (or_introl El)).
    cbv zeta. unfold outcome_of. simpl.
    pose proof (generate_may_throw run_command toolRoot
                  (make_config name o (inquirer_answers o u))
                  (resolve (cwd s) name)
                  (with_files s (remove (resolve (cwd s) name) (files s))))
      as Hg.
    unfold outcome_of in Hg. intros Hb. rewrite Hb in Hg.
    destruct Hg as [e He]. discriminate.
Qed.

(** X10.  A run of the generator ends in one of these ways and no other.
    When the start-up read of the tool's own manifest throws, the process
    reports the exception and exits with code 1 with nothing asked or
    written.  Otherwise it exits with code 0 when [createProject] returns,
    with code 1 when it throws (every exception is caught by the action),
    or it waits for ever at a prompt, which happens only when the name
    prompt, a question of the second prompt, or the overwrite question is
    left without an answer. *)
Theorem cli_exit_codes
  (run_command : string -> state -> node * bool) (toolRoot : path)
  (arg : option string) (o : options) (u : user) (s : state) :
  let start := read_package_info toolRoot in
  let create := createProject run_command toolRoot arg o u in
  let run := cli_main run_command toolRoot arg o u s in
  (exists e, outcome_of (start s) = Abort (Thrown e)
             /\ run = (Abort (Exited 1), s, [Uncaught e]))
  \/ (exists version, outcome_of (start s) = Ret version
       /\ ((outcome_of (create s) = Ret tt /\ outcome_of run = Abort (Exited 0))
           \/ (exists e, outcome_of (create s) = Abort (Thrown e)
                         /\ outcome_of run = Abort (Exited 1))
           \/ (outcome_of (create s) = Abort Blocking
               /\ outcome_of run = Abort Blocking
               /\ (outcome_of (resolve_name arg u s) = Abort Blocking
                   \/ attentive o u = false
                   \/ responds u "overwrite" = false)))).
Proof.
  intros start create run.
  destruct (read_package_info_outcome toolRoot s) as [[v Hv]|[e He]].
  2: { left. exists e. split; [unfold start, outcome_of; now rewrite He|].
       apply cli_main_dies_at_startup. unfold outcome_of. now rewrite He. }
  right. exists v. split; [unfold start, outcome_of; now rewrite Hv|].
  pose proof (createProject_aborts run_command toolRoot arg o u s) as Ha.
  fold create in Ha.
  assert (Hcause : outcome_of (create s) = Abort Blocking ->
                   outcome_of (resolve_name arg u s) = Abort Blocking
                   \/ attentive o u = false
                   \/ responds u "overwrite" = false).
  { intros Hb. pose proof (resolve_name_run arg u s) as Hr.
    destruct (outcome_of (resolve_name arg u s)) as [name|x] eqn:En.
    - destruct (attentive o u) eqn:Hatt; [|now right; left].
      destruct (responds u "overwrite") eqn:Hans; [|now right; right].
      now destruct (createProject_answered run_command toolRoot arg o u s name
                      En Hatt Hans).
    - left. unfold create, createProject, outcome_of in Hb.
      rewrite (bind_abort_run _ _ _ _ _ _ Hr) in Hb. simpl in Hb.
      now injection Hb as ->. }
  unfold run, cli_main, top_level, bind, try_catch. rewrite Hv.
  fold create. unfold outcome_of in *.
  destruct (create s) as [[[[]|x] s1] o1] eqn:Ec; simpl in *.
  - left. split; reflexivity.
  - destruct Ha as [[e ->]| ->].
    + right. left. exists e. split; reflexivity.
    + right. right. split; [reflexivity|split; [reflexivity|]].
      now apply Hcause.
Qed.

(** X11.  No failure of an optional step reaches the caller: whatever the
    spawned commands do and whatever the tree holds, the steps after the
    manifest rename return, and what they print ends in the success
    summary. *)
Theorem optional_steps_never_abort
  (run_command : string -> state -> node * bool) (toolRoot : path)
  (c : config) (p : path) (s : state) :
  exists s' o o',
    finish_project run_command c p s = (Ret tt, s', o ++ success_line :: o').
Proof. apply finish_project_returns. Qed.

(** ** The project generator: what a run leaves behind *)

Lemma put_deterministic p v t t1 t2 :
  put p v t = Some t1 -> put p v t = Some t2 -> t1 = t2.
Proof. congruence. Qed.

Lemma diverge_child p k x :
  is_prefix p x = false -> is_prefix x p = false ->
  is_prefix (p ++ [k]) x = false /\ is_prefix x (p ++ [k]) = false.
Proof.
  intros H1 H2. split.
  - destruct (is_prefix (p ++ [k]) x) eqn:E; [|reflexivity].
    rewrite (is_prefix_trans p (p ++ [k]) x (is_prefix_app _ _) E) in H1.
    discriminate.
  - destruct (is_prefix x (p ++ [k])) eqn:E; [|reflexivity].
    destruct (is_prefix_snoc _ _ _ E) as [->|H]; [|congruence].
    rewrite is_prefix_app in H1. discriminate.
Qed.

(** X12.  Take a valid project name, given as the argument or typed at
    the prompt, a run that has started (the tool's own manifest is read)
    with every optional step off and the questions asked answered, and a
    template that holds a manifest which is a JSON object.  On a target
    that is free or whose overwrite is confirmed, the run exits with code
    0 and the target holds exactly the entries of the template, with the
    manifest's [name] set to the project name: nothing of what an
    overwritten target held before is left or merged in.  Every path that
    neither lies in the target nor leads to it holds what it held before,
    and the working directory is the same. *)
Theorem generated_project_is_renamed_template
  (run_command : string -> state -> node * bool) (toolRoot : path)
  (arg : option string) (name : string) (o : options) (u : user) (s : state)
  (es tes : list (string * node)) (m : list (string * json)) :
  tool_manifest_ok toolRoot s ->
  outcome_of (resolve_name arg u s) = Ret name ->
  validate name = Valid ->
  attentive o u = true ->
  opt_skipInstall o = true -> opt_skipGit o = true -> confirm_env u = false ->
  lookup (cwd s) (files s) = Some (Dir es) ->
  lookup (join toolRoot "template") (files s) = Some (Dir tes) ->
  well_formed (Dir tes) = true ->
  alookup "package.json" tes = Some (File (Json (JObj m))) ->
  alookup name es = None
  \/ (responds u "overwrite" = true /\ confirm_overwrite u = true) ->
  is_prefix (join toolRoot "template") (join (cwd s) name) = false ->
  is_prefix (join (cwd s) name) (join toolRoot "template") = false ->
  let run := cli_main run_command toolRoot arg o u s in
  let p := join (cwd s) name in
  outcome_of run = Abort (Exited 0)
  /\ lookup p (files (state_of run)) = Some (generated_project name tes m)
  /\ (forall x, is_prefix p x = false -> is_prefix x p = false ->
                lookup x (files (state_of run)) = lookup x (files s))
  /\ cwd (state_of run) = cwd s.
Proof.
  intros Hok Hname Hvalid Hatt Hsi Hsg Henv Hcwd Htpl Hwf Hm Htarget Hd1 Hd2
    run p.
  set (c := make_config name o (inquirer_answers o u)).
  destruct (createProject_copies run_command toolRoot arg name o u s es tes
              Hname Hvalid Hatt Hcwd Htpl Hwf Htarget Hd1 Hd2)
    as (t1 & Hput1 & Hcreate).
  specialize (Hcreate _ eq_refl). fold p c in Hput1, Hcreate.
  set (s1 := with_files s t1) in *.
  assert (Hp1 : lookup p t1 = Some (Dir tes)) by apply (lookup_put_same _ _ _ _ Hput1).
  assert (Hpkg1 : lookup (join p "package.json") (files s1)
                  = Some (File (Json (JObj m)))).
  { simpl. unfold join at 1. rewrite (lookup_put_under _ _ _ _ _ Hput1).
    simpl. now rewrite Hm. }
  destruct (rename_manifest_object name p _ m Hpkg1) as (t2 & Hput2 & Hren).
  destruct (finish_project_disabled run_command c p (with_files s1 t2))
    as [o3 Hfin].
  { unfold c. simpl. now rewrite Henv. }
  { unfold c. simpl. now rewrite Hsg. }
  { unfold c. simpl. now rewrite Hsi. }
  rewrite (bind_ret_run _ _ _ _ _ _ Hren), Hfin in Hcreate. simpl in Hcreate.
  pose proof (cli_main_returns _ _ _ _ _ _ _ _ Hok Hcreate) as Hrun.
  fold run in Hrun. unfold outcome_of, state_of. rewrite Hrun. simpl.
  split; [reflexivity|split; [|split; [|reflexivity]]].
  - destruct (put_child p "package.json"
                (File (Json (JObj (aset "name" (JStr name) m)))) t1 tes Hp1)
      as (t2' & Hput2' & Hl).
    simpl in Hput2. unfold join in Hput2.
    now rewrite (put_deterministic _ _ _ _ _ Hput2 Hput2').
  - intros x Hx1 Hx2.
    destruct (diverge_child p "package.json" x Hx1 Hx2) as [Hc1 Hc2].
    simpl in Hput2. unfold join in Hput2.
    rewrite (lookup_put_diverge _ _ _ _ x Hput2 Hc1 Hc2).
    rewrite (lookup_put_diverge _ _ _ _ x Hput1 Hx1 Hx2).
    now apply lookup_remove_diverge.
Qed.

Lemma generated_project_is_renamed_template_witness :
  let run := cli_main failing_commands ["opt"; "tool"] (Some "old-app")
               flags_skip_all overwriting_user (installed_tool full_template) in
  let p := join ["home"] "old-app" in
  outcome_of run = Abort (Exited 0)
  /\ lookup p (files (state_of run))
     = Some (generated_project "old-app" full_template
               [ ("name", JStr "my-react-app"); ("version", JStr "0.1.0");
                 ("private", JBool true) ])
  /\ (forall x, is_prefix p x = false -> is_prefix x p = false ->
                lookup x (files (state_of run))
                = lookup x (files (installed_tool full_template)))
  /\ cwd (state_of run) = ["home"].
Proof.
  apply (generated_project_is_renamed_template failing_commands ["opt"; "tool"]
           (Some "old-app") "old-app" flags_skip_all overwriting_user
           (installed_tool full_template)
           [("old-app", Dir [("notes.txt", File (Raw "keep me"))])]
           full_template);
    try reflexivity.
  - exists sample_manifest, (Some (JStr "1.0.0")). split; reflexivity.
  - right. split; reflexivity.
Defined.

(** X13.  Take a run that has started (the tool's own manifest is read),
    with the name resolved, the questions asked answered, and a target
    that is free or whose overwrite is confirmed.  When the template
    cannot be read at the moment of the copy (it is absent, or the target
    that was just removed held it), the run prints the failed spinner and
    the error, and exits with code 1; a target whose overwrite was
    confirmed has by then been removed, and stays removed. *)
Theorem failed_copy_exits_after_removal
  (run_command : string -> state -> node * bool) (toolRoot : path)
  (arg : option string) (o : options) (u : user) (s : state) (name : string) :
  tool_manifest_ok toolRoot s ->
  outcome_of (resolve_name arg u s) = Ret name ->
  attentive o u = true ->
  lookup (resolve (cwd s) name) (files s) = None
  \/ (responds u "overwrite" = true /\ confirm_overwrite u = true) ->
  lookup (join toolRoot "template") (remove (resolve (cwd s) name) (files s))
  = None ->
  cli_main run_command toolRoot arg o u s
  = (Abort (Exited 1),
     with_files s (remove (resolve (cwd s) name) (files s)),
     [ creating_banner;
       SpinnerStart "Copying template files...";
       SpinnerFail "Failed to copy template files";
       ConsoleError Red "Error creating project:"
         (ENOENT (join toolRoot "template")) ]).
Proof.
  intros Hok Hname Hatt Htarget Habs.
  pose proof (createProject_generate run_command toolRoot arg o u s
                name Hname Hatt Htarget) as Hcreate.
  cbv zeta in Hcreate.
  set (p := resolve (cwd s) name) in *.
  set (c := make_config name o (inquirer_answers o u)) in *.
  set (s0 := with_files s (remove p (files s))) in *.
  assert (Hcopy : copySync (join toolRoot "template") p s0
                  = (Abort (Thrown (ENOENT (join toolRoot "template"))), s0, [])).
  { unfold copySync, bind, get_files. simpl. now rewrite Habs. }
  assert (Hgen : generate run_command toolRoot c p s0
                 = (Abort (Thrown (ENOENT (join toolRoot "template"))), s0,
                    [ SpinnerStart "Copying template files...";
                      SpinnerFail "Failed to copy template files" ])).
  { unfold generate. erewrite bind_abort_run; [reflexivity|].
    unfold copy_template.
    erewrite (bind_ret_run (emit _)) by reflexivity.
    erewrite try_catch_thrown
      by (erewrite bind_abort_run; [reflexivity|exact Hcopy]).
    reflexivity. }
  rewrite Hgen in Hcreate. simpl in Hcreate.
  now rewrite (cli_main_throws _ _ _ _ _ _ _ _ _ Hok Hcreate).
Qed.

Lemma failed_copy_exits_after_removal_witness :
  cli_main failing_commands ["opt"; "tool"] (Some "old-app") flags_skip_all
    overwriting_user tool_without_template
  = (Abort (Exited 1),
     with_files tool_without_template
       (remove (resolve (cwd tool_without_template) "old-app")
          (files tool_without_template)),
     [ creating_banner;
       SpinnerStart "Copying template files...";
       SpinnerFail "Failed to copy template files";
       ConsoleError Red "Error creating project:"
         (ENOENT (join ["opt"; "tool"] "template")) ]).
Proof.
  apply (failed_copy_exits_after_removal failing_commands ["opt"; "tool"]
           (Some "old-app") flags_skip_all overwriting_user
           tool_without_template "old-app").
  - exists sample_manifest, (Some (JStr "1.0.0")). split; reflexivity.
  - reflexivity.
  - reflexivity.
  - right. split; reflexivity.
  - reflexivity.
Defined.

(** X14.  Take a valid project name, given as the argument or typed at
    the prompt, and a run that has started (the tool's own manifest is
    read) with the questions asked answered, on a target that is free or
    whose overwrite is confirmed.  When the template's manifest is not
    JSON, the copy is made and reported as done, then the run fails with
    the parse error and exit code 1; the copied project, its manifest
    unchanged, is left at the target. *)
Theorem unparseable_manifest_fails_after_copy
  (run_command : string -> state -> node * bool) (toolRoot : path)
  (arg : option string) (name : string) (o : options) (u : user) (s : state)
  (es tes : list (string * node)) (text : string) :
  tool_manifest_ok toolRoot s ->
  outcome_of (resolve_name arg u s) = Ret name ->
  validate name = Valid ->
  attentive o u = true ->
  lookup (cwd s) (files s) = Some (Dir es) ->
  lookup (join toolRoot "template") (files s) = Some (Dir tes) ->
  well_formed (Dir tes) = true ->
  alookup "package.json" tes = Some (File (Raw text)) ->
  alookup name es = None
  \/ (responds u "overwrite" = true /\ confirm_overwrite u = true) ->
  is_prefix (join toolRoot "template") (join (cwd s) name) = false ->
  is_prefix (join (cwd s) name) (join toolRoot "template") = false ->
  let run := cli_main run_command toolRoot arg o u s in
  outcome_of run = Abort (Exited 1)
  /\ lookup (join (cwd s) name) (files (state_of run)) = Some (Dir tes)
  /\ output_of run
     = [ creating_banner;
         SpinnerStart "Copying template files...";
         SpinnerSucceed "Template files copied";
         ConsoleError Red "Error creating project:" SyntaxError ].
Proof.
  intros Hok Hname Hvalid Hatt Hcwd Htpl Hwf Hm Htarget Hd1 Hd2 run.
  set (p := join (cwd s) name) in *.
  set (c := make_config name o (inquirer_answers o u)).
  destruct (createProject_copies run_command toolRoot arg name o u s es tes
              Hname Hvalid Hatt Hcwd Htpl Hwf Htarget Hd1 Hd2)
    as (t1 & Hput1 & Hcreate).
  specialize (Hcreate _ eq_refl). fold p c in Hput1, Hcreate.
  set (s1 := with_files s t1) in *.
  assert (Hpkg1 : lookup (join p "package.json") (files s1) = Some (File (Raw text))).
  { simpl. unfold join at 1. rewrite (lookup_put_under _ _ _ _ _ Hput1).
    simpl. now rewrite Hm. }
  assert (Hren : rename_manifest name p s1 = (Abort (Thrown SyntaxError), s1, [])).
  { unfold rename_manifest.
    rewrite (bind_ret_run _ _ _ _ _ _ (existsSync_run _ s1)), Hpkg1.
    rewrite (bind_ret_run _ _ _ _ _ _ (readFileSync_run _ s1 _ Hpkg1)).
    reflexivity. }
  rewrite (bind_abort_run _ _ _ _ _ _ Hren) in Hcreate. simpl in Hcreate.
  unfold run, outcome_of, state_of, output_of.
  rewrite (cli_main_throws _ _ _ _ _ _ _ _ _ Hok Hcreate). simpl.
  repeat split. apply (lookup_put_same _ _ _ _ Hput1).
Qed.

Lemma unparseable_manifest_fails_after_copy_witness :
  let run := cli_main failing_commands ["opt"; "tool"] (Some "my-app")
               flags_none accepting_user
               (installed_tool template_with_broken_manifest) in
  outcome_of run = Abort (Exited 1)
  /\ lookup (join ["home"] "my-app") (files (state_of run))
     = Some (Dir template_with_broken_manifest)
  /\ output_of run
     = [ creating_banner;
         SpinnerStart "Copying template files...";
         SpinnerSucceed "Template files copied";
         ConsoleError Red "Error creating project:" SyntaxError ].
Proof.
  apply (unparseable_manifest_fails_after_copy failing_commands ["opt"; "tool"]
           (Some "my-app") "my-app" flags_none accepting_user
           (installed_tool template_with_broken_manifest)
           [("old-app", Dir [("notes.txt", File (Raw "keep me"))])]
           template_with_broken_manifest "{ name: ");
    try reflexivity.
  - exists sample_manifest, (Some (JStr "1.0.0")). split; reflexivity.
  - left. reflexivity.
Defined.

(** ** The project generator: the optional steps, further *)

Lemma path_eqb_siblings (p : path) (a b : string) :
  path_eqb (p ++ [a]) (p ++ [b]) = String.eqb a b.
Proof.
  induction p as [|x p IH]; simpl.
  - now rewrite andb_true_r.
  - now rewrite String.eqb_refl.
Qed.

Lemma copySync_file d a b s es c :
  lookup d (files s) = Some (Dir es) ->
  alookup a es = Some (File c) ->
  String.eqb a b = false ->
  (forall sub, alookup b es <> Some (Dir sub)) ->
  exists t',
    put (join d b) (File c) (files s) = Some t'
    /\ copySync (join d a) (join d b) s = (Ret tt, with_files s t', [])
    /\ lookup d t' = Some (Dir (aset b (File c) es)).
Proof.
  intros Hd Ha Hab Hb.
  destruct (put_child d b (File c) _ _ Hd) as (t' & Hput & Hl).
  exists t'. split; [exact Hput|split; [|exact Hl]].
  assert (Hsrc : lookup (join d a) (files s) = Some (File c)).
  { unfold join. rewrite lookup_app, Hd. simpl. now rewrite Ha. }
  assert (Heq : path_eqb (join d a) (join d b) = false).
  { unfold join. now rewrite path_eqb_siblings. }
  assert (Hm : merge (File c) (lookup (join d b) (files s)) = (Some (File c), true)).
  { unfold join. rewrite lookup_app, Hd. simpl.
    destruct (alookup b es) as [[c0|sub]|] eqn:E; try reflexivity.
    now destruct (Hb sub). }
  change (d ++ [b]) with (join d b) in Hput.
  unfold copySync.
  rewrite (bind_ret_run get_files _ s (files s) s [] eq_refl).
  rewrite Hsrc, Heq.
  rewrite (bind_ret_run _ _ _ _ _ _ (existsSync_run (dirname (join d b)) s)).
  rewrite dirname_join, Hd.
  rewrite (bind_ret_run (ret tt) _ s tt s [] eq_refl).
  rewrite (bind_ret_run get_files _ s (files s) s [] eq_refl).
  rewrite Hm, Hput. reflexivity.
Qed.

(** X15.  When the environment step runs on a project directory that
    holds the example file, and [.env] is not a directory there, the step
    reports success and the directory holds a [.env] with the content of
    the example, in place of any earlier [.env]; its other entries, the
    example among them, and everything that is not on the way to [.env]
    stay as they were. *)
Theorem env_example_is_copied
  (c : config) (p : path) (s : state) (es : list (string * node))
  (example : content) :
  setupEnvironment c = true ->
  lookup p (files s) = Some (Dir es) ->
  alookup ".env.example" es = Some (File example) ->
  (forall sub, alookup ".env" es <> Some (Dir sub)) ->
  exists t',
    setup_environment c p s
    = (Ret tt, with_files s t',
       [ SpinnerStart "Setting up environment variables...";
         SpinnerSucceed "Environment variables set up" ])
    /\ lookup p t' = Some (Dir (aset ".env" (File example) es))
    /\ forall x, is_prefix x (join p ".env") = false ->
                 lookup x t' = lookup x (files s).
Proof.
  intros Hflag Hp Hex Henv.
  destruct (copySync_file p ".env.example" ".env" s es example Hp Hex eq_refl Henv)
    as (t' & Hput & Hcopy & Hl).
  exists t'. split; [|split; [exact Hl|]].
  - unfold setup_environment. rewrite Hflag.
    erewrite (bind_ret_run (emit _)) by reflexivity.
    erewrite try_catch_ret; [reflexivity|].
    rewrite (bind_ret_run _ _ _ _ _ _ (existsSync_run _ s)).
    replace (lookup (join p ".env.example") (files s)) with (Some (File example))
      by (unfold join; rewrite lookup_app, Hp; simpl; now rewrite Hex).
    rewrite (bind_ret_run _ _ _ _ _ _ Hcopy). reflexivity.
  - intros x Hx. apply (lookup_put_file_other _ _ _ _ x Hput); [|exact Hx].
    intros sub. unfold join. rewrite lookup_app, Hp. simpl.
    destruct (alookup ".env" es) as [[c0|sub0]|] eqn:E; try discriminate.
    now destruct (Henv sub0).
Qed.

Lemma env_example_is_copied_witness :
  let c := make_config "my-app" flags_skip_all
             (inquirer_answers flags_skip_all accepting_user) in
  let s := state_of (copy_template ["opt"; "tool"] ["home"; "my-app"]
                       (installed_tool full_template)) in
  exists t',
    setup_environment c ["home"; "my-app"] s
    = (Ret tt, with_files s t',
       [ SpinnerStart "Setting up environment variables...";
         SpinnerSucceed "Environment variables set up" ])
    /\ lookup ["home"; "my-app"] t'
       = Some (Dir (aset ".env" (File (Raw "VITE_API_URL=http://localhost"))
                      full_template))
    /\ forall x, is_prefix x (join ["home"; "my-app"] ".env") = false ->
                 lookup x t' = lookup x (files s).
Proof.
  apply (env_example_is_copied _ ["home"; "my-app"] _ full_template
           (Raw "VITE_API_URL=http://localhost")).
  - reflexivity.
  - reflexivity.
  - reflexivity.
  - intros sub. discriminate.
Defined.

(** X16.  For a package manager that is not in the table of install
    commands, the install step runs no command at all: it reports the
    failure, prints the manual instructions and returns, and the file tree
    is the one it started from. *)
Theorem unsupported_package_manager_installs_nothing
  (run_command : string -> state -> node * bool)
  (c : config) (p : path) (s : state) :
  installDependencies c = true ->
  alookup (packageManager c) installCommands = None ->
  exists s',
    install_dependencies run_command c p s
    = (Ret tt, s',
       [ SpinnerStart ("Installing dependencies with " +++ packageManager c +++ "...");
         SpinnerFail "Failed to install dependencies";
         ConsoleLog Yellow (nl +++ "You can install dependencies manually by running:");
         ConsoleLog Cyan ("cd " +++ projectName c +++ " && " +++ packageManager c
                          +++ " install") ])
    /\ files s' = files s.
Proof.
  intros Hflag Hpm. unfold install_dependencies. rewrite Hflag, Hpm.
  unfold bind, try_catch, chdir, emit, console_log, execSync_opt, throw. simpl.
  destruct (lookup p (files s)) as [[c0|es]|]; simpl; eexists; split; reflexivity.
Qed.

Lemma unsupported_package_manager_installs_nothing_witness :
  let o := {| opt_template := "full"; opt_packageManager := "bun";
              opt_skipInstall := false; opt_skipGit := true |} in
  let c := make_config "my-app" o (inquirer_answers o accepting_user) in
  exists s',
    install_dependencies failing_commands c ["home"; "my-app"]
      (installed_tool full_template)
    = (Ret tt, s',
       [ SpinnerStart ("Installing dependencies with " +++ packageManager c +++ "...");
         SpinnerFail "Failed to install dependencies";
         ConsoleLog Yellow (nl +++ "You can install dependencies manually by running:");
         ConsoleLog Cyan ("cd " +++ projectName c +++ " && " +++ packageManager c
                          +++ " install") ])
    /\ files s' = files (installed_tool full_template).
Proof.
  apply (unsupported_package_manager_installs_nothing failing_commands).
  - reflexivity.
  - reflexivity.
Defined.

(** ** The test harness *)

Lemma try_catch_never_throws {A} (m : M A) (h : error -> M A) s :
  (forall e s1 e', outcome_of (h e s1) <> Abort (Thrown e')) ->
  forall e', outcome_of (try_catch m h s) <> Abort (Thrown e').
Proof.
  intros Hh e'. unfold try_catch, outcome_of in *.
  destruct (m s) as [[[a|[e| | |]] s1] o1]; simpl; try discriminate.
  specialize (Hh e s1 e'). now destruct (h e s1) as [[r s2] o2].
Qed.

Lemma try_catch_unused {A} (m : M A) (h : error -> M A) s :
  (forall e, outcome_of (m s) <> Abort (Thrown e)) -> try_catch m h s = m s.
Proof.
  intros H. unfold try_catch, outcome_of in *.
  destruct (m s) as [[[a|[e| | |]] s1] o1]; simpl in *; try reflexivity.
  now destruct (H e).
Qed.

Lemma testCLI_never_throws regexp_test gitignoreContent readmeContent
  run_command rootDir fuel tester TEST_INSTALL s e :
  outcome_of (testCLI regexp_test gitignoreContent readmeContent run_command
                rootDir fuel tester TEST_INSTALL s) <> Abort (Thrown e).
Proof.
  unfold testCLI.
  erewrite outcome_of_bind by reflexivity.
  apply try_catch_never_throws. intros e0 s1 e'. discriminate.
Qed.

(** X17.  [testCLI] handles every exception of its body itself and ends
    the process there, so it never rejects: the handler on the script's
    last statement, and with it its call of [cleanup], never runs, and
    the script behaves as [testCLI] followed by a normal exit. *)
Theorem cleanup_is_never_reached
  (regexp_test : string -> string -> bool) (gitignoreContent readmeContent : string)
  (run_command : string -> state -> node * bool) (rootDir : path) (fuel : nat)
  (tester : user) (TEST_INSTALL : bool) (s : state) :
  let test := testCLI regexp_test gitignoreContent readmeContent run_command
                rootDir fuel tester TEST_INSTALL in
  (forall e, outcome_of (test s) <> Abort (Thrown e))
  /\ test_main regexp_test gitignoreContent readmeContent run_command rootDir
       fuel tester TEST_INSTALL s
     = bind test (fun _ => exit 0) s.
Proof.
  intros test. split.
  - intros e. apply testCLI_never_throws.
  - unfold test_main. fold test. unfold bind at 1.
    rewrite try_catch_unused; [reflexivity|].
    intros e. apply testCLI_never_throws.
Qed.

(** X18.  Whatever exception the body of [testCLI] throws, in whatever
    state, the script prints it and exits with code 1 in exactly that
    state: nothing the failed run created, the test project included, is
    removed. *)
Theorem failed_test_keeps_everything
  (regexp_test : string -> string -> bool) (gitignoreContent readmeContent : string)
  (run_command : string -> state -> node * bool) (rootDir : path) (fuel : nat)
  (tester : user) (TEST_INSTALL : bool) (s s1 : state) (e : error)
  (o1 : list event) :
  testCLI_body regexp_test gitignoreContent readmeContent run_command rootDir
    fuel tester TEST_INSTALL s = (Abort (Thrown e), s1, o1) ->
  test_main regexp_test gitignoreContent readmeContent run_command rootDir
    fuel tester TEST_INSTALL s
  = (Abort (Exited 1), s1,
     ConsoleLog Plain ("🧪 Testing CLI..." +++ nl)
     :: o1 ++ [ConsoleError Plain (nl +++ "❌ CLI test failed:") e]).
Proof. apply failed_test_leaves_state. Qed.

Lemma failed_test_keeps_everything_witness :
  let body := testCLI_body no_regexp "ignore" "readme" failing_commands ["repo"] 5
                accepting_user false sample_repo in
  test_main no_regexp "ignore" "readme" failing_commands ["repo"] 5
    accepting_user false sample_repo
  = (Abort (Exited 1), state_of body,
     ConsoleLog Plain ("🧪 Testing CLI..." +++ nl)
     :: output_of body
        ++ [ConsoleError Plain (nl +++ "❌ CLI test failed:")
              (JsError "Essential file missing: index.html")]).
Proof.
  apply (failed_test_keeps_everything no_regexp "ignore" "readme"
           failing_commands ["repo"] 5 accepting_user false sample_repo).
  vm_compute. reflexivity.
Defined.

(** ** The template builder: what the copy produces *)

Lemma alookup_In {V} k (m : list (string * V)) :
  alookup k m <> None -> In k (akeys m).
Proof.
  induction m as [|[k' v'] m IH]; simpl; [congruence|].
  destruct (String.eqb_spec k k') as [->|Hne]; auto.
Qed.

Lemma lookup_prefix_dir p x rest t n :
  lookup (p ++ x :: rest) t = Some n -> exists es, lookup p t = Some (Dir es).
Proof.
  rewrite lookup_app. destruct (lookup p t) as [[c|es]|]; simpl;
    try discriminate. eauto.
Qed.

Lemma put_through_file x y rest v t c :
  lookup x t = Some (File c) -> put (x ++ y :: rest) v t = None.
Proof.
  revert t. induction x as [|k x IH]; intros t H.
  - simpl in H. injection H as ->. reflexivity.
  - cbn [lookup] in H. destruct t as [c0|es]; [discriminate|].
    destruct (alookup k es) as [ch|] eqn:E; [|discriminate].
    change ((k :: x) ++ y :: rest) with (k :: (x ++ y :: rest)).
    rewrite put_cons by (now destruct x). now rewrite E, (IH _ H).
Qed.

Lemma put_keeps_files p v t t' x c :
  put p v t = Some t' -> (forall es, lookup p t <> Some (Dir es)) -> x <> p ->
  lookup x t = Some (File c) -> lookup x t' = Some (File c).
Proof.
  intros Hput Hnd Hne Hx.
  destruct (is_prefix p x) eqn:E1.
  - apply is_prefix_split in E1 as [rest ->].
    destruct rest as [|y rest]; [rewrite app_nil_r in Hne; congruence|].
    destruct (lookup_prefix_dir _ _ _ _ _ Hx) as [es He]. now destruct (Hnd es).
  - destruct (is_prefix x p) eqn:E2.
    + apply is_prefix_split in E2 as [rest ->].
      destruct rest as [|y rest]; [rewrite app_nil_r in Hne; congruence|].
      rewrite (put_through_file _ _ _ _ _ _ Hx) in Hput. discriminate.
    + now rewrite (lookup_put_diverge _ _ _ _ _ Hput E1 E2).
Qed.

Lemma mkdirp_fresh d k t es :
  lookup d t = Some (Dir es) -> alookup k es = None ->
  mkdirp (d ++ [k]) t = put (d ++ [k]) (Dir []) t.
Proof.
  revert t. induction d as [|x d IH]; intros t H Hk.
  - simpl in H. injection H as ->. simpl. now rewrite Hk.
  - cbn [lookup] in H. destruct t as [c|es0]; [discriminate|].
    destruct (alookup x es0) as [ch|] eqn:E; [|discriminate].
    change ((x :: d) ++ [k]) with (x :: (d ++ [k])).
    rewrite put_cons by (now destruct d). cbn [mkdirp].
    now rewrite E, (IH _ H Hk).
Qed.

(** Rules for calls that cannot fail where they are made. *)
Lemma hoare_mkdirSync_ok d P (Q : unit -> state -> Prop) E :
  (forall s, P s -> exists t', mkdirp d (files s) = Some t'
                               /\ Q tt (with_files s t')) ->
  hoare P (mkdirSync d) Q E.
Proof.
  intros H s HP. destruct (H s HP) as (t' & Hm & HQ).
  unfold mkdirSync, bind, get_files, outcome_of, state_of. simpl.
  now rewrite Hm.
Qed.

Lemma hoare_readdirSync_ok p P (Q : list string -> state -> Prop) E :
  (forall s, P s -> exists es, lookup p (files s) = Some (Dir es)
                               /\ Q (akeys es) s) ->
  hoare P (readdirSync p) Q E.
Proof.
  intros H s HP. destruct (H s HP) as (es & Hl & HQ).
  unfold readdirSync, bind, get_files, outcome_of, state_of. simpl.
  now rewrite Hl.
Qed.

Lemma hoare_statSync_ok p P (Q : bool -> state -> Prop) E :
  (forall s, P s ->
     exists n, lookup p (files s) = Some n
               /\ Q (match n with Dir _ => true | File _ => false end) s) ->
  hoare P (statSync_isDirectory p) Q E.
Proof.
  intros H s HP. destruct (H s HP) as (n & Hl & HQ).
  unfold statSync_isDirectory, bind, get_files, outcome_of, state_of. simpl.
  rewrite Hl. now destruct n.
Qed.

Lemma hoare_readFileSync_ok p P (Q : content -> state -> Prop) E :
  (forall s, P s -> exists c, lookup p (files s) = Some (File c) /\ Q c s) ->
  hoare P (readFileSync p) Q E.
Proof.
  intros H s HP. destruct (H s HP) as (c & Hl & HQ).
  unfold readFileSync, bind, get_files, outcome_of, state_of. simpl.
  now rewrite Hl.
Qed.

Lemma hoare_writeFileSync_ok p c P (Q : unit -> state -> Prop) E :
  (forall s, P s ->
     (forall es, lookup p (files s) <> Some (Dir es))
     /\ exists t', put p (File c) (files s) = Some t'
                   /\ Q tt (with_files s t')) ->
  hoare P (writeFileSync p c) Q E.
Proof.
  intros H s HP. destruct (H s HP) as (Hnd & t' & Hput & HQ).
  unfold writeFileSync, bind, get_files, outcome_of, state_of. simpl.
  destruct (lookup p (files s)) as [[c1|es]|]; try (now destruct (Hnd es));
    now rewrite Hput.
Qed.

(** A loop whose invariant follows the items already visited. *)
Lemma hoare_for_each_prefix {A} (l : list A) (body : A -> M unit)
  (I : list A -> state -> Prop) E :
  (forall pre x post, l = pre ++ x :: post ->
     hoare (I pre) (body x) (fun _ => I (pre ++ [x])) E) ->
  hoare (I []) (for_each l body) (fun _ => I l) E.
Proof.
  intros H.
  assert (G : forall post pre, l = pre ++ post ->
              hoare (I pre) (for_each post body) (fun _ => I l) E).
  { induction post as [|x post IH]; intros pre Hl; simpl.
    - apply hoare_ret. intros s Hs. now rewrite Hl, app_nil_r.
    - eapply hoare_bind; [apply (H pre x post Hl)|]. intros u.
      apply IH. now rewrite Hl, <- app_assoc. }
  apply (G l []). reflexivity.
Qed.

Section CopyExact.
Variable regexp_test : string -> string -> bool.
Variable rootDir : path.
Variables (F0 : node) (c0 : path) (es0 : list (string * node)).
Hypothesis Hroot : lookup rootDir F0 = Some (Dir es0).

Local Notation tpl := (templateDir rootDir).
Local Notation excluded := (excluded_rel regexp_test).
Local Notation clean := (clean_path regexp_test).
Local Notation C := (copying rootDir F0 c0).

Lemma copying_weaken (Q Q' : path -> Prop) s :
  (forall q c, Q' q -> lookup (rootDir ++ q) F0 = Some (File c) -> Q q) ->
  C Q s -> C Q' s.
Proof.
  intros H (HJ & Hm & Hc). split; [exact HJ|split; [exact Hm|]].
  intros q c Hq Hs. apply Hc; eauto.
Qed.

(** Writing one entry of the source, as a file or as an empty directory,
    at its place in the template. *)
Lemma copying_put Q s d v n' t' :
  C Q s ->
  put (tpl ++ d) v (files s) = Some t' ->
  (forall es, lookup (tpl ++ d) (files s) <> Some (Dir es)) ->
  lookup (rootDir ++ d) F0 = Some n' -> same_kind v n' ->
  (forall y rest, lookup (y :: rest) v = None) ->
  C (fun q => Q q \/ q = d) (with_files s t').
Proof.
  intros (HJ & Hm & Hc) Hput Hnd Hsrc Hkind Hleaf. split; [|split].
  - destruct HJ as [HF Hcw]. split; [|exact Hcw]. simpl. rewrite <- HF.
    apply (remove_put tpl d v); [apply templateDir_nonempty|exact Hput].
  - intros r n Hr. simpl in Hr.
    destruct (is_prefix d r) eqn:E1.
    + apply is_prefix_split in E1 as [rest ->].
      rewrite app_assoc, (lookup_put_under _ _ _ _ rest Hput) in Hr.
      destruct rest as [|y rest]; [|now rewrite Hleaf in Hr].
      simpl in Hr. injection Hr as <-. rewrite app_nil_r. eauto.
    + destruct (is_prefix r d) eqn:E2.
      * apply is_prefix_split in E2 as [rest ->].
        destruct rest as [|y rest];
          [rewrite app_nil_r, is_prefix_refl in E1; discriminate|].
        pose proof (lookup_put_same _ _ _ _ Hput) as Hv.
        rewrite app_assoc in Hv.
        destruct (lookup_prefix_dir _ _ _ _ _ Hv) as [es He].
        rewrite He in Hr. injection Hr as <-.
        rewrite app_assoc in Hsrc.
        destruct (lookup_prefix_dir _ _ _ _ _ Hsrc) as [es' He'].
        exists (Dir es'). split; [exact He'|exact I].
      * apply Hm.
        rewrite <- (lookup_put_diverge _ _ _ _ (tpl ++ r) Hput); auto;
          now rewrite is_prefix_app_l.
  - intros q c Hq Hs. simpl.
    destruct (list_eq_dec string_dec q d) as [->|Hne].
    + rewrite Hsrc in Hs. injection Hs as ->.
      destruct v as [c'|es]; [|destruct Hkind]. simpl in Hkind. subst c'.
      apply (lookup_put_same _ _ _ _ Hput).
    + destruct Hq as [Hq| ->]; [|congruence].
      apply (put_keeps_files _ _ _ _ _ _ Hput Hnd).
      * intros Heq. now apply app_inv_head in Heq.
      * now apply Hc.
Qed.

Lemma copyDirectory_copies fuel :
  forall r es d k (Q : path -> Prop),
  r = [] \/ outside r -> clean r ->
  lookup (rootDir ++ r) F0 = Some (Dir es) -> height (Dir es) < fuel ->
  tpl ++ r = d ++ [k] ->
  hoare (fun s => C Q s /\ exists es', lookup d (files s) = Some (Dir es'))
    (copyDirectory regexp_test rootDir fuel (rootDir ++ r) (tpl ++ r))
    (fun _ s => C (fun q => Q q \/ clean_below regexp_test r q) s
                /\ exists es', lookup (tpl ++ r) (files s) = Some (Dir es'))
    never.
Proof.
  induction fuel as [|fuel IH]; intros r es d k Q Hr Hclean Hsrc Hh Hdk; [lia|].
  set (A := fun s => C Q s
                     /\ exists es', lookup (tpl ++ r) (files s) = Some (Dir es')).
  set (done := fun (pre : list string) (q : path) =>
                 Q q \/ exists i, In i pre /\ clean_below regexp_test (r ++ [i]) q).
  set (L := fun (pre : list string) (s : state) =>
              C (done pre) s
              /\ exists es', lookup (tpl ++ r) (files s) = Some (Dir es')).
  cbn [copyDirectory].
  apply hoare_bind with
    (Q1 := fun b s =>
             (C Q s /\ exists es', lookup d (files s) = Some (Dir es'))
             /\ b = match lookup (tpl ++ r) (files s) with
                    | Some _ => true | None => false end).
  { apply hoare_existsSync. intros s H. split; [exact H|reflexivity]. }
  intros present.
  apply hoare_bind with (Q1 := fun _ => A).
  { destruct present.
    - apply hoare_ret. intros s [[HC _] Hb]. split; [exact HC|].
      destruct (lookup (tpl ++ r) (files s)) as [n|] eqn:E; [|discriminate].
      destruct HC as (_ & Hm & _). destruct (Hm r n E) as (n' & Hn' & Hk).
      rewrite Hsrc in Hn'. injection Hn' as <-.
      destruct n as [c|sub]; [destruct Hk|eauto].
    - apply hoare_mkdirSync_ok. intros s [[HC [es' Hd]] Hb].
      assert (Habs : lookup (tpl ++ r) (files s) = None).
      { destruct (lookup (tpl ++ r) (files s)); [discriminate|reflexivity]. }
      assert (Hk : alookup k es' = None).
      { rewrite Hdk, lookup_app, Hd in Habs. simpl in Habs.
        destruct (alookup k es'); [discriminate|reflexivity]. }
      destruct (put_child d k (Dir []) _ _ Hd) as (t' & Hput & Hl).
      exists t'. split; [now rewrite Hdk, (mkdirp_fresh d k _ es' Hd Hk)|].
      rewrite <- Hdk in Hput. split.
      + apply copying_weaken with (Q := fun q => Q q \/ q = r);
          [intros; now left|].
        apply (copying_put Q s r (Dir []) (Dir es) t'); auto.
        * intros sub. rewrite Habs. discriminate.
        * exact I.
      + exists []. apply (lookup_put_same _ _ _ _ Hput). }
  intros _u.
  apply hoare_bind with
    (Q1 := fun items s =>
             A s
             /\ ((forall i, In i items -> excluded (r ++ [i]) = false ->
                    exists c, lookup (rootDir ++ r ++ [i]) F0 = Some c
                              /\ height c < height (Dir es)
                              /\ outside (r ++ [i]))
                 /\ forall i, alookup i es <> None -> In i items)).
  { apply hoare_readdirSync_ok. intros s [HC Hd].
    assert (HJ : framed rootDir F0 c0 s) by apply HC.
    assert (Hes : exists es_s,
               lookup (rootDir ++ r) (files s) = Some (Dir es_s)
               /\ forall i, alookup i es <> None -> In i (akeys es_s)).
    { destruct Hr as [->|Hr].
      - rewrite app_nil_r in *.
        destruct (framed_root _ _ _ _ Hroot s HJ) as (es_s & He & Hdel).
        exists es_s. split; [exact He|]. intros i Hi. apply alookup_In.
        rewrite Hroot in Hsrc. injection Hsrc as <-. subst es0.
        destruct (String.eqb_spec i "template") as [->|Hne].
        + now rewrite alookup_adel_eq in Hi.
        + rewrite alookup_adel_ne in Hi by congruence. exact Hi.
      - exists es. split.
        + now rewrite (framed_outside regexp_test EmptyString rootDir F0 c0 s r HJ Hr).
        + intros i Hi. now apply alookup_In. }
    destruct Hes as (es_s & He & Hall). exists es_s.
    split; [exact He|]. split; [split; assumption|]. split; [|exact Hall].
    intros i Hi Hex.
    apply (listed_items regexp_test EmptyString rootDir F0 c0 es0 Hroot
             s r (Dir es) es_s i); auto. }
  intros items. apply hoare_pure. intros [Hlisted Hall].
  apply hoare_conseq with (P := L []) (Q := fun _ => L items) (E := never).
  - apply hoare_for_each_prefix. intros pre i post Hitems.
    assert (Hin : In i items).
    { rewrite Hitems. apply in_or_app. right. now left. }
    rewrite shouldExclude_join.
    destruct (excluded (r ++ [i])) eqn:Eex.
    + apply hoare_console_log. intros s [HC Hd]. split; [|exact Hd].
      apply copying_weaken with (Q := done pre); [|exact HC].
      intros q c [Hq|(j & Hj & Hp & Hcl)] _; [now left|].
      apply in_app_or in Hj as [Hj|[<-|[]]].
      * right. exists j. split; [exact Hj|split; assumption].
      * rewrite (Hcl (r ++ [i])) in Eex; [discriminate| |exact Hp].
        now destruct r.
    + destruct (Hlisted i Hin Eex) as (csrc & Hc & Hhc & Hout).
      apply hoare_bind with
        (Q1 := fun b s =>
                 L pre s
                 /\ b = match csrc with Dir _ => true | File _ => false end).
      { apply hoare_statSync_ok. intros s HI. exists csrc.
        split; [|split; auto]. unfold join. rewrite <- app_assoc.
        rewrite (framed_outside regexp_test EmptyString rootDir F0 c0 s (r ++ [i]));
          auto. apply HI. }
      intros b. apply hoare_pure. intros ->.
      unfold join. rewrite <- !app_assoc.
      destruct csrc as [c|es_i].
      * apply hoare_bind with (Q1 := fun _ => L (pre ++ [i]));
          [|intros; apply hoare_console_log; auto].
        unfold copyFileSync.
        apply hoare_bind with (Q1 := fun c' s => L pre s /\ c' = c).
        { apply hoare_readFileSync_ok. intros s HI. exists c.
          split; [|auto].
          rewrite (framed_outside regexp_test EmptyString rootDir F0 c0 s (r ++ [i]));
            auto. apply HI. }
        intros c'. apply hoare_pure. intros ->.
        apply hoare_writeFileSync_ok. intros s [HC [es' Hd]].
        assert (Hnd : forall sub,
                   lookup (tpl ++ r ++ [i]) (files s) <> Some (Dir sub)).
        { intros sub Hs. destruct HC as (_ & Hm & _).
          destruct (Hm _ _ Hs) as (n' & Hn' & Hk).
          rewrite Hc in Hn'. injection Hn' as <-. exact Hk. }
        split; [exact Hnd|].
        destruct (put_child (tpl ++ r) i (File c) _ _ Hd) as (t' & Hput & Hl').
        rewrite <- app_assoc in Hput. exists t'. split; [exact Hput|]. split.
        -- apply copying_weaken with (Q := fun q => done pre q \/ q = r ++ [i]);
             [|apply (copying_put _ s (r ++ [i]) (File c) (File c) t');
               auto; reflexivity].
           intros q c1 [Hq|(j & Hj & Hp & Hcl)] Hq1; [left; now left|].
           apply in_app_or in Hj as [Hj|[<-|[]]].
           ++ left. right. exists j. split; [exact Hj|split; assumption].
           ++ right. apply is_prefix_split in Hp as [rest ->].
              destruct rest as [|y rest]; [now rewrite app_nil_r|].
              rewrite (app_assoc rootDir (r ++ [i]) (y :: rest)), lookup_app, Hc
                in Hq1. discriminate.
        -- exists (aset i (File c) es'). exact Hl'.
      * eapply hoare_conseq;
          [apply (IH (r ++ [i]) es_i (tpl ++ r) i (done pre))|..].
        -- right. exact Hout.
        -- now apply clean_snoc.
        -- exact Hc.
        -- lia.
        -- now rewrite app_assoc.
        -- intros s HI. exact HI.
        -- intros u s [HC [es' Hd]]. split.
           ++ apply copying_weaken
                with (Q := fun q => done pre q
                                    \/ clean_below regexp_test (r ++ [i]) q);
                [|exact HC].
              intros q c1 [Hq|(j & Hj & Hb)] _; [left; now left|].
              apply in_app_or in Hj as [Hj|[<-|[]]].
              ** left. right. exists j. split; assumption.
              ** now right.
           ++ rewrite app_assoc in Hd.
              apply (lookup_prefix_dir _ _ _ _ _ Hd).
        -- auto.
  - intros s [HC Hd]. split; [|exact Hd].
    apply copying_weaken with (Q := Q); [|exact HC].
    intros q c [Hq|(j & [] & _)] _. exact Hq.
  - intros u s [HC Hd]. split; [|exact Hd].
    apply copying_weaken with (Q := done items); [|exact HC].
    intros q c [Hq|[Hp Hcl]] Hq1; [now left|].
    right. apply is_prefix_split in Hp as [rest ->].
    destruct rest as [|i rest].
    + rewrite app_nil_r, Hsrc in Hq1. discriminate.
    + exists i. split; [|split; [|exact Hcl]].
      * apply Hall. rewrite app_assoc, lookup_app, Hsrc in Hq1. simpl in Hq1.
        destruct (alookup i es); [discriminate|discriminate Hq1].
      * change (r ++ i :: rest) with (r ++ [i] ++ rest).
        rewrite app_assoc. apply is_prefix_app.
  - auto.
Qed.
End CopyExact.

Lemma clean_outside regexp_test q :
  q <> [] -> clean_path regexp_test q -> outside q.
Proof.
  intros Hq Hc. destruct q as [|x q]; [congruence|]. simpl. intros ->.
  pose proof (template_excluded regexp_test) as Ht.
  rewrite (Hc ["template"]) in Ht; [discriminate|discriminate|reflexivity].
Qed.

Lemma lookup_cleared rootDir t q :
  outside q ->
  lookup (rootDir ++ q) (remove (templateDir rootDir) t) = lookup (rootDir ++ q) t.
Proof.
  intros Hq.
  destruct (outside_diverge no_regexp EmptyString rootDir q Hq) as [H1 H2].
  now apply lookup_remove_diverge.
Qed.

Lemma lookup_in_cleared rootDir t q n :
  q <> [] ->
  lookup (rootDir ++ q) (remove (templateDir rootDir) t) = Some n ->
  lookup (rootDir ++ q) t = Some n.
Proof.
  intros Hq H. destruct q as [|x q]; [congruence|].
  destruct (String.eqb_spec x "template") as [->|Hne].
  - change (rootDir ++ "template" :: q) with (rootDir ++ ["template"] ++ q) in H.
    rewrite app_assoc, lookup_app in H.
    fold (join rootDir "template") in H. fold (templateDir rootDir) in H.
    rewrite lookup_remove_self in H by apply templateDir_nonempty.
    discriminate.
  - rewrite <- H. symmetry. now apply lookup_cleared.
Qed.

(** The copy phase, run on a source root that is a directory with fuel
    beyond the height of the tree, returns, in a state that satisfies the
    invariant of the copy for every clean path. *)
Lemma copy_phase_copies regexp_test rootDir fuel s es :
  lookup rootDir (files s) = Some (Dir es) -> height (files s) < fuel ->
  exists s1 o1,
    copy_phase regexp_test rootDir fuel s = (Ret tt, s1, o1)
    /\ copying rootDir (remove (templateDir rootDir) (files s)) (cwd s)
         (fun q => clean_path regexp_test q) s1
    /\ exists es1, lookup (templateDir rootDir) (files s1) = Some (Dir es1).
Proof.
  intros Hroot Hfuel.
  set (tpl := templateDir rootDir). set (F0 := remove tpl (files s)).
  assert (Hroot0 : lookup rootDir F0 = Some (Dir (adel "template" es))).
  { unfold F0, tpl, templateDir, join. now rewrite lookup_remove_parent, Hroot. }
  assert (Hh : height (Dir (adel "template" es)) < fuel).
  { eapply Nat.le_lt_trans; [apply height_adel|].
    eapply Nat.le_lt_trans; [apply (height_lookup _ _ _ Hroot)|exact Hfuel]. }
  set (s0 := with_files s F0).
  assert (Hpre : copying rootDir F0 (cwd s) (fun _ => False) s0
                 /\ exists es', lookup rootDir (files s0) = Some (Dir es')).
  { split; [split; [|split]|eauto].
    - split; [|reflexivity]. simpl. apply remove_remove, templateDir_nonempty.
    - intros r n Hr. simpl in Hr. unfold F0 in Hr.
      rewrite lookup_app, lookup_remove_self in Hr
        by apply templateDir_nonempty. discriminate.
    - intros q c []. }
  pose proof (copyDirectory_copies regexp_test rootDir F0 (cwd s) _ Hroot0 fuel
                [] (adel "template" es) rootDir "template" (fun _ => False)
                (or_introl eq_refl) (clean_nil regexp_test)) as H.
  rewrite !app_nil_r in H.
  specialize (H Hroot0 Hh eq_refl s0 Hpre).
  unfold copy_phase.
  erewrite (bind_ret_run (console_log _ _)) by reflexivity.
  destruct (clear_template_run rootDir s) as [oc Hc]. fold tpl F0 s0 in Hc.
  rewrite (bind_ret_run _ _ _ _ _ _ Hc). unfold copy_files.
  erewrite (bind_ret_run (console_log _ _)) by reflexivity.
  unfold outcome_of, state_of in H. unfold tpl in *.
  destruct (copyDirectory regexp_test rootDir fuel rootDir (templateDir rootDir) s0)
    as [[[[]|x] s1] o1]; simpl in H; [|now unfold never in H].
  destruct H as [HC Hd]. do 2 eexists. split; [reflexivity|]. simpl.
  split; [|exact Hd].
  apply (copying_weaken rootDir F0 (cwd s)
           (fun q => False \/ clean_below regexp_test [] q)); [|exact HC].
  intros q c Hq _. right. split; [reflexivity|exact Hq].
Qed.

(** X19.  On a source root that is a directory, with fuel beyond the
    height of the tree, the copy phase of the build returns, and it is
    exact on files: every file of the source tree whose path has no
    excluded entry on the way is in the template at the same relative
    path with the same content, and every file in the template is such a
    copy of the source file at that path; nothing of an earlier template
    is left. *)
Theorem copy_is_exact_on_files
  (regexp_test : string -> string -> bool) (rootDir : path) (fuel : nat)
  (s : state) (es : list (string * node)) :
  lookup rootDir (files s) = Some (Dir es) ->
  height (files s) < fuel ->
  let run := copy_phase regexp_test rootDir fuel s in
  outcome_of run = Ret tt
  /\ (forall q c, q <> [] -> clean_path regexp_test q ->
        lookup (rootDir ++ q) (files s) = Some (File c) ->
        lookup (templateDir rootDir ++ q) (files (state_of run)) = Some (File c))
  /\ (forall q c,
        lookup (templateDir rootDir ++ q) (files (state_of run)) = Some (File c) ->
        lookup (rootDir ++ q) (files s) = Some (File c)).
Proof.
  intros Hroot Hfuel run.
  destruct (copy_phase_copies regexp_test rootDir fuel s es Hroot Hfuel)
    as (s1 & o1 & Hrun & (HJ & Hm & Hc) & es1 & Hd).
  unfold run, outcome_of, state_of. rewrite Hrun. simpl.
  split; [reflexivity|split].
  - intros q c Hq Hcl Hsrc. apply Hc; [exact Hcl|].
    now rewrite lookup_cleared by now apply (clean_outside regexp_test).
  - intros q c Hq. destruct (Hm q _ Hq) as (n' & Hn' & Hk).
    destruct n' as [c'|sub]; [|destruct Hk]. simpl in Hk. subst c'.
    apply lookup_in_cleared; [|exact Hn'].
    intros ->. rewrite app_nil_r in Hq. congruence.
Qed.

Lemma copy_is_exact_on_files_witness :
  let run := copy_phase no_regexp ["repo"] 5 sample_repo in
  outcome_of run = Ret tt
  /\ (forall q c, q <> [] -> clean_path no_regexp q ->
        lookup (["repo"] ++ q) (files sample_repo) = Some (File c) ->
        lookup (templateDir ["repo"] ++ q) (files (state_of run)) = Some (File c))
  /\ (forall q c,
        lookup (templateDir ["repo"] ++ q) (files (state_of run)) = Some (File c) ->
        lookup (["repo"] ++ q) (files sample_repo) = Some (File c)).
Proof.
  apply (copy_is_exact_on_files no_regexp ["repo"] 5 sample_repo
           (sample_entries [("package.json", File (Json sample_manifest))])).
  - reflexivity.
  - vm_compute. lia.
Defined.

(** ** The template builder: the finished template *)

Section Finished.
Variables gitignoreContent readmeContent : string.
Variable rootDir : path.

Local Notation tpl := (templateDir rootDir).

Lemma processTemplateFiles_run s1 s2 o2 E2 :
  processPackageJson rootDir s1 = (Ret tt, s2, o2) ->
  lookup tpl (files s2) = Some (Dir E2) ->
  (forall sub, alookup ".gitignore" E2 <> Some (Dir sub)) ->
  (forall sub, alookup "README.md" E2 <> Some (Dir sub)) ->
  exists t4 o,
    processTemplateFiles gitignoreContent readmeContent rootDir s1
    = (Ret tt, with_files s2 t4, o)
    /\ lookup tpl t4
       = Some (Dir (aset "README.md" (File (Raw readmeContent))
                      (aset ".gitignore" (File (Raw gitignoreContent)) E2))).
Proof.
  intros Hpkg Hd Hgi Hrd.
  destruct (writeFileSync_child tpl ".gitignore" (Raw gitignoreContent) s2 E2
              Hd Hgi) as (t3 & Hw3 & Hd3).
  destruct (writeFileSync_child tpl "README.md" (Raw readmeContent)
              (with_files s2 t3)
              (aset ".gitignore" (File (Raw gitignoreContent)) E2) Hd3)
    as (t4 & Hw4 & Hd4).
  { intros sub. rewrite alookup_aset_ne by discriminate. apply Hrd. }
  exists t4. eexists. split; [|exact Hd4].
  unfold processTemplateFiles.
  rewrite (bind_ret_run _ _ _ _ _ _ Hpkg).
  rewrite (bind_ret_run _ _ _ _ _ _ Hw3).
  erewrite (bind_ret_run (console_log _ _)) by reflexivity.
  rewrite (bind_ret_run _ _ _ _ _ _ Hw4).
  reflexivity.
Qed.

Lemma process_files_run s1 s4 o :
  processTemplateFiles gitignoreContent readmeContent rootDir s1 = (Ret tt, s4, o) ->
  exists o', process_files gitignoreContent readmeContent rootDir s1
             = (Ret tt, s4, o').
Proof.
  intros H. unfold process_files.
  erewrite (bind_ret_run (console_log _ _)) by reflexivity.
  rewrite (bind_ret_run _ _ _ _ _ _ H).
  erewrite (bind_ret_run (console_log _ _)) by reflexivity.
  rewrite (bind_ret_run process_cwd _ s4 (cwd s4) s4 [] eq_refl).
  eexists. reflexivity.
Qed.
End Finished.

(** X20.  The finished template.  On a source root that is a directory,
    with fuel beyond the height of the tree, whose manifest is absent or
    is JSON that the rewrite accepts, and where neither [.gitignore] nor
    [README.md] is a directory, the builder exits with code 0 and the
    template holds: the fixed [.gitignore] and [README.md]; the rewritten
    manifest, or none when the source has none; and every other file of
    the source whose path has no excluded entry on the way, with its
    content. *)
Theorem finished_template
  (regexp_test : string -> string -> bool) (gitignoreContent readmeContent : string)
  (rootDir : path) (fuel : nat) (s : state) (es : list (string * node)) :
  lookup rootDir (files s) = Some (Dir es) ->
  height (files s) < fuel ->
  alookup "package.json" es = None
  \/ (exists j j', alookup "package.json" es = Some (File (Json j))
                   /\ rewrite_manifest j = inr j') ->
  (forall sub, alookup ".gitignore" es <> Some (Dir sub)) ->
  (forall sub, alookup "README.md" es <> Some (Dir sub)) ->
  let run := build_main regexp_test gitignoreContent readmeContent rootDir fuel s in
  let built := fun q => lookup (templateDir rootDir ++ q) (files (state_of run)) in
  outcome_of run = Abort (Exited 0)
  /\ built [".gitignore"] = Some (File (Raw gitignoreContent))
  /\ built ["README.md"] = Some (File (Raw readmeContent))
  /\ built ["package.json"]
     = match alookup "package.json" es with
       | Some (File (Json j)) =>
           match rewrite_manifest j with
           | inr j' => Some (File (Json j'))
           | inl _ => None
           end
       | _ => None
       end
  /\ (forall q c, clean_path regexp_test q ->
        q <> ["package.json"] -> q <> [".gitignore"] -> q <> ["README.md"] ->
        lookup (rootDir ++ q) (files s) = Some (File c) ->
        built q = Some (File c)).
Proof.
  intros Hroot Hfuel Hman Hgi Hrd run built.
  destruct (copy_phase_copies regexp_test rootDir fuel s es Hroot Hfuel)
    as (s1 & o1 & Hcopy & (HJ & Hm & Hc) & es1 & Hd1).
  (* what the source holds at the three names, seen in the template *)
  assert (Hsrc1 : forall x, x <> "template" ->
            lookup (rootDir ++ [x]) (remove (templateDir rootDir) (files s)) = alookup x es).
  { intros x Hx. rewrite lookup_cleared by exact Hx.
    rewrite lookup_app, Hroot. simpl. now destruct (alookup x es). }
  assert (Htop : forall x, lookup ((templateDir rootDir) ++ [x]) (files s1) = alookup x es1).
  { intros x. rewrite lookup_app, Hd1. simpl. now destruct (alookup x es1). }
  assert (Hnodir : forall x, x <> "template" ->
            (forall sub, alookup x es <> Some (Dir sub)) ->
            forall sub, alookup x es1 <> Some (Dir sub)).
  { intros x Hx Hes sub Hs. rewrite <- Htop in Hs.
    destruct (Hm [x] _ Hs) as (n' & Hn' & Hk).
    rewrite Hsrc1 in Hn' by exact Hx.
    destruct n' as [c|sub']; [destruct Hk|]. now destruct (Hes sub'). }
  (* the manifest *)
  assert (Hpkg : exists s2 o2 E2,
            processPackageJson rootDir s1 = (Ret tt, s2, o2)
            /\ lookup (templateDir rootDir) (files s2) = Some (Dir E2)
            /\ (forall x, x <> "package.json" -> alookup x E2 = alookup x es1)
            /\ alookup "package.json" E2
               = match alookup "package.json" es with
                 | Some (File (Json j)) =>
                     match rewrite_manifest j with
                     | inr j' => Some (File (Json j'))
                     | inl _ => None
                     end
                 | _ => None
                 end).
  { destruct Hman as [Hnone|(j & j' & Hj & Hrw)].
    - assert (Habs : lookup (join (templateDir rootDir) "package.json") (files s1) = None).
      { unfold join. destruct (lookup ((templateDir rootDir) ++ ["package.json"]) (files s1))
          as [n|] eqn:E; [|reflexivity].
        destruct (Hm ["package.json"] _ E) as (n' & Hn' & _).
        rewrite Hsrc1, Hnone in Hn' by discriminate. discriminate. }
      exists s1, [], es1.
      split; [now apply processPackageJson_missing|].
      split; [exact Hd1|split; [reflexivity|]].
      rewrite Hnone. unfold join in Habs. now rewrite Htop in Habs.
    - assert (Hin : lookup (join (templateDir rootDir) "package.json") (files s1)
                    = Some (File (Json j))).
      { apply Hc; [apply clean_single; reflexivity|].
        now rewrite Hsrc1 by discriminate. }
      pose proof (processPackageJson_json rootDir s1 j Hin) as Hrun.
      rewrite Hrw in Hrun. destruct Hrun as (t' & Hput & Hrun).
      destruct (put_child (templateDir rootDir) "package.json" (File (Json j')) _ _ Hd1)
        as (t'' & Hput' & Hd2).
      unfold join in Hput. rewrite Hput in Hput'.
      injection Hput' as <-.
      exists (with_files s1 t'), [ConsoleLog Plain "Processed: package.json"],
        (aset "package.json" (File (Json j')) es1).
      split; [exact Hrun|split; [exact Hd2|split]].
      + intros x Hx. now rewrite alookup_aset_ne by congruence.
      + now rewrite alookup_aset_eq, Hj, Hrw. }
  destruct Hpkg as (s2 & o2 & E2 & Hrun2 & Hd2 & Hother & Hpkg).
  destruct (processTemplateFiles_run gitignoreContent readmeContent rootDir
              s1 s2 o2 E2 Hrun2 Hd2) as (t4 & o4 & Hrun4 & Hd4).
  { intros sub. rewrite Hother by discriminate.
    now apply Hnodir; [discriminate|]. }
  { intros sub. rewrite Hother by discriminate.
    now apply Hnodir; [discriminate|]. }
  destruct (process_files_run gitignoreContent readmeContent rootDir _ _ _ Hrun4)
    as [o5 Hrun5].
  assert (Hbuild : fst (buildTemplate regexp_test gitignoreContent readmeContent
                          rootDir fuel s)
                   = (Ret tt, with_files s2 t4)).
  { rewrite buildTemplate_phases, (bind_fst _ _ _ _ _ _ Hcopy).
    now rewrite Hrun5. }
  assert (Hrun : fst run = (Abort (Exited 0), with_files s2 t4)).
  { unfold run, build_main.
    destruct (buildTemplate regexp_test gitignoreContent readmeContent rootDir
                fuel s) as [[r sb] ob] eqn:Eb.
    simpl in Hbuild. injection Hbuild as -> ->.
    now rewrite (bind_fst _ _ _ _ _ _ (try_catch_ret _ _ _ _ _ _ Eb)). }
  assert (Hfinal : forall x rest,
            built (x :: rest)
            = match alookup x (aset "README.md" (File (Raw readmeContent))
                                 (aset ".gitignore" (File (Raw gitignoreContent)) E2))
              with
              | Some n => lookup rest n
              | None => None
              end).
  { intros x rest. unfold built, state_of. rewrite Hrun.
    cbn [fst snd files with_files]. now rewrite lookup_app, Hd4. }
  split; [unfold outcome_of; now rewrite Hrun|].
  split; [rewrite Hfinal, alookup_aset_ne, alookup_aset_eq by discriminate;
          reflexivity|].
  split; [rewrite Hfinal, alookup_aset_eq; reflexivity|].
  split.
  - rewrite Hfinal, !alookup_aset_ne, Hpkg by discriminate.
    destruct (alookup "package.json" es) as [[[j|c]|sub]|]; try reflexivity.
    now destruct (rewrite_manifest j).
  - intros q c Hcl Hq1 Hq2 Hq3 Hsrc.
    destruct q as [|x rest].
    { rewrite app_nil_r, Hroot in Hsrc. discriminate. }
    assert (Hout : outside (x :: rest))
      by (apply (clean_outside regexp_test); [discriminate|exact Hcl]).
    assert (H1 : lookup ((templateDir rootDir) ++ x :: rest) (files s1) = Some (File c)).
    { apply Hc; [exact Hcl|].
      now rewrite lookup_cleared by exact Hout. }
    rewrite lookup_app, Hd1 in H1. cbn [lookup] in H1.
    assert (Hx : forall name, alookup name es <> None ->
               (forall sub, alookup name es <> Some (Dir sub)) ->
               x = name -> rest = []).
    { intros name Hsome Hnd ->. destruct rest as [|y rest]; [reflexivity|].
      change (rootDir ++ name :: y :: rest) with (rootDir ++ [name] ++ y :: rest)
        in Hsrc.
      rewrite app_assoc in Hsrc.
      destruct (lookup_prefix_dir _ _ _ _ _ Hsrc) as [sub Hs].
      rewrite lookup_app, Hroot in Hs. simpl in Hs.
      destruct (alookup name es) as [n|]; [|discriminate].
      injection Hs as ->. now destruct (Hnd sub). }
    assert (Hsome : alookup x es <> None).
    { change (rootDir ++ x :: rest) with (rootDir ++ [x] ++ rest) in Hsrc.
      rewrite app_assoc, lookup_app, lookup_app, Hroot in Hsrc. simpl in Hsrc.
      now destruct (alookup x es). }
    rewrite Hfinal.
    destruct (String.eqb_spec x "README.md") as [Hr|Hr].
    { rewrite (Hx "README.md") in Hq3; subst; auto; congruence. }
    rewrite alookup_aset_ne by congruence.
    destruct (String.eqb_spec x ".gitignore") as [Hg|Hg].
    { rewrite (Hx ".gitignore") in Hq2; subst; auto; congruence. }
    rewrite alookup_aset_ne by congruence.
    destruct (String.eqb_spec x "package.json") as [Hp|Hp].
    { assert (Hnd : forall sub, alookup "package.json" es <> Some (Dir sub)).
      { intros sub Hs. destruct Hman as [Hn|(j & j' & Hj & _)]; congruence. }
      rewrite (Hx "package.json") in Hq1; subst; auto; congruence. }
    rewrite Hother by exact Hp. exact H1.
Qed.

Lemma finished_template_witness :
  let run := build_main no_regexp "ignore" "readme" ["repo"] 5 sample_repo in
  let built := fun q => lookup (templateDir ["repo"] ++ q) (files (state_of run)) in
  let es := sample_entries [("package.json", File (Json sample_manifest))] in
  outcome_of run = Abort (Exited 0)
  /\ built [".gitignore"] = Some (File (Raw "ignore"))
  /\ built ["README.md"] = Some (File (Raw "readme"))
  /\ built ["package.json"]
     = match alookup "package.json" es with
       | Some (File (Json j)) =>
           match rewrite_manifest j with
           | inr j' => Some (File (Json j'))
           | inl _ => None
           end
       | _ => None
       end
  /\ (forall q c, clean_path no_regexp q ->
        q <> ["package.json"] -> q <> [".gitignore"] -> q <> ["README.md"] ->
        lookup (["repo"] ++ q) (files sample_repo) = Some (File c) ->
        built q = Some (File c)).
Proof.
  apply (finished_template no_regexp "ignore" "readme" ["repo"] 5 sample_repo
           (sample_entries [("package.json", File (Json sample_manifest))])).
  - reflexivity.
  - vm_compute. lia.
  - right. exists sample_manifest. eexists. split; reflexivity.
  - intros sub. discriminate.
  - intros sub. discriminate.
Defined.

(** ** The project generator: configuration and the git step *)

(** X21.  The configuration in terms of the flags and the user alone: a
    step that a flag skips is off whatever is answered, a step that is
    asked about follows the answer, and the package manager is the
    option's unless that is the empty string. *)
Theorem config_follows_flags_then_answers
  (name : string) (o : options) (u : user) :
  let c := make_config name o (inquirer_answers o u) in
  projectName c = name
  /\ installDependencies c = negb (opt_skipInstall o) && confirm_install u
  /\ initializeGit c = negb (opt_skipGit o) && confirm_git u
  /\ setupEnvironment c = confirm_env u
  /\ packageManager c
     = (if truthy_str (opt_packageManager o) then opt_packageManager o
        else if truthy_str (pick_packageManager u) then pick_packageManager u
             else "npm")
  /\ template c = opt_template o.
Proof.
  unfold make_config, inquirer_answers, not_false. simpl.
  repeat split.
  - destruct (opt_skipInstall o), (confirm_install u); reflexivity.
  - destruct (opt_skipGit o), (confirm_git u); reflexivity.
  - destruct (confirm_env u); reflexivity.
  - destruct (truthy_str (opt_packageManager o)); reflexivity.
Qed.

(** X22.  When the git step runs on a project path that is a directory,
    it returns whatever the three commands do, with either the success
    or the warning line after the start line, and it leaves the process
    in the project directory. *)
Theorem git_step_warns_and_moves
  (run_command : string -> state -> node * bool)
  (c : config) (p : path) (s : state) (es : list (string * node)) :
  initializeGit c = true ->
  lookup p (files s) = Some (Dir es) ->
  exists s' last,
    initialize_git run_command c p s
    = (Ret tt, s', [SpinnerStart "Initializing git repository..."; last])
    /\ cwd s' = p
    /\ (last = SpinnerSucceed "Git repository initialized"
        \/ last = SpinnerWarn "Could not initialize git repository").
Proof.
  intros Hflag Hdir. unfold initialize_git. rewrite Hflag.
  unfold bind, try_catch, chdir, execSync, emit. rewrite Hdir.
  repeat (match goal with
          | |- context [run_command ?cmd ?st] =>
              destruct (run_command cmd st) as [? [|]]
          end; cbn -[String.append]);
    do 2 eexists; (split; [reflexivity|split; [reflexivity|auto]]).
Qed.

Lemma git_step_warns_and_moves_witness :
  let o := {| opt_template := "full"; opt_packageManager := "npm";
              opt_skipInstall := true; opt_skipGit := false |} in
  let c := make_config "old-app" o (inquirer_answers o accepting_user) in
  exists s' last,
    initialize_git failing_commands c ["home"; "old-app"]
      (installed_tool full_template)
    = (Ret tt, s', [SpinnerStart "Initializing git repository..."; last])
    /\ cwd s' = ["home"; "old-app"]
    /\ (last = SpinnerSucceed "Git repository initialized"
        \/ last = SpinnerWarn "Could not initialize git repository").
Proof.
  apply (git_step_warns_and_moves failing_commands _ ["home"; "old-app"]
           (installed_tool full_template)
           [("notes.txt", File (Raw "keep me"))]).
  - reflexivity.
  - reflexivity.
Defined.

(** ** The test harness: cleanup and what a passing run shows *)

(** X23.  [cleanup] returns, and after it the test project is absent;
    every path that neither lies in the test project nor leads to it holds
    what it held before, and the working directory is the same. *)
Theorem cleanup_removes_the_test_project_only (rootDir : path) (s : state) :
  let run := cleanup rootDir s in
  outcome_of run = Ret tt
  /\ lookup (testProjectPath rootDir) (files (state_of run)) = None
  /\ (forall x, is_prefix (testProjectPath rootDir) x = false ->
                is_prefix x (testProjectPath rootDir) = false ->
                lookup x (files (state_of run)) = lookup x (files s))
  /\ cwd (state_of run) = cwd s.
Proof.
  assert (Hne : testProjectPath rootDir <> []).
  { unfold testProjectPath, join. now destruct rootDir. }
  unfold cleanup, bind, existsSync, removeSync, bind, get_files, set_files, ret,
    console_log, emit, outcome_of, state_of. simpl.
  destruct (lookup (testProjectPath rootDir) (files s)) eqn:E; simpl.
  - repeat split.
    + now apply lookup_remove_self.
    + intros x H1 H2. now apply lookup_remove_diverge.
  - repeat split. exact E.
Qed.

Section Certification.
Variable regexp_test : string -> string -> bool.
Variables gitignoreContent readmeContent : string.
Variable run_command : string -> state -> node * bool.
Variable rootDir : path.
Variable fuel : nat.
Variable tester : user.

Local Notation tp := (testProjectPath rootDir).
Local Notation any := (fun (_ : state) => True).
Local Notation E := not_an_exit.

Lemma hoare_spawn cmd dir child P :
  hoare P (spawn cmd dir child) (fun _ _ => True) E.
Proof.
  intros s _. unfold spawn, outcome_of, state_of.
  destruct (child _) as [[[a|[e|[|n]| |]] s1] o1]; simpl; auto;
    intros k; discriminate.
Qed.

Lemma hoare_throw {A} e P (Q : A -> state -> Prop) : hoare P (throw e) Q E.
Proof. intros s _ n. discriminate. Qed.

Lemma hoare_log {A} st msg (P : state -> Prop) (k : M A) Q :
  hoare P k Q E -> hoare P (bind (console_log st msg) (fun _ => k)) Q E.
Proof.
  intros H. apply hoare_bind with (Q1 := fun _ => P); [|intros _; exact H].
  apply hoare_console_log. auto.
Qed.

Lemma testCLI_body_certifies :
  hoare any
    (testCLI_body regexp_test gitignoreContent readmeContent run_command
       rootDir fuel tester false)
    (fun _ => certified rootDir) E.
Proof.
  assert (HT : forall s e, E (Thrown e) s) by (intros s e n; discriminate).
  unfold testCLI_body.
  apply hoare_bind with (Q1 := fun _ => any);
    [apply hoare_existsSync; auto|intros present].
  apply hoare_bind with (Q1 := fun _ => any).
  { destruct present; [|apply hoare_ret; auto].
    apply hoare_log. apply hoare_removeSync. auto. }
  intros ?. apply hoare_log.
  apply hoare_bind with (Q1 := fun _ => any); [apply hoare_spawn|intros ?].
  apply hoare_log.
  apply hoare_bind with (Q1 := fun _ => any); [apply hoare_spawn|intros ?].
  apply hoare_bind with (Q1 := fun _ => any);
    [apply hoare_existsSync; auto|intros created].
  apply hoare_bind with (Q1 := fun _ => any).
  { destruct created; simpl; [apply hoare_ret; auto|apply hoare_throw]. }
  intros ?. do 2 apply hoare_log.
  set (Ess := fun (s : state) =>
                forall file, In file essentialFiles ->
                  lookup (join_rel tp file) (files s) <> None).
  apply hoare_bind with (Q1 := fun _ => Ess).
  { apply hoare_conseq
      with (P := (fun (pre : list string) s =>
                    forall file, In file pre ->
                      lookup (join_rel tp file) (files s) <> None) [])
           (Q := fun _ s => forall file, In file essentialFiles ->
                      lookup (join_rel tp file) (files s) <> None)
           (E := E); [|intros s _ file []|auto|auto].
    apply (hoare_for_each_prefix essentialFiles _
               (fun pre s => forall file, In file pre ->
                               lookup (join_rel tp file) (files s) <> None)).
      intros pre file post _.
      apply hoare_bind with
        (Q1 := fun b s =>
                 (forall f, In f pre -> lookup (join_rel tp f) (files s) <> None)
                 /\ b = match lookup (join_rel tp file) (files s) with
                        | Some _ => true | None => false end).
      { apply hoare_existsSync. auto. }
      intros there.
      apply hoare_bind with
        (Q1 := fun _ s => forall f, In f (pre ++ [file]) ->
                            lookup (join_rel tp f) (files s) <> None).
      { destruct there; simpl; [|apply hoare_throw].
        apply hoare_ret. intros s [Hpre Hb] f Hf.
        apply in_app_or in Hf as [Hf|[<-|[]]]; [now apply Hpre|].
        destruct (lookup (join_rel tp file) (files s)); [discriminate|].
        discriminate. }
      intros ?. apply hoare_console_log. auto. }
  intros ?.
  apply hoare_bind with
    (Q1 := fun text s =>
             Ess s /\ lookup (join tp "package.json") (files s)
                      = Some (File text)).
  { apply hoare_readFileSync; auto. }
  intros text.
  apply hoare_bind with
    (Q1 := fun j s =>
             Ess s /\ lookup (join tp "package.json") (files s)
                      = Some (File (Json j))).
  { destruct text as [j|raw]; [apply hoare_ret; auto|apply hoare_throw]. }
  intros j.
  apply hoare_bind with
    (Q1 := fun name s =>
             (Ess s /\ lookup (join tp "package.json") (files s)
                       = Some (File (Json j)))
             /\ get_prop "name" j = inr name).
  { apply hoare_js; auto. }
  intros name. apply hoare_pure. intros Hname.
  apply hoare_bind with
    (Q1 := fun _ s =>
             (Ess s /\ lookup (join tp "package.json") (files s)
                       = Some (File (Json j)))
             /\ name = Some (JStr testProjectName)).
  { destruct name as [[| | |n| |]|]; try apply hoare_throw.
    destruct (String.eqb_spec n testProjectName) as [->|Hne]; simpl;
      [|apply hoare_throw].
    apply hoare_ret. auto. }
  intros ?. apply hoare_pure. intros ->. apply hoare_log.
  apply hoare_bind with
    (Q1 := fun b s =>
             (Ess s /\ lookup (join tp "package.json") (files s)
                       = Some (File (Json j)))
             /\ get_prop "bin" j = inr b).
  { apply hoare_js; auto. }
  intros b. apply hoare_pure. intros Hbin.
  apply hoare_bind with
    (Q1 := fun f s =>
             (Ess s /\ lookup (join tp "package.json") (files s)
                       = Some (File (Json j)))
             /\ get_prop "files" j = inr f).
  { apply hoare_js; auto. }
  intros f. apply hoare_pure. intros Hfiles.
  apply hoare_bind with
    (Q1 := fun _ s =>
             (Ess s /\ lookup (join tp "package.json") (files s)
                       = Some (File (Json j)))
             /\ truthy_opt b || truthy_opt f = false).
  { destruct (truthy_opt b || truthy_opt f); [apply hoare_throw|].
    apply hoare_ret. auto. }
  intros ?. apply hoare_pure. intros Hfalsy.
  apply orb_false_iff in Hfalsy as [Hb Hf].
  apply hoare_log.
  apply hoare_bind with
    (Q1 := fun _ s =>
             Ess s /\ lookup (join tp "package.json") (files s)
                      = Some (File (Json j)));
    [apply hoare_ret; auto|intros ?].
  do 5 apply hoare_log. apply hoare_console_log.
  intros s [Hess Hpkg]. split; [exact Hess|].
  exists j. repeat split; eauto.
Qed.
End Certification.

(** X24.  A passing run certifies the project: when the harness, run
    without the install test, exits with code 0, the test project it
    leaves holds every essential file and a JSON manifest whose [name] is
    the test project's name and whose [bin] and [files] are absent or
    falsy. *)
Theorem passing_test_certifies_project
  (regexp_test : string -> string -> bool) (gitignoreContent readmeContent : string)
  (run_command : string -> state -> node * bool) (rootDir : path) (fuel : nat)
  (tester : user) (s : state) :
  let run := test_main regexp_test gitignoreContent readmeContent run_command
               rootDir fuel tester false s in
  outcome_of run = Abort (Exited 0) ->
  certified rootDir (state_of run).
Proof.
  intros run.
  pose proof (testCLI_body_certifies regexp_test gitignoreContent readmeContent
                run_command rootDir fuel tester s Logic.I) as H.
  unfold run, test_main, testCLI, bind, try_catch, console_log, emit, exit,
    abort_with, outcome_of, state_of in *.
  destruct (testCLI_body regexp_test gitignoreContent readmeContent run_command
              rootDir fuel tester false s) as [[[[]|[e|n| |]] s1] o1];
    simpl in *; intros Hexit; try discriminate; try exact H.
  now destruct (H n).
Qed.

Lemma passing_test_certifies_project_witness :
  certified ["repo"]
    (state_of (test_main no_regexp "ignore" "readme" failing_commands ["repo"] 5
                 accepting_user false complete_repo)).
Proof.
  apply (passing_test_certifies_project no_regexp "ignore" "readme"
           failing_commands ["repo"] 5 accepting_user complete_repo).
  vm_compute. reflexivity.
Defined.

(** ** The project generator: start-up and unanswered questions *)

Lemma cli_main_waits run_command toolRoot arg o u s s1 o1 :
  tool_manifest_ok toolRoot s ->
  createProject run_command toolRoot arg o u s = (Abort Blocking, s1, o1) ->
  cli_main run_command toolRoot arg o u s = (Abort Blocking, s1, o1).
Proof.
  intros Hok H. destruct (read_package_info_run toolRoot s Hok) as [v Hv].
  unfold cli_main, top_level, bind, try_catch. rewrite Hv, H. reflexivity.
Qed.

(** X25.  The generator starts only if the tool's own manifest, next to
    its [bin] directory, is a file that holds JSON other than [null]:
    otherwise the read at the top of the module throws where nothing
    catches it, and the process reports the exception and exits with code
    1 with nothing asked, nothing written and no line of the tool
    printed. *)
Theorem unreadable_tool_manifest_stops_at_startup
  (run_command : string -> state -> node * bool) (toolRoot : path)
  (arg : option string) (o : options) (u : user) (s : state) :
  ~ tool_manifest_ok toolRoot s ->
  exists e,
    cli_main run_command toolRoot arg o u s = (Abort (Exited 1), s, [Uncaught e]).
Proof.
  intros Hbad.
  destruct (read_package_info_outcome toolRoot s) as [[v Hv]|[e He]].
  - exfalso. apply Hbad. revert Hv.
    unfold tool_manifest_ok, read_package_info, readFileSync, bind, get_files.
    simpl.
    destruct (lookup (join toolRoot "package.json") (files s)) as [[[j|c]|es]|];
      simpl; try discriminate.
    destruct (get_prop "version" j) as [e|v'] eqn:Ev; simpl; [discriminate|].
    intros _. exists j, v'. split; [reflexivity|exact Ev].
  - exists e. apply cli_main_dies_at_startup. unfold outcome_of. now rewrite He.
Qed.

Lemma unreadable_tool_manifest_stops_at_startup_witness :
  exists e,
    cli_main failing_commands ["opt"; "tool"] (Some "my-app") flags_skip_all
      accepting_user tool_without_manifest
    = (Abort (Exited 1), tool_without_manifest, [Uncaught e]).
Proof.
  apply (unreadable_tool_manifest_stops_at_startup failing_commands
           ["opt"; "tool"] (Some "my-app") flags_skip_all accepting_user
           tool_without_manifest).
  intros (pj & v & H & _). discriminate H.
Defined.

(** X26.  Once the generator has started and the name is settled, a
    question that gets no answer stops the run where it is asked: at the
    second prompt before anything is printed or written, and at the
    overwrite question, which is asked only when the target exists, after
    the banner and with the target as it was. *)
Theorem unanswered_question_stops_the_run
  (run_command : string -> state -> node * bool) (toolRoot : path)
  (arg : option string) (o : options) (u : user) (s : state) (name : string) :
  tool_manifest_ok toolRoot s ->
  outcome_of (resolve_name arg u s) = Ret name ->
  let run := cli_main run_command toolRoot arg o u s in
  (attentive o u = false -> run = (Abort Blocking, s, []))
  /\ (attentive o u = true ->
      lookup (resolve (cwd s) name) (files s) <> None ->
      responds u "overwrite" = false ->
      run = (Abort Blocking, s, [creating_banner])).
Proof.
  intros Hok Hname run. split.
  - intros Hatt. apply (cli_main_waits _ _ _ _ _ _ _ _ Hok).
    now apply (createProject_waits_for_options _ _ _ _ _ _ name).
  - intros Hatt Hex Hans.
    destruct (lookup (resolve (cwd s) name) (files s)) as [n|] eqn:El;
      [|congruence].
    apply (cli_main_waits _ _ _ _ _ _ _ _ Hok).
    now apply (createProject_waits_for_overwrite _ _ _ _ _ _ name n).
Qed.

Lemma unanswered_question_stops_the_run_witness :
  let s := installed_tool full_template in
  cli_main failing_commands ["opt"; "tool"] (Some "my-app") flags_skip_all
    silent_user s
  = (Abort Blocking, s, []).
Proof.
  intros s.
  refine (proj1 (unanswered_question_stops_the_run failing_commands
                   ["opt"; "tool"] (Some "my-app") flags_skip_all silent_user
                   s "my-app" _ eq_refl) eq_refl).
  exists sample_manifest, (Some (JStr "1.0.0")). split; reflexivity.
Defined.
